(** * The agent orchestration core of the tRNA chat service

    A shallow embedding of the Python sources under [chat_django/chat]:
    the planning loop of [chatbot.py] and of [processor.py], the RNA
    database adapter [tools/rna_database/mcp.py], the cache wrapper of
    [tool_wrappers.py] over the in-memory cache of [cache.py], and the
    properties of the specification that concern them.  Further parts of
    the code follow with properties of their own: the monitoring wrapper
    and the Redis cache, the genome browser of [tools/crap], the event
    stream and the pages of [views.py], the registry of
    [event_manager.py].

    Python text is a [string] (a sequence of bytes); the builtins below
    are those of [str] on ASCII text.  Dictionaries are [gmap]s, lists are
    [list]s, exceptions are values of [exn], and code that both yields
    events and may raise is written in a state-and-exception monad whose
    state survives a raise, as the effects of a Python generator do. *)

From Stdlib Require Import ZArith String Ascii List Bool Lia.
From Stdlib Require Import DecimalString.
From Stdlib Require Import Sorted.
From stdpp Require Import gmap strings.
Import ListNotations.

Local Open Scope string_scope.
Local Open Scope Z_scope.

(** ** Python builtins on [str] *)

Module Py.

(** Exceptions that the modelled code can raise.  [ExternalError] stands
    for any exception raised by a collaborator (database, language model,
    network); its text is what [str(e)] gives. *)
Inductive exn : Type :=
| ValueError (msg : string)
| TypeError (msg : string)
| KeyError (key : string)
| AttributeError (msg : string)
| UnboundLocalError (name : string)
| OverflowError (msg : string)
| ExternalError (msg : string).

(** [str(e)] *)
Definition str_of_exn (e : exn) : string :=
  match e with
  | ValueError m | TypeError m | AttributeError m | OverflowError m
  | ExternalError m => m
  | KeyError k => "'" ++ k ++ "'"
  | UnboundLocalError n =>
      "cannot access local variable '" ++ n
        ++ "' where it is not associated with a value"
  end.

Definition is_empty (s : string) : bool :=
  match s with EmptyString => true | String _ _ => false end.

(** [c.isspace()] for an ASCII character: tab, line feed, vertical tab,
    form feed, carriage return, the four separators 0x1c..0x1f, space. *)
Definition isspace (c : ascii) : bool :=
  let n := nat_of_ascii c in
  (((9 <=? n) && (n <=? 13)) || ((28 <=? n) && (n <=? 32)))%nat.

(** [s.split()]: the maximal runs of non-blank characters, in order.
    [word] is the run being read. *)
Fixpoint split_from (word s : string) : list string :=
  match s with
  | EmptyString => if is_empty word then [] else [word]
  | String c rest =>
      if isspace c
      then (if is_empty word then split_from "" rest
            else word :: split_from "" rest)
      else split_from (word ++ String c "") rest
  end.

Definition split (s : string) : list string := split_from "" s.

(** [part.split(':', 1)] when [':' in part]: the text before the first
    colon and the text after it; [None] when there is no colon. *)
Fixpoint split_colon (s : string) : option (string * string) :=
  match s with
  | EmptyString => None
  | String c rest =>
      if Ascii.eqb c ":" then Some ("", rest)
      else match split_colon rest with
           | Some (k, v) => Some (String c k, v)
           | None => None
           end
  end.

Fixpoint lstrip (q : ascii) (s : string) : string :=
  match s with
  | EmptyString => ""
  | String c rest => if Ascii.eqb c q then lstrip q rest else s
  end.

Fixpoint rstrip (q : ascii) (s : string) : string :=
  match s with
  | EmptyString => ""
  | String c rest =>
      let rest' := rstrip q rest in
      if Ascii.eqb c q && is_empty rest' then "" else String c rest'
  end.

(** [value.strip(q)]: the occurrences of [q] at both ends are dropped;
    the source calls it with the double quote. *)
Definition strip (q : ascii) (s : string) : string := rstrip q (lstrip q s).

Definition lower_ascii (c : ascii) : ascii :=
  let n := nat_of_ascii c in
  if ((65 <=? n) && (n <=? 90))%nat then ascii_of_nat (n + 32) else c.

(** [s.lower()] *)
Fixpoint lower (s : string) : string :=
  match s with
  | EmptyString => ""
  | String c rest => String (lower_ascii c) (lower rest)
  end.

(** [s.startswith(p)] *)
Definition startswith (s p : string) : bool := String.prefix p s.

(** [needle in hay] *)
Fixpoint contains (needle hay : string) : bool :=
  String.prefix needle hay
  || match hay with
     | EmptyString => false
     | String _ rest => contains needle rest
     end.

(** [sep.join(items)] *)
Fixpoint join (sep : string) (items : list string) : string :=
  match items with
  | [] => ""
  | [x] => x
  | x :: rest => x ++ sep ++ join sep rest
  end.

(** [str(n)] for an integer *)
Definition str_of_Z (z : Z) : string := NilZero.string_of_int (Z.to_int z).
Definition str_of_nat (n : nat) : string := str_of_Z (Z.of_nat n).

Definition digit_of (c : ascii) : option Z :=
  let n := nat_of_ascii c in
  if ((48 <=? n) && (n <=? 57))%nat then Some (Z.of_nat (n - 48)) else None.

(** The digits of an integer literal: decimal digits, single underscores
    allowed between two digits.  [after_digit] tells whether the
    character just read was a digit. *)
Fixpoint int_digits (acc : Z) (after_digit : bool) (s : string) : option Z :=
  match s with
  | EmptyString => if after_digit then Some acc else None
  | String c rest =>
      match digit_of c with
      | Some d => int_digits (10 * acc + d) true rest
      | None =>
          if Ascii.eqb c "_" && after_digit
          then int_digits acc false rest
          else None
      end
  end.

Fixpoint lstrip_space (s : string) : string :=
  match s with
  | EmptyString => ""
  | String c rest => if isspace c then lstrip_space rest else s
  end.

Fixpoint rstrip_space (s : string) : string :=
  match s with
  | EmptyString => ""
  | String c rest =>
      let rest' := rstrip_space rest in
      if isspace c && is_empty rest' then "" else String c rest'
  end.

(** [int(s)] for a string: surrounding blanks are dropped, then an
    optional sign and the digits; anything else is a [ValueError]. *)
Definition int_of_str (s : string) : exn + Z :=
  let t := rstrip_space (lstrip_space s) in
  let parsed :=
    match t with
    | String "+" rest => int_digits 0 false rest
    | String "-" rest => option_map Z.opp (int_digits 0 false rest)
    | _ => int_digits 0 false t
    end in
  match parsed with
  | Some z => inr z
  | None =>
      inl (ValueError ("invalid literal for int() with base 10: '" ++ s ++ "'"))
  end.

(** Sequencing of computations that may raise. *)
Definition bind {A B : Type} (x : exn + A) (k : A -> exn + B) : exn + B :=
  match x with
  | inl e => inl e
  | inr a => k a
  end.

(** The double quote, and a value between double quotes as the
    directive grammar writes it. *)
Definition dquote : ascii := "034"%char.
Definition quoted (s : string) : string :=
  String dquote (s ++ String dquote "").

End Py.

Notation "'let*' x ':=' e 'in' k" := (Py.bind e (fun x => k))
  (at level 10, x name, e at level 200, k at level 200).


(** ** The tool protocol: [MCPRequest], [MCPResponse] and their payloads *)

Module Mcp.

(** What the code needs of Python's [float]: [float(s)], [float(n)],
    [int(x)], [str(x)] and truthiness.  The numbers themselves stay
    abstract. *)
Class PyFloat (F : Type) : Type := {
  float_of_str : string -> Py.exn + F;
  float_of_int : Z -> Py.exn + F;
  int_of_float : F -> Py.exn + Z;
  str_of_float : F -> string;
  float_nonzero : F -> bool
}.

(** The [context] dictionary: user, chat and message identifiers. *)
Record context : Type := {
  user_id : string;
  chat_id : option string;
  message_id : option string
}.

Section Values.
Context {F : Type} {Json : Type}.

(** Values held by a parameter dictionary. *)
Inductive pyval : Type :=
| VStr (s : string)
| VInt (z : Z)
| VFloat (f : F)
| VNone
| VContext (c : context).

Record MCPRequest : Type := {
  method : string;
  params : gmap string pyval
}.

(** The dictionary the RNA adapter builds for one stored sequence. *)
Record seq_record : Type := {
  seq_id : string;
  gene_symbol : string;
  anticodon : string;
  isotype : string;
  general_score : F;
  isotype_score : F;
  model_agreement : bool;
  features : string;
  locus : string;
  sequences : Json;
  overview : Json;
  images : Json
}.

(** The dictionary the genome browser adapter returns. *)
Record region : Type := {
  reg_sequence : string;
  reg_annotated_sequence : string;
  reg_features : list Json;
  reg_tracks : list string;
  reg_browser_link : string;
  reg_image : option string   (* base64 data of the screenshot *)
}.

(** [MCPResponse.data]: one shape per successful method. *)
Inductive data : Type :=
| DataSearch (seqs : list seq_record) (count : nat)
             (query : gmap string pyval)
  (* {"sequences": ..., "metadata": {"count": ..., "query": ...}} *)
| DataSequence (s : seq_record)        (* {"sequence": ...} *)
| DataCapabilities                     (* {"capabilities": ...} *)
| DataRegion (r : region).

Record MCPResponse : Type := {
  status : string;
  data_of : option data;
  error : option (gmap string string)
}.

Definition success (d : data) : MCPResponse :=
  {| status := "success"; data_of := Some d; error := None |}.

(** [MCPResponse(status="error", error={"code": c, "message": m})] *)
Definition failure (code msg : string) : MCPResponse :=
  {| status := "error"; data_of := None;
     error := Some (<["message" := msg]> {["code" := code]}) |}.

(** The [code] of a failure, and the number of records of a search
    result. *)
Definition error_code (r : MCPResponse) : option string :=
  match error r with
  | Some d => d !! "code"
  | None => None
  end.

Definition returned (r : MCPResponse) : option nat :=
  match data_of r with
  | Some (DataSearch seqs _ _) => Some (length seqs)
  | _ => None
  end.

End Values.

Arguments pyval : clear implicits.
Arguments MCPRequest : clear implicits.
Arguments seq_record : clear implicits.
Arguments region : clear implicits.
Arguments data : clear implicits.
Arguments MCPResponse : clear implicits.

End Mcp.

(** ** Directives: the [key:value] tokens after the tool name

    The three parsers of the source ([chatbot.py], [processor.py] and
    [RNADatabaseMCP.search_rna]) share one loop and differ in the keys
    they recognise. *)

Module Directive.
Import Mcp.

Section Parse.
Context {F : Type} `{PyFloat F}.

#[local] Abbreviation dict := (gmap string (pyval F)).

(** What one recognised key stores, [None] for a key that is not
    recognised; [int()] and [float()] may raise. *)
Definition key_parser : Type :=
  string -> string -> Py.exn + option (string * pyval F).

Definition store_str (name value : string)
  : Py.exn + option (string * pyval F) :=
  inr (Some (name, VStr value)).

Definition store_float (name value : string)
  : Py.exn + option (string * pyval F) :=
  let* f := float_of_str value in inr (Some (name, VFloat f)).

Definition store_int (name value : string)
  : Py.exn + option (string * pyval F) :=
  let* n := Py.int_of_str value in inr (Some (name, VInt n)).

(** The [if]/[elif] chain of [chatbot.py]. *)
Definition chatbot_key : key_parser := fun key value =>
  if String.eqb key "Isotype_from_Anticodon" then store_str "isotype" value
  else if String.eqb key "Anticodon" then store_str "anticodon" value
  else if String.eqb key "species" then store_str "species" value
  else if String.eqb key "json_field" then store_str "json_field" value
  else if String.eqb key "json_value" then store_str "json_value" value
  else if String.eqb key "General_tRNA_Model_Score_min"
       then store_float "min_general_score" value
  else if String.eqb key "General_tRNA_Model_Score_max"
       then store_float "max_general_score" value
  else if String.eqb key "Isotype_Model_Score_min"
       then store_float "min_isotype_score" value
  else if String.eqb key "Isotype_Model_Score_max"
       then store_float "max_isotype_score" value
  else if String.eqb key "sort_by" then store_str "sort_by" value
  else if String.eqb key "order" then store_str "order" (Py.lower value)
  else if String.eqb key "limit" then store_int "limit" value
  else if String.eqb key "sample" then store_str "sample" (Py.lower value)
  else inr None.

(** The chain of [processor.py]. *)
Definition processor_key : key_parser := fun key value =>
  if String.eqb key "Isotype_from_Anticodon" then store_str "isotype" value
  else if String.eqb key "Anticodon" then store_str "anticodon" value
  else if String.eqb key "General_tRNA_Model_Score_min"
       then store_float "min_score" value
  else if String.eqb key "species" then store_str "species" value
  else if String.eqb key "limit" then store_int "limit" value
  else inr None.

(** The chain of [RNADatabaseMCP.search_rna]. *)
Definition search_rna_key : key_parser := fun key value =>
  if String.eqb key "search_term" then store_str "search_term" value
  else if String.eqb key "Isotype_from_Anticodon"
       then store_str "isotype" value
  else if String.eqb key "Anticodon" then store_str "anticodon" value
  else if String.eqb key "species" then store_str "species" value
  else if String.eqb key "General_tRNA_Model_Score_min"
       then store_float "min_general_score" value
  else if String.eqb key "General_tRNA_Model_Score_max"
       then store_float "max_general_score" value
  else if String.eqb key "Isotype_Model_Score_min"
       then store_float "min_isotype_score" value
  else if String.eqb key "Isotype_Model_Score_max"
       then store_float "max_isotype_score" value
  else if String.eqb key "json_field" then store_str "json_field" value
  else if String.eqb key "json_value" then store_str "json_value" value
  else if String.eqb key "sort_by" then store_str "sort_by" value
  else if String.eqb key "order" then store_str "order" (Py.lower value)
  else if String.eqb key "limit" then store_int "limit" value
  else if String.eqb key "sample" then store_str "sample" (Py.lower value)
  else inr None.

(** The CRAP branch keeps every pair: [params[key] = value]. *)
Definition crap_key : key_parser := fun key value => store_str key value.

(** One token: skipped without a colon, else split at the first colon,
    the value stripped of double quotes, and the key looked up. *)
Definition parse_part (kp : key_parser) (acc : dict) (part : string)
  : Py.exn + dict :=
  match Py.split_colon part with
  | None => inr acc
  | Some (key, value) =>
      let* stored := kp key (Py.strip Py.dquote value) in
      match stored with
      | Some (name, v) => inr (<[name := v]> acc)
      | None => inr acc
      end
  end.

(** [for part in parts[1:]: ...], left to right; the first raise ends
    the loop. *)
Fixpoint parse_parts (kp : key_parser) (acc : dict) (parts : list string)
  : Py.exn + dict :=
  match parts with
  | [] => inr acc
  | part :: rest =>
      let* acc' := parse_part kp acc part in parse_parts kp acc' rest
  end.

(** [params = {}; parts = plan_response.split(); for part in parts[1:]] *)
Definition parse (kp : key_parser) (plan_response : string)
  : Py.exn + dict :=
  parse_parts kp ∅ (tail (Py.split plan_response)).

End Parse.
End Directive.

(** ** The RNA database adapter: [RNADatabaseMCP] of [tools/rna_database/mcp.py] *)

Module RnaDb.
Import Mcp.

Section Adapter.
Context {F Json Row : Type} `{PyFloat F}.

#[local] Abbreviation dict := (gmap string (pyval F)).

(** Collaborators of the adapter.  [py_str v] is [str(v)] as an f-string
    formats it.  [sqlite_connect] is [sqlite3.connect(self.db_path)].
    [sqlite_select sql args] is what SQLite returns for a [SELECT]
    statement without its [LIMIT] clause, rows in result order, or the
    error it raises.  [acreate] is [Sequence.objects.acreate] followed by
    the reading of the stored fields; it raises when a column does not
    convert. *)
Variable py_str : pyval F -> string.
Variable sqlite_connect : Py.exn + unit.
Variable sqlite_select : string -> list (pyval F) -> Py.exn + list Row.
Variable acreate : context -> Row -> Py.exn + seq_record F Json.

Definition valid_species : gset string := {[ "human"; "yeast"; "mouse" ]}.

Definition species_display_names : gmap string string :=
  <["human" := "Human (Homo sapiens)"]>
  (<["yeast" := "Yeast (Saccharomyces cerevisiae)"]>
  (<["mouse" := "Mouse (Mus musculus)"]> ∅)).

(** A statement under construction: its text, its bound arguments, and
    the number of its [LIMIT] clause once that clause is appended
    ([" LIMIT ?"] with the number bound, or the literal [" LIMIT 10"]). *)
Record statement : Type := {
  sql : string;
  sql_params : list (pyval F);
  sql_limit : option Z
}.

(** The text of a statement starts with [base]. *)
Definition extends (base : string) (st : statement) : Prop :=
  exists rest, sql st = base ++ rest.

(** [sql += text; sql_params.extend(args)] *)
Definition add (st : statement) (text : string) (args : list (pyval F))
  : statement :=
  {| sql := sql st ++ text; sql_params := sql_params st ++ args;
     sql_limit := sql_limit st |}.

(** [int(v)] and [float(v)] *)
Definition to_int (v : pyval F) : Py.exn + Z :=
  match v with
  | VStr s => Py.int_of_str s
  | VInt z => inr z
  | VFloat f => int_of_float f
  | VNone | VContext _ =>
      inl (Py.TypeError "int() argument must be a string, a bytes-like object or a real number")
  end.

Definition to_float (v : pyval F) : Py.exn + F :=
  match v with
  | VStr s => float_of_str s
  | VInt z => float_of_int z
  | VFloat f => inr f
  | VNone | VContext _ =>
      inl (Py.TypeError "float() argument must be a string or a real number")
  end.

(** [params.get(key, default).lower()] *)
Definition get_lower (p : dict) (key default : string) : Py.exn + string :=
  match p !! key with
  | None => inr (Py.lower default)
  | Some (VStr s) => inr (Py.lower s)
  | Some _ => inl (Py.AttributeError "object has no attribute 'lower'")
  end.

(** The species of a request: lower-cased, and ['human'] when it is not
    one of the three tables. *)
Definition species_of (p : dict) : Py.exn + string :=
  let* species := get_lower p "species" "human" in
  inr (if decide (species ∈ valid_species) then species else "human").

(** A request whose species is absent, or is a name that, lower-cased,
    is none of the three tables. *)
Definition defaults_to_human (p : dict) : bool :=
  match p !! "species" with
  | None => true
  | Some (VStr s) => negb (bool_decide (Py.lower s ∈ valid_species))
  | Some _ => false
  end.

(** [self.species_display_names[species]] *)
Definition display_name (species : string) : Py.exn + string :=
  match species_display_names !! species with
  | Some n => inr n
  | None => inl (Py.KeyError species)
  end.

(** [if key in params: sql += text; sql_params.append(float(params[key]))] *)
Definition add_score (p : dict) (key text : string) (st : statement)
  : Py.exn + statement :=
  match p !! key with
  | Some v => let* f := to_float v in inr (add st text [VFloat f])
  | None => inr st
  end.

Definition is_str (v : pyval F) (s : string) : bool :=
  match v with VStr t => String.eqb t s | _ => false end.

(** [if 'search_term' in params:] both columns are matched against
    [%term%]. *)
Definition add_search_term (p : dict) (st : statement) : statement :=
  match p !! "search_term" with
  | Some v =>
      let search_pattern := VStr ("%" ++ py_str v ++ "%") in
      add st " AND (Isotype_from_Anticodon LIKE ? OR GtRNAdb_Gene_Symbol LIKE ?)"
          [search_pattern; search_pattern]
  | None => st
  end.

(** [if key in params: sql += text; sql_params.append(params[key])] *)
Definition add_filter (p : dict) (key text : string) (st : statement)
  : statement :=
  match p !! key with
  | Some v => add st text [v]
  | None => st
  end.

(** [if 'json_field' in params and 'json_value' in params:] only the
    Modomics field adds clauses. *)
Definition add_json_filter (p : dict) (st : statement) : statement :=
  match p !! "json_field", p !! "json_value" with
  | Some field, Some value =>
      if is_str field "Known Modifications (Modomics)"
      then add (add st " AND json_valid(overview)" [])
               " AND json_extract(overview, '%Known Modifications (Modomics)%) = ?"
               [value]
      else st
  | _, _ => st
  end.

(** [if 'sort_by' in params:] *)
Definition add_sorting (p : dict) (st : statement) : Py.exn + statement :=
  match p !! "sort_by" with
  | Some v =>
      let* order := get_lower p "order" "" in
      inr (add (add st (" ORDER BY " ++ py_str v) [])
               (if String.eqb order "desc" then " DESC" else " ASC") [])
  | None => inr st
  end.

(** [if params.get('sample', '').lower() == 'random':] *)
Definition add_sampling (p : dict) (st : statement) : Py.exn + statement :=
  let* sample := get_lower p "sample" "" in
  inr (if String.eqb sample "random" then add st " ORDER BY RANDOM()" []
       else st).

(** [if 'limit' in params:] the requested number is bound as it is;
    otherwise the clause is [LIMIT 10]. *)
Definition add_limit (p : dict) (st : statement) : Py.exn + statement :=
  match p !! "limit" with
  | Some v =>
      let* n := to_int v in
      inr {| sql := sql st; sql_params := sql_params st; sql_limit := Some n |}
  | None =>
      inr {| sql := sql st; sql_params := sql_params st; sql_limit := Some 10 |}
  end.

(** The statement that [_handle_search] builds, clause by clause. *)
Definition search_statement (p : dict) : Py.exn + statement :=
  let* species := species_of p in
  let* _ := display_name species in
  let* st :=
    add_score p "min_general_score"
      " AND CAST(General_tRNA_Model_Score AS FLOAT) >= ?"
      (add_filter p "anticodon" " AND Anticodon = ?"
         (add_filter p "isotype" " AND Isotype_from_Anticodon = ?"
            (add_search_term p
               {| sql := "SELECT * FROM " ++ species ++ " WHERE 1=1";
                  sql_params := []; sql_limit := None |}))) in
  let* st := add_score p "max_general_score"
               " AND CAST(General_tRNA_Model_Score AS FLOAT) <= ?" st in
  let* st := add_score p "min_isotype_score"
               " AND CAST(Isotype_Model_Score AS FLOAT) >= ?" st in
  let* st := add_score p "max_isotype_score"
               " AND CAST(Isotype_Model_Score AS FLOAT) <= ?" st in
  let* st := add_sorting p (add_json_filter p st) in
  let* st := add_sampling p st in
  add_limit p st.

(** SQLite's [LIMIT n]: the first [n] rows of the result, all of them when
    [n] is negative.  A bound integer must fit 64 bits. *)
Definition sqlite_limit (n : Z) (rows : list Row) : Py.exn + list Row :=
  if (n <? - 2 ^ 63) || (2 ^ 63 <=? n)
  then inl (Py.OverflowError "Python int too large to convert to SQLite INTEGER")
  else inr (if n <? 0 then rows else take (Z.to_nat n) rows).

(** [cursor.execute(sql, sql_params); cursor.fetchall()] *)
Definition fetchall (st : statement) : Py.exn + list Row :=
  match sql_limit st with
  | Some n =>
      let* rows := sqlite_select (sql st) (sql_params st) in
      sqlite_limit n rows
  | None => sqlite_select (sql st) (sql_params st)
  end.

(** The loop that stores each row and collects its dictionary; the first
    raise ends it. *)
Fixpoint store_rows (ctx : context) (rows : list Row)
  : Py.exn + list (seq_record F Json) :=
  match rows with
  | [] => inr []
  | row :: rest =>
      let* s := acreate ctx row in
      let* ss := store_rows ctx rest in
      inr (s :: ss)
  end.

(** [_handle_search]: any exception becomes a [SEARCH_ERROR] failure. *)
Definition _handle_search (p : dict) (ctx : context) : MCPResponse F Json :=
  match
    (let* st := search_statement p in
     let* conn := sqlite_connect in
     let* rows := fetchall st in
     let* seqs := store_rows ctx rows in
     inr (success (DataSearch seqs (length seqs) p)))
  with
  | inr response => response
  | inl e => failure "SEARCH_ERROR" (Py.str_of_exn e)
  end.

(** Truthiness of a parameter that may be missing: [not params.get(key)]. *)
Definition truthy (v : option (pyval F)) : bool :=
  match v with
  | None | Some VNone => false
  | Some (VStr s) => negb (Py.is_empty s)
  | Some (VInt z) => negb (z =? 0)
  | Some (VFloat f) => float_nonzero f
  | Some (VContext _) => true
  end.

(** [_handle_get_sequence]: a missing gene symbol and a gene symbol that
    is not found are failures of their own; any exception becomes a
    [GET_SEQUENCE_ERROR] failure. *)
Definition _handle_get_sequence (p : dict) (ctx : context)
  : MCPResponse F Json :=
  if negb (truthy (p !! "gene_symbol"))
  then failure "MISSING_PARAM" "gene_symbol parameter is required"
  else
    let gene_symbol := default VNone (p !! "gene_symbol") in
    match
      (let* conn := sqlite_connect in
       let* species := species_of p in
       let* _ := display_name species in
       let* rows :=
         sqlite_select
           ("SELECT * FROM " ++ species ++ " WHERE GtRNAdb_Gene_Symbol = ?")
           [gene_symbol] in
       match rows with
       | [] =>
           inr (failure "NOT_FOUND"
                  ("No sequence found with gene symbol: " ++ py_str gene_symbol))
       | row :: _ =>
           let* s := acreate ctx row in
           inr (success (DataSequence s))
       end)
    with
    | inr response => response
    | inl e => failure "GET_SEQUENCE_ERROR" (Py.str_of_exn e)
    end.

(** [context.update(request.params.get("context", {}))]: the dictionary
    the callers pass carries the three identifiers and replaces them all;
    the empty text updates nothing; any other value raises, outside the
    [try] of [process_request]. *)
Definition update_context (self : context) (p : dict) : Py.exn + context :=
  match p !! "context" with
  | None => inr self
  | Some (VContext c) => inr c
  | Some (VStr s) =>
      if Py.is_empty s then inr self
      else inl (Py.ValueError "dictionary update sequence element #0 has length 1; 2 is required")
  | Some _ => inl (Py.TypeError "object is not iterable")
  end.

(** [process_request].  The two handlers catch every exception
    themselves, so the [INTERNAL_ERROR] branch of the source has nothing
    left to catch. *)
Definition process_request (self : context) (request : MCPRequest F)
  : Py.exn + MCPResponse F Json :=
  let* ctx := update_context self (params request) in
  if String.eqb (method request) "get_capabilities"
  then inr (success DataCapabilities)
  else if String.eqb (method request) "search_rna"
  then inr (_handle_search (params request) ctx)
  else if String.eqb (method request) "get_sequence"
  then inr (_handle_get_sequence (params request) ctx)
  else inr (failure "INVALID_METHOD" ("Unknown method: " ++ method request)).

(** [search_rna], the interface that takes the directive text. *)
Definition search_rna (self : context) (query : string)
  : Py.exn + (string * list (seq_record F Json)) :=
  let* parsed := Directive.parse Directive.search_rna_key query in
  let p := <["context" := VContext self]> parsed in
  let* response := process_request self {| method := "search_rna"; params := p |} in
  match String.eqb (status response) "success", data_of response with
  | true, None => inl (Py.TypeError "argument of type 'NoneType' is not iterable")
  | true, Some (DataSearch seqs _ _) =>
      let* species := species_of p in inr (species, seqs)
  | _, _ => inr ("human", [])
  end.

End Adapter.

Arguments statement : clear implicits.

End RnaDb.

(** ** The limit of the sibling server: [_handle_search_rna] of [mcp_server.py] *)

Module McpServer.
Import Mcp.

Section Limit.
Context {F : Type} `{PyFloat F}.

Definition MAX_RESULTS : Z := 10.
Definition DEFAULT_LIMIT : Z := 5.

(** [int(arguments.get('limit', DEFAULT_LIMIT))], the default taken on a
    [ValueError] or a [TypeError]; other exceptions pass. *)
Definition requested_limit (arguments : gmap string (pyval F)) : Py.exn + Z :=
  match arguments !! "limit" with
  | None => inr DEFAULT_LIMIT
  | Some v =>
      match RnaDb.to_int v with
      | inr n => inr n
      | inl (Py.ValueError _) | inl (Py.TypeError _) => inr DEFAULT_LIMIT
      | inl e => inl e
      end
  end.

(** [final_limit = min(requested_limit, MAX_RESULTS)] *)
Definition final_limit (arguments : gmap string (pyval F)) : Py.exn + Z :=
  let* requested := requested_limit arguments in
  inr (Z.min requested MAX_RESULTS).

End Limit.
End McpServer.

(** ** The in-memory cache of [cache.py] and [CachedTool] of [tool_wrappers.py] *)

Module Cache.
Import Mcp.

Section InMemoryCache.
Context {F Json J : Type}.

(** [json.loads] and the truthiness of what it returns ([J] is the type
    of decoded JSON values). *)
Variable json_loads : string -> Py.exn + J.
Variable json_truthy : J -> bool.

(** An entry of [self._cache]: JSON text, pickled bytes (kept here as the
    value that [pickle.loads] gives back), or the value itself. *)
Inductive stored : Type :=
| StoredText (s : string)
| StoredBytes (r : MCPResponse F Json)
| StoredObject (r : MCPResponse F Json).

(** What [get] hands back. *)
Inductive cached : Type :=
| Response (r : MCPResponse F Json)
| Decoded (j : J).

(** [json.dumps(value)] for an [MCPResponse]: a dataclass instance is not
    JSON serializable. *)
Definition json_dumps (value : MCPResponse F Json) : Py.exn + string :=
  inl (Py.TypeError "Object of type MCPResponse is not JSON serializable").

(** Matching an exception against [except (TypeError, json.JSONEncodeError)]:
    the tuple is evaluated first, and the [json] module has no attribute
    of that name. *)
Definition except_TypeError_JSONEncodeError (e : Py.exn) : Py.exn + bool :=
  inl (Py.AttributeError "module 'json' has no attribute 'JSONEncodeError'").

(** The inner [try] of [set]: JSON first, pickle when the clause matches. *)
Definition serialize (value : MCPResponse F Json) : Py.exn + stored :=
  match json_dumps value with
  | inr text => inr (StoredText text)
  | inl e =>
      let* matches := except_TypeError_JSONEncodeError e in
      if matches then inr (StoredBytes value) else inl e
  end.

(** [InMemoryCache.set]: the expiry is ignored; when serialization raises,
    the original value is stored. *)
Definition set (key : string) (value : MCPResponse F Json) (expiry : option Z)
    (c : gmap string stored) : gmap string stored :=
  match serialize value with
  | inr entry => <[key := entry]> c
  | inl _ => <[key := StoredObject value]> c
  end.

(** [InMemoryCache.get] *)
Definition get (key : string) (c : gmap string stored) : option cached :=
  match c !! key with
  | None => None
  | Some (StoredObject r) => Some (Response r)
  | Some (StoredText s) =>
      match json_loads s with
      | inr j => Some (Decoded j)
      | inl _ => None
      end
  | Some (StoredBytes r) => Some (Response r)
  end.

(** [InMemoryCache.delete] *)
Definition delete (key : string) (c : gmap string stored) : gmap string stored :=
  base.delete key c.

(** [if cached_response:] an [MCPResponse] is an object without [__bool__]
    or [__len__], hence true. *)
Definition truthy (v : cached) : bool :=
  match v with
  | Response _ => true
  | Decoded j => json_truthy j
  end.

(** The wrapped tool answers its [n]-th invocation; the class name, the
    text of [request.params] and [hash] come from the interpreter. *)
Variable tool : nat -> MCPRequest F -> Py.exn + MCPResponse F Json.
Variable class_name : string.
Variable py_hash : string -> Z.
Variable str_of_params : gmap string (pyval F) -> string.
Variable cache_ttl : Z.

(** The process-wide cache and the number of calls the wrapped tool has
    received. *)
Record world : Type := {
  entries : gmap string stored;
  tool_calls : nat
}.

(** [f"tool:{self.tool.__class__.__name__}:{hash(f'{request.method}:{request.params}')}"] *)
Definition cache_key (request : MCPRequest F) : string :=
  "tool:" ++ class_name ++ ":"
    ++ Py.str_of_Z (py_hash (method request ++ ":" ++ str_of_params (params request))).

(** The miss path: the wrapped tool is invoked, and a successful response
    is stored. *)
Definition invoke (key : string) (request : MCPRequest F) (w : world)
  : (Py.exn + cached) * world :=
  let w1 := {| entries := entries w; tool_calls := S (tool_calls w) |} in
  match tool (tool_calls w) request with
  | inl e => (inl e, w1)
  | inr response =>
      if String.eqb (status response) "success"
      then (inr (Response response),
            {| entries := set key response (Some cache_ttl) (entries w1);
               tool_calls := tool_calls w1 |})
      else (inr (Response response), w1)
  end.

(** [CachedTool.process_request] *)
Definition process_request (request : MCPRequest F) (w : world)
  : (Py.exn + cached) * world :=
  let key := cache_key request in
  match get key (entries w) with
  | Some cached_response =>
      if truthy cached_response then (inr cached_response, w)
      else invoke key request w
  | None => invoke key request w
  end.

(** The lookup of a request finds nothing that counts as a response. *)
Definition misses (request : MCPRequest F) (w : world) : bool :=
  match get (cache_key request) (entries w) with
  | Some v => negb (truthy v)
  | None => true
  end.

End InMemoryCache.

Arguments stored : clear implicits.
Arguments cached : clear implicits.
Arguments world : clear implicits.

End Cache.

(** ** Generator code: state, yielded events, exceptions

    A computation over a state [S] that returns a value or raises; the
    state reached when it raises is kept, as what a generator has
    yielded and changed before an exception stays yielded and changed. *)

Module Gen.

Definition M (S A : Type) : Type := S -> (Py.exn + A) * S.

Definition ret {S A : Type} (a : A) : M S A := fun st => (inr a, st).

Definition bind {S A B : Type} (m : M S A) (k : A -> M S B) : M S B :=
  fun st =>
    match m st with
    | (inr a, st') => k a st'
    | (inl x, st') => (inl x, st')
    end.

Definition lift {S A : Type} (x : Py.exn + A) : M S A := fun st => (x, st).

Definition gets {S A : Type} (f : S -> A) : M S A :=
  fun st => (inr (f st), st).

Definition modify {S : Type} (f : S -> S) : M S unit :=
  fun st => (inr tt, f st).

(** A computation leaves an observation of the state as it was, and a
    computation only adds to a list held by the state. *)
Definition keeps {S A X : Type} (f : S -> X) (m : M S A) : Prop :=
  forall st, f (snd (m st)) = f st.

Definition grows {S A X : Type} (f : S -> list X) (m : M S A) : Prop :=
  forall st, exists added, f (snd (m st)) = (f st ++ added)%list.

(** A computation only adds, to a list held by the state, elements that
    satisfy [P]. *)
Definition adds {S A X : Type} (f : S -> list X) (P : X -> Prop) (m : M S A)
  : Prop :=
  forall st, exists added,
    f (snd (m st)) = (f st ++ added)%list /\ Forall P added.

End Gen.

Notation "'let!' x ':=' m 'in' k" := (Gen.bind m (fun x => k))
  (at level 10, x name, m at level 200, k at level 200).
Notation "m ';;' k" := (Gen.bind m (fun _ => k))
  (at level 100, k at level 200, right associativity).

(** ** The orchestrator of [chatbot.py]: [ChatProcessor.process_message] *)

Module Chatbot.
Import Mcp.

Definition SENTINEL : string := "PLAN_COMPLETE=True".
Definition newline : string := String "010"%char "".

Section Processor.
Context {F Json : Type} `{PyFloat F}.

(** A JSON value inside an outbound event, and an event: the dictionary
    handed to [json.dumps], keys in the order the source writes them.
    [JTime t] is the text of the [t]-th reading of the clock. *)
Inductive jval : Type :=
| JStr (s : string)
| JTime (t : nat)
| JSeq (s : seq_record F Json).

Definition event : Type := list (string * jval).

(** An entry of the user-facing history: a message, or the image that a
    CRAP result adds as a user message. *)
Inductive hist_entry : Type :=
| ChatMessage (role content : string)
| ImageMessage (role url : string).

(** An entry of [accumulated_data]: a sequence dictionary, or the five
    fields kept of a genome browser result. *)
Inductive acc_item : Type :=
| AccSeq (s : seq_record F Json)
| AccRegion (sequence annotated_sequence : string) (features : list Json)
            (tracks : list string) (browser_link : string).

(** One item of the response stream: a chunk with its
    [choices[0].delta.content], or the exception the stream raises. *)
Inductive chunk : Type :=
| Delta (content : option string)
| StreamFailure (e : Py.exn).

(** The collaborators of one run.  Calls are numbered from 0 in the order
    they are made. *)
Record env : Type := {
  (* ChatHistoryAccess.get_recent_chat_history(user, chat, message_limit=6):
     role and content of each message *)
  recent_history : Py.exn + list (string * string);
  (* the constructors RNADatabaseMCP(...), StdioMCP(...), CrapMCP(...) *)
  init_tools : Py.exn + unit;
  (* Message.objects.get(id=self.message_id).model, at the n-th iteration *)
  message_model : nat -> Py.exn + option string;
  (* PlanningAgent.get_next_step: n-th call, planning history, user input,
     summaries, last plan response, model *)
  get_next_step :
    nat -> list hist_entry -> string -> list string -> option string
    -> string -> Py.exn + string;
  rna_tool : nat -> MCPRequest F -> Py.exn + MCPResponse F Json;
  crap_tool : nat -> MCPRequest F -> Py.exn + MCPResponse F Json;
  (* client.chat.completions.create(stream=True): model, prompt data,
     history *)
  completion :
    string -> list acc_item -> list hist_entry -> Py.exn + list chunk;
  (* Chat.objects.get followed by Message.objects.create(chat, content, role) *)
  create_message : string -> string -> string -> Py.exn + unit
}.

(** The processor and the locals of [process_message], with the trace of
    what the run has done. *)
Record state : Type := {
  accumulated_data : list acc_item;  (* self.accumulated_data *)
  data_summary : string;  (* self.data_summary *)
  next_message_image : option (string * string);  (* self._next_message_image: role and image url *)
  chat_history : list hist_entry;  (* self.user_facing_agent.chat_history *)
  planning_history : list hist_entry;  (* self.planning_agent.chat_history *)
  last_plan_response : option string;  (* local; None at first *)
  loop_count : Z;  (* local *)
  result : option (MCPResponse F Json);  (* local; unbound until a tool has answered *)
  out : list event;  (* the chunks yielded so far, oldest first *)
  clock : nat;  (* reads of datetime.utcnow() so far *)
  planning_calls : nat;  (* calls of get_next_step so far *)
  rna_requests : list (MCPRequest F);  (* requests sent to the RNA tool, oldest first *)
  crap_requests : list (MCPRequest F);  (* requests sent to the CRAP tool *)
  messages_created : list (string * string)  (* rows added by Message.objects.create: role, content *)
}.

Definition set_accumulated_data (v : list acc_item) (st : state) : state :=
  {| accumulated_data := v; data_summary := data_summary st;
     next_message_image := next_message_image st;
     chat_history := chat_history st; planning_history := planning_history st;
     last_plan_response := last_plan_response st; loop_count := loop_count st;
     result := result st; out := out st; clock := clock st;
     planning_calls := planning_calls st; rna_requests := rna_requests st;
     crap_requests := crap_requests st;
     messages_created := messages_created st |}.

Definition set_data_summary (v : string) (st : state) : state :=
  {| accumulated_data := accumulated_data st; data_summary := v;
     next_message_image := next_message_image st;
     chat_history := chat_history st; planning_history := planning_history st;
     last_plan_response := last_plan_response st; loop_count := loop_count st;
     result := result st; out := out st; clock := clock st;
     planning_calls := planning_calls st; rna_requests := rna_requests st;
     crap_requests := crap_requests st;
     messages_created := messages_created st |}.

Definition set_next_message_image (v : option (string * string)) (st : state) : state :=
  {| accumulated_data := accumulated_data st; data_summary := data_summary st;
     next_message_image := v; chat_history := chat_history st;
     planning_history := planning_history st;
     last_plan_response := last_plan_response st; loop_count := loop_count st;
     result := result st; out := out st; clock := clock st;
     planning_calls := planning_calls st; rna_requests := rna_requests st;
     crap_requests := crap_requests st;
     messages_created := messages_created st |}.

Definition set_chat_history (v : list hist_entry) (st : state) : state :=
  {| accumulated_data := accumulated_data st; data_summary := data_summary st;
     next_message_image := next_message_image st; chat_history := v;
     planning_history := planning_history st;
     last_plan_response := last_plan_response st; loop_count := loop_count st;
     result := result st; out := out st; clock := clock st;
     planning_calls := planning_calls st; rna_requests := rna_requests st;
     crap_requests := crap_requests st;
     messages_created := messages_created st |}.

Definition set_planning_history (v : list hist_entry) (st : state) : state :=
  {| accumulated_data := accumulated_data st; data_summary := data_summary st;
     next_message_image := next_message_image st;
     chat_history := chat_history st; planning_history := v;
     last_plan_response := last_plan_response st; loop_count := loop_count st;
     result := result st; out := out st; clock := clock st;
     planning_calls := planning_calls st; rna_requests := rna_requests st;
     crap_requests := crap_requests st;
     messages_created := messages_created st |}.

Definition set_last_plan_response (v : option string) (st : state) : state :=
  {| accumulated_data := accumulated_data st; data_summary := data_summary st;
     next_message_image := next_message_image st;
     chat_history := chat_history st; planning_history := planning_history st;
     last_plan_response := v; loop_count := loop_count st;
     result := result st; out := out st; clock := clock st;
     planning_calls := planning_calls st; rna_requests := rna_requests st;
     crap_requests := crap_requests st;
     messages_created := messages_created st |}.

Definition set_loop_count (v : Z) (st : state) : state :=
  {| accumulated_data := accumulated_data st; data_summary := data_summary st;
     next_message_image := next_message_image st;
     chat_history := chat_history st; planning_history := planning_history st;
     last_plan_response := last_plan_response st; loop_count := v;
     result := result st; out := out st; clock := clock st;
     planning_calls := planning_calls st; rna_requests := rna_requests st;
     crap_requests := crap_requests st;
     messages_created := messages_created st |}.

Definition set_result (v : option (MCPResponse F Json)) (st : state) : state :=
  {| accumulated_data := accumulated_data st; data_summary := data_summary st;
     next_message_image := next_message_image st;
     chat_history := chat_history st; planning_history := planning_history st;
     last_plan_response := last_plan_response st; loop_count := loop_count st;
     result := v; out := out st; clock := clock st;
     planning_calls := planning_calls st; rna_requests := rna_requests st;
     crap_requests := crap_requests st;
     messages_created := messages_created st |}.

Definition set_out (v : list event) (st : state) : state :=
  {| accumulated_data := accumulated_data st; data_summary := data_summary st;
     next_message_image := next_message_image st;
     chat_history := chat_history st; planning_history := planning_history st;
     last_plan_response := last_plan_response st; loop_count := loop_count st;
     result := result st; out := v; clock := clock st;
     planning_calls := planning_calls st; rna_requests := rna_requests st;
     crap_requests := crap_requests st;
     messages_created := messages_created st |}.

Definition set_clock (v : nat) (st : state) : state :=
  {| accumulated_data := accumulated_data st; data_summary := data_summary st;
     next_message_image := next_message_image st;
     chat_history := chat_history st; planning_history := planning_history st;
     last_plan_response := last_plan_response st; loop_count := loop_count st;
     result := result st; out := out st; clock := v;
     planning_calls := planning_calls st; rna_requests := rna_requests st;
     crap_requests := crap_requests st;
     messages_created := messages_created st |}.

Definition set_planning_calls (v : nat) (st : state) : state :=
  {| accumulated_data := accumulated_data st; data_summary := data_summary st;
     next_message_image := next_message_image st;
     chat_history := chat_history st; planning_history := planning_history st;
     last_plan_response := last_plan_response st; loop_count := loop_count st;
     result := result st; out := out st; clock := clock st;
     planning_calls := v; rna_requests := rna_requests st;
     crap_requests := crap_requests st;
     messages_created := messages_created st |}.

Definition set_rna_requests (v : list (MCPRequest F)) (st : state) : state :=
  {| accumulated_data := accumulated_data st; data_summary := data_summary st;
     next_message_image := next_message_image st;
     chat_history := chat_history st; planning_history := planning_history st;
     last_plan_response := last_plan_response st; loop_count := loop_count st;
     result := result st; out := out st; clock := clock st;
     planning_calls := planning_calls st; rna_requests := v;
     crap_requests := crap_requests st;
     messages_created := messages_created st |}.

Definition set_crap_requests (v : list (MCPRequest F)) (st : state) : state :=
  {| accumulated_data := accumulated_data st; data_summary := data_summary st;
     next_message_image := next_message_image st;
     chat_history := chat_history st; planning_history := planning_history st;
     last_plan_response := last_plan_response st; loop_count := loop_count st;
     result := result st; out := out st; clock := clock st;
     planning_calls := planning_calls st; rna_requests := rna_requests st;
     crap_requests := v; messages_created := messages_created st |}.

Definition set_messages_created (v : list (string * string)) (st : state) : state :=
  {| accumulated_data := accumulated_data st; data_summary := data_summary st;
     next_message_image := next_message_image st;
     chat_history := chat_history st; planning_history := planning_history st;
     last_plan_response := last_plan_response st; loop_count := loop_count st;
     result := result st; out := out st; clock := clock st;
     planning_calls := planning_calls st; rna_requests := rna_requests st;
     crap_requests := crap_requests st; messages_created := v |}.

(** [d.get(key, '')] on the [sequences] value of a sequence dictionary:
    the value under the key if any; it raises when the value is not a
    dictionary. *)
Variable json_get : Json -> string -> Py.exn + option Json.

Variable e : env.
Variable session : context.      (* self.user_id, self.chat_id, self.message_id *)
Variable model_name : string.    (* settings.DEFAULT_LLM_MODEL *)
Variable max_loops : Z.          (* settings.PLANNING_LOOP_MAX, 5 by default *)
Variable message : string.       (* the user's input *)

(** *** Generator code *)

#[local] Abbreviation M := (Gen.M state).

(** [datetime.utcnow()] *)
Definition utcnow : M nat :=
  fun st => (inr (clock st), set_clock (S (clock st)) st).

(** [yield json.dumps(ev)] *)
Definition yield (ev : event) : M unit :=
  Gen.modify (fun st => set_out (out st ++ [ev]) st).

(** [{'type': ty, 'content': content, 'timestamp': now}] *)
Definition content_event (ty content : string) (t : nat) : event :=
  [("type", JStr ty); ("content", JStr content); ("timestamp", JTime t)].

(** [{'type': ty, 'timestamp': now}] *)
Definition mark_event (ty : string) (t : nat) : event :=
  [("type", JStr ty); ("timestamp", JTime t)].

(** [{'type': 'error', 'message': error_msg}] *)
Definition tool_error_event (error_msg : string) : event :=
  [("type", JStr "error"); ("message", JStr error_msg)].

(** [{'type': 'sequence_data', 'data': sequence}] *)
Definition sequence_event (sequence : seq_record F Json) : event :=
  [("type", JStr "sequence_data"); ("data", JSeq sequence)].

Definition yield_content (ty content : string) : M unit :=
  let! t := utcnow in yield (content_event ty content t).

Definition yield_mark (ty : string) : M unit :=
  let! t := utcnow in yield (mark_event ty t).

(** Truthiness of [self.chat_id]. *)
Definition has_chat : bool :=
  match chat_id session with
  | Some c => negb (Py.is_empty c)
  | None => false
  end.

(** *** The response phase *)

(** [UserFacingAgent._update_chat_history]: the message joins the
    in-memory history; with a chat, it is written to the database, and a
    failure of that write is logged and dropped. *)
Definition _update_chat_history (role response : string) : M unit :=
  Gen.modify (fun st => set_chat_history (chat_history st ++ [ChatMessage role response]) st) ;;
  if has_chat then
    match create_message e (default "" (chat_id session)) role response with
    | inr _ =>
        Gen.modify (fun st =>
          set_messages_created (messages_created st ++ [(role, response)]) st)
    | inl _ => Gen.ret tt
    end
  else Gen.ret tt.

(** [for chunk in stream:] a chunk with content is collected and yielded
    as a [token] event. *)
Fixpoint stream_tokens (chunks : list chunk) (full_response : list string)
  : M (list string) :=
  match chunks with
  | [] => Gen.ret full_response
  | Delta None :: rest => stream_tokens rest full_response
  | Delta (Some text) :: rest =>
      let! now := utcnow in
      yield (content_event "token" text now) ;;
      stream_tokens rest (full_response ++ [text])
  | StreamFailure x :: _ => Gen.lift (inl x)
  end.

(** The body of [if loop_count >= max_loops - 1 or "PLAN_COMPLETE=True" in
    plan_response:], up to its [break]. *)
Definition respond (model : string) : M unit :=
  (let! image := Gen.gets next_message_image in
   match image with
   | Some (role, url) =>
       Gen.modify (fun st =>
         set_next_message_image None
           (set_chat_history (chat_history st ++ [ImageMessage role url]) st))
   | None => Gen.ret tt
   end) ;;
  yield_mark "start_response" ;;
  let! prompt_data := Gen.gets accumulated_data in
  let! history := Gen.gets chat_history in
  let! chunks := Gen.lift (completion e model prompt_data history) in
  let! full_response := stream_tokens chunks [] in
  let complete_response := Py.join "" full_response in
  _update_chat_history "assistant" complete_response ;;
  yield_mark "end".

(** *** The GET_TRNA branch *)

(** [result.status == "success" and "sequences" in result.data] *)
Definition found_sequences (r : MCPResponse F Json)
  : Py.exn + option (list (seq_record F Json)) :=
  if String.eqb (status r) "success" then
    match data_of r with
    | None => inl (Py.TypeError "argument of type 'NoneType' is not iterable")
    | Some (DataSearch seqs _ _) => inr (Some seqs)
    | Some _ => inr None
    end
  else inr None.

(** [result.error["message"] if result.error else "Unknown error"] *)
Definition error_message (r : MCPResponse F Json) : Py.exn + string :=
  match error r with
  | None => inr "Unknown error"
  | Some d =>
      if decide (d = ∅) then inr "Unknown error"
      else match d !! "message" with
           | Some m => inr m
           | None => inl (Py.KeyError "message")
           end
  end.

(** [yield json.dumps({'type': 'error', 'message': error_msg})] *)
Definition yield_tool_error (r : MCPResponse F Json) : M unit :=
  let! error_msg := Gen.lift (error_message r) in
  yield (tool_error_event error_msg).

(** The three reads of [seq_data = sequence['sequences']] that build
    [filtered_data]; the dictionary built is then replaced by the sequence
    itself ([no_filtering] is set), so only a raise is left of them. *)
Definition read_filtered (sequence : seq_record F Json) : Py.exn + unit :=
  let* genomic := json_get (sequences sequence) "Genomic Sequence" in
  let* secondary :=
    json_get (sequences sequence) "Secondary Structure (nested bp)" in
  let* mature := json_get (sequences sequence) "Predicted Mature tRNA" in
  inr tt.

(** [for sequence in sequences:] each one is sent and then stored, as it
    is. *)
Fixpoint send_sequences (seqs : list (seq_record F Json)) : M unit :=
  match seqs with
  | [] => Gen.ret tt
  | sequence :: rest =>
      yield (sequence_event sequence) ;;
      Gen.lift (read_filtered sequence) ;;
      Gen.modify (fun st =>
        set_accumulated_data (accumulated_data st ++ [AccSeq sequence]) st) ;;
      send_sequences rest
  end.

Definition sequences_summary (seqs : list (seq_record F Json)) : string :=
  Py.join ("FETCHED DATA FOR " ++ newline)
    (("Retrieved " ++ Py.str_of_nat (length seqs) ++ " sequences:")
     :: map (fun s => "- " ++ gene_symbol s ++ " (" ++ isotype s ++ ")") seqs).

Definition call_rna (request : MCPRequest F) : M (MCPResponse F Json) :=
  fun st =>
    let st1 := set_rna_requests (rna_requests st ++ [request]) st in
    match rna_tool e (length (rna_requests st)) request with
    | inr r => (inr r, set_result (Some r) st1)
    | inl x => (inl x, st1)
    end.

Definition run_get_trna (plan_response : string) : M unit :=
  let! parsed := Gen.lift (Directive.parse Directive.chatbot_key plan_response) in
  let mcp_request :=
    {| method := "search_rna";
       params := <["context" := VContext session]> parsed |} in
  yield_content "tool_start" "Searching for tRNA sequences..." ;;
  let! r := call_rna mcp_request in
  let! found := Gen.lift (found_sequences r) in
  match found with
  | Some seqs =>
      send_sequences seqs ;;
      Gen.modify (set_data_summary (sequences_summary seqs))
  | None => yield_tool_error r
  end.

(** *** The CRAP branch *)

(** [len(result.data['sequences'])], read before the CRAP tool is called:
    [result] is what the last tool call of this run left. *)
Definition previous_sequences (r : option (MCPResponse F Json)) : Py.exn + nat :=
  match r with
  | None => inl (Py.UnboundLocalError "result")
  | Some r =>
      match data_of r with
      | None => inl (Py.TypeError "'NoneType' object is not subscriptable")
      | Some (DataSearch seqs _ _) => inr (length seqs)
      | Some _ => inl (Py.KeyError "sequences")
      end
  end.

(** [result.data[...]] for the fields of a genome browser result. *)
Definition region_of (r : MCPResponse F Json) : Py.exn + region Json :=
  match data_of r with
  | None => inl (Py.TypeError "'NoneType' object is not subscriptable")
  | Some (DataRegion g) => inr g
  | Some _ => inl (Py.KeyError "sequence")
  end.

Definition region_summary (g : region Json) : string :=
  Py.join newline
    [ "Retrieved genomic data:";
      "- Sequence length: " ++ Py.str_of_nat (String.length (reg_sequence g));
      "- Features: " ++ Py.str_of_nat (length (reg_features g));
      "- Tracks: " ++ Py.join ", " (reg_tracks g) ].

Definition call_crap (request : MCPRequest F) : M (MCPResponse F Json) :=
  fun st =>
    let st1 := set_crap_requests (crap_requests st ++ [request]) st in
    match crap_tool e (length (crap_requests st)) request with
    | inr r => (inr r, set_result (Some r) st1)
    | inl x => (inl x, st1)
    end.

Definition run_crap (plan_response : string) : M unit :=
  let! parsed := Gen.lift (Directive.parse Directive.crap_key plan_response) in
  let! previous := Gen.gets result in
  let! found := Gen.lift (previous_sequences previous) in
  yield_content "tool_progress"
    ("Found " ++ Py.str_of_nat found ++ " sequences") ;;
  let mcp_request :=
    {| method := "view_region";
       params := <["context" := VContext session]> parsed |} in
  yield_content "tool_start" "Surfing the genome browser..." ;;
  let! r := call_crap mcp_request in
  if String.eqb (status r) "success" then
    yield_content "tool_progress" "Retrieved genomic data" ;;
    let! g := Gen.lift (region_of r) in
    Gen.modify (fun st =>
      set_accumulated_data
        (accumulated_data st
           ++ [AccRegion (reg_sequence g) (reg_annotated_sequence g)
                 (reg_features g) (reg_tracks g) (reg_browser_link g)]) st) ;;
    Gen.modify (set_data_summary (region_summary g)) ;;
    match reg_image g with
    | Some image_data =>
        if Py.is_empty image_data then Gen.ret tt
        else Gen.modify (set_next_message_image
                       (Some ("user", "data:image/png;base64," ++ image_data)))
    | None => Gen.ret tt
    end
  else yield_tool_error r.

(** *** The planning loop *)

Inductive control : Type := Continue | Break.

(** [PlanningAgent.get_next_step(message, [summary] or [], last, model)] *)
Definition plan (model : string) : M string :=
  fun st =>
    let summaries :=
      if Py.is_empty (data_summary st) then [] else [data_summary st] in
    (get_next_step e (planning_calls st) (planning_history st) message
       summaries (last_plan_response st) model,
     set_planning_calls (S (planning_calls st)) st).

(** [model = message_obj.model or self.model_name] *)
Definition choose_model (stored : option string) : string :=
  match stored with
  | Some m => if Py.is_empty m then model_name else m
  | None => model_name
  end.

(** [if plan_response:] and the branch on the tool name. *)
Definition dispatch (plan_response : string) : M unit :=
  if Py.is_empty plan_response then Gen.ret tt
  else if Py.startswith plan_response "GET_TRNA"
       then run_get_trna plan_response
  else if Py.startswith plan_response "CRAP"
       then run_crap plan_response
  else Gen.ret tt.

(** [last_plan_response = plan_response; loop_count += 1] *)
Definition advance (plan_response : string) (st : state) : state :=
  set_loop_count (loop_count st + 1)
    (set_last_plan_response (Some plan_response) st).

(** One pass through the body of [while loop_count < max_loops:]. *)
Definition iteration : M control :=
  let! n := Gen.gets planning_calls in
  let! stored := Gen.lift (message_model e n) in
  let model := choose_model stored in
  let! plan_response := plan model in
  let! count := Gen.gets loop_count in
  if (max_loops - 1 <=? count) || Py.contains SENTINEL plan_response
  then respond model ;; Gen.ret Break
  else
    dispatch plan_response ;;
    Gen.modify (advance plan_response) ;;
    Gen.ret Continue.

(** The [while] loop.  [fuel] bounds the passes; the value is [false]
    only when the fuel ran out with the loop condition still true. *)
Fixpoint planning_loop (fuel : nat) : M bool :=
  fun st =>
    if loop_count st <? max_loops then
      match fuel with
      | O => (inr false, st)
      | S fuel' =>
          match iteration st with
          | (inr Continue, st') => planning_loop fuel' st'
          | (inr Break, st') => (inr true, st')
          | (inl x, st') => (inl x, st')
          end
      end
    else (inr true, st).

(** The part of [process_message] before the loop: the history of the
    chat, the last pair for the planning agent, the tool handlers. *)
Definition prelude : M unit :=
  (if has_chat then
     let! history := Gen.lift (recent_history e) in
     let messages := map (fun '(role, content) => ChatMessage role content) history in
     Gen.modify (set_chat_history messages) ;;
     if (2 <=? length history)%nat
     then Gen.modify (set_planning_history (drop (length messages - 2) messages))
     else Gen.ret tt
   else Gen.ret tt) ;;
  Gen.lift (init_tools e).

(** The state of the processor that [ChatManager.get_processor] creates. *)
Definition initial : state :=
  {| accumulated_data := []; data_summary := ""; next_message_image := None;
     chat_history := []; planning_history := []; last_plan_response := None;
     loop_count := 0; result := None; out := []; clock := 0;
     planning_calls := 0; rna_requests := []; crap_requests := [];
     messages_created := [] |}.

(** The handler of [process_message]: any exception becomes one [error]
    event, after which the generator ends. *)
Definition handle {A : Type} (m : M A) (st : state) : state :=
  match m st with
  | (inr _, st') => st'
  | (inl x, st') =>
      snd ((let! t := utcnow in
            yield [("type", JStr "error"); ("error", JStr (Py.str_of_exn x));
                   ("timestamp", JTime t)]) st')
  end.

(** [process_message(message)], drained to its end: the final state. *)
Definition process_message : state :=
  handle (prelude ;; planning_loop (Z.to_nat max_loops)) initial.

(** *** Observations *)

(** An observation of the state that the response phase cannot change,
    and one that the tool branches cannot change either. *)
Class ResponseFrame {X : Type} (f : state -> X) : Prop := {
  by_out : forall v st, f (set_out v st) = f st;
  by_clock : forall v st, f (set_clock v st) = f st;
  by_chat_history : forall v st, f (set_chat_history v st) = f st;
  by_next_message_image : forall v st, f (set_next_message_image v st) = f st;
  by_messages_created : forall v st, f (set_messages_created v st) = f st
}.

Class ToolFrame {X : Type} (f : state -> X) : Prop := {
  tool_response_frame :: ResponseFrame f;
  by_accumulated_data : forall v st, f (set_accumulated_data v st) = f st;
  by_data_summary : forall v st, f (set_data_summary v st) = f st;
  by_result : forall v st, f (set_result v st) = f st;
  by_rna_requests : forall v st, f (set_rna_requests v st) = f st;
  by_crap_requests : forall v st, f (set_crap_requests v st) = f st
}.

Definition has_key (k : string) (ev : event) : bool :=
  existsb (fun kv => String.eqb (fst kv) k) ev.

(** An event that carries a [timestamp]. *)
Definition stamped (ev : event) : Prop := has_key "timestamp" ev = true.

Definition has_type (ty : string) (ev : event) : bool :=
  match ev with
  | ("type", JStr t) :: _ => String.eqb t ty
  | _ => false
  end.

Definition count_type (ty : string) (evs : list event) : nat :=
  length (List.filter (has_type ty) evs).

(** The text of a [token] event, and the texts of the [token] events of
    a run, in order. *)
Definition fragment_of (ev : event) : option string :=
  match ev with
  | ("type", JStr "token") :: ("content", JStr text) :: _ => Some text
  | _ => None
  end.

Definition streamed_fragments (evs : list event) : list string :=
  omap fragment_of evs.

(** An event that is no [token]; a state in which no token has been
    yielded and no message created. *)
Definition plain (ev : event) : Prop := fragment_of ev = None.

Definition quiet (st : state) : Prop :=
  messages_created st = [] /\ streamed_fragments (out st) = [].

(** What has been saved and what has been streamed so far. *)
Definition transcript (st : state) : list (string * string) * list string :=
  (messages_created st, streamed_fragments (out st)).

End Processor.

Arguments jval : clear implicits.
Arguments event : clear implicits.
Arguments acc_item : clear implicits.
Arguments env : clear implicits.
Arguments state : clear implicits.

End Chatbot.

(** ** The orchestrator of [processor.py], with [stream_response] of [agents.py] *)

Module Processor.
Import Mcp.

Section Run.
Context {F Json : Type} `{PyFloat F}.

(** [d.get(key, '')] on the [sequences] value of a sequence dictionary:
    the value under the key if any; it raises when the value is not a
    dictionary. *)
Variable json_get : Json -> string -> Py.exn + option Json.

(** The dictionary kept of a sequence for the response prompt. *)
Record filtered : Type := {
  f_gene_symbol : string;
  f_anticodon : string;
  f_isotype : string;
  f_general_score : F;
  f_genomic_sequence : option Json;
  f_secondary_structure : option Json;
  f_mature_trna : option Json
}.

(** [json.dumps(accumulated_data)] *)
Variable json_dumps : list filtered -> string.

Inductive jval : Type :=
| JStr (s : string)
| JTime (t : nat)
| JChat (id title : string)
| JSeq (s : seq_record F Json)
| JFiltered (l : list filtered).

Definition event : Type := list (string * jval).

(** One item of [stream.text_stream], or the exception the stream raises. *)
Inductive chunk : Type :=
| Text (text : string)
| StreamFailure (e : Py.exn).

Record env : Type := {
  (* Chat.objects.get(id=self.request.chat_id), n-th call: id and title *)
  get_chat : nat -> Py.exn + (string * string);
  (* PlanningAgent.get_next_step: n-th call, user input, accumulated data,
     last plan response, the last four messages of the history *)
  get_next_step :
    nat -> string -> list filtered -> option string
    -> option (list (string * string)) -> Py.exn + string;
  rna_tool : nat -> MCPRequest F -> Py.exn + MCPResponse F Json;
  (* client.messages.stream(...): tool results, messages *)
  text_stream :
    list filtered -> list (string * string) -> Py.exn + list chunk;
  (* Message.objects.create(chat, content, role) *)
  create_message : string -> string -> Py.exn + unit
}.

Record state : Type := {
  accumulated_data : list filtered;  (* local accumulated_data *)
  last_plan_response : option string;  (* local; None at first *)
  out : list event;  (* the chunks yielded so far, oldest first *)
  clock : nat;  (* reads of datetime.utcnow() so far *)
  planning_calls : nat;  (* calls of get_next_step so far *)
  rna_requests : list (MCPRequest F);  (* requests sent to the RNA tool, oldest first *)
  chat_reads : nat;  (* calls of Chat.objects.get so far *)
  messages_created : list (string * string)  (* rows added by Message.objects.create: role, content *)
}.

Definition set_accumulated_data (v : list filtered) (st : state) : state :=
  {| accumulated_data := v; last_plan_response := last_plan_response st;
     out := out st; clock := clock st; planning_calls := planning_calls st;
     rna_requests := rna_requests st; chat_reads := chat_reads st;
     messages_created := messages_created st |}.

Definition set_last_plan_response (v : option string) (st : state) : state :=
  {| accumulated_data := accumulated_data st; last_plan_response := v;
     out := out st; clock := clock st; planning_calls := planning_calls st;
     rna_requests := rna_requests st; chat_reads := chat_reads st;
     messages_created := messages_created st |}.

Definition set_out (v : list event) (st : state) : state :=
  {| accumulated_data := accumulated_data st;
     last_plan_response := last_plan_response st; out := v; clock := clock st;
     planning_calls := planning_calls st; rna_requests := rna_requests st;
     chat_reads := chat_reads st; messages_created := messages_created st |}.

Definition set_clock (v : nat) (st : state) : state :=
  {| accumulated_data := accumulated_data st;
     last_plan_response := last_plan_response st; out := out st; clock := v;
     planning_calls := planning_calls st; rna_requests := rna_requests st;
     chat_reads := chat_reads st; messages_created := messages_created st |}.

Definition set_planning_calls (v : nat) (st : state) : state :=
  {| accumulated_data := accumulated_data st;
     last_plan_response := last_plan_response st; out := out st;
     clock := clock st; planning_calls := v; rna_requests := rna_requests st;
     chat_reads := chat_reads st; messages_created := messages_created st |}.

Definition set_rna_requests (v : list (MCPRequest F)) (st : state) : state :=
  {| accumulated_data := accumulated_data st;
     last_plan_response := last_plan_response st; out := out st;
     clock := clock st; planning_calls := planning_calls st;
     rna_requests := v; chat_reads := chat_reads st;
     messages_created := messages_created st |}.

Definition set_chat_reads (v : nat) (st : state) : state :=
  {| accumulated_data := accumulated_data st;
     last_plan_response := last_plan_response st; out := out st;
     clock := clock st; planning_calls := planning_calls st;
     rna_requests := rna_requests st; chat_reads := v;
     messages_created := messages_created st |}.

Definition set_messages_created (v : list (string * string)) (st : state) : state :=
  {| accumulated_data := accumulated_data st;
     last_plan_response := last_plan_response st; out := out st;
     clock := clock st; planning_calls := planning_calls st;
     rna_requests := rna_requests st; chat_reads := chat_reads st;
     messages_created := v |}.

Variable e : env.
Variable request : context.             (* user_id, chat_id, message_id *)
Variable message_content : string.
Variable chat_history : list (string * string).   (* role, content *)
Variable max_loops : Z.                 (* settings.PLANNING_LOOP_MAX *)

#[local] Abbreviation M := (Gen.M state).

Definition utcnow : M nat :=
  fun st => (inr (clock st), set_clock (S (clock st)) st).

Definition yield (ev : event) : M unit :=
  Gen.modify (fun st => set_out (out st ++ [ev]) st).

(** [{'type': ty, 'content': content, 'timestamp': now}] *)
Definition content_event (ty content : string) (t : nat) : event :=
  [("type", JStr ty); ("content", JStr content); ("timestamp", JTime t)].

(** [{'type': ty, 'timestamp': now}] *)
Definition mark_event (ty : string) (t : nat) : event :=
  [("type", JStr ty); ("timestamp", JTime t)].

Definition yield_content (ty content : string) : M unit :=
  let! t := utcnow in yield (content_event ty content t).

Definition yield_mark (ty : string) : M unit :=
  let! t := utcnow in yield (mark_event ty t).

(** *** [_execute_rna_tool] *)

Definition found_sequences (r : MCPResponse F Json)
  : Py.exn + option (list (seq_record F Json)) :=
  if String.eqb (status r) "success" then
    match data_of r with
    | None => inl (Py.TypeError "argument of type 'NoneType' is not iterable")
    | Some (DataSearch seqs _ _) => inr (Some seqs)
    | Some _ => inr None
    end
  else inr None.

Definition error_message (r : MCPResponse F Json) : Py.exn + string :=
  match error r with
  | None => inr "Unknown error"
  | Some d =>
      if decide (d = ∅) then inr "Unknown error"
      else match d !! "message" with
           | Some m => inr m
           | None => inl (Py.KeyError "message")
           end
  end.

Definition filter_sequence (s : seq_record F Json) : Py.exn + filtered :=
  let* genomic := json_get (sequences s) "Genomic Sequence" in
  let* secondary := json_get (sequences s) "Secondary Structure (nested bp)" in
  let* mature := json_get (sequences s) "Predicted Mature tRNA" in
  inr {| f_gene_symbol := gene_symbol s; f_anticodon := anticodon s;
         f_isotype := isotype s; f_general_score := general_score s;
         f_genomic_sequence := genomic; f_secondary_structure := secondary;
         f_mature_trna := mature |}.

(** [for sequence in sequences:] the raw dictionary is yielded, the
    filtered one collected. *)
Fixpoint send_sequences (seqs : list (seq_record F Json))
    (filtered_sequences : list filtered) : M (list filtered) :=
  match seqs with
  | [] => Gen.ret filtered_sequences
  | sequence :: rest =>
      (let! t := utcnow in
       yield [("type", JStr "sequence_data"); ("data", JSeq sequence);
              ("timestamp", JTime t)]) ;;
      let! f := Gen.lift (filter_sequence sequence) in
      send_sequences rest (filtered_sequences ++ [f])
  end.

Definition call_rna (req : MCPRequest F) : M (MCPResponse F Json) :=
  fun st =>
    (rna_tool e (length (rna_requests st)) req,
     set_rna_requests (rna_requests st ++ [req]) st).

(** [_execute_rna_tool], with what [process_message] does for each chunk
    it yields: forward it, and extend [accumulated_data] with the data of
    a [tool_result]. *)
Definition _execute_rna_tool (plan_response : string) : M unit :=
  let! parsed := Gen.lift (Directive.parse Directive.processor_key plan_response) in
  let mcp_request :=
    {| method := "search_rna";
       params := <["context" := VContext request]> parsed |} in
  yield_content "tool_start" "Searching for tRNA sequences..." ;;
  let! r := call_rna mcp_request in
  let! found := Gen.lift (found_sequences r) in
  match found with
  | Some seqs =>
      let! filtered_sequences := send_sequences seqs [] in
      (let! t := utcnow in
       yield [("type", JStr "tool_result"); ("data", JFiltered filtered_sequences);
              ("timestamp", JTime t)]) ;;
      Gen.modify (fun st =>
        set_accumulated_data (accumulated_data st ++ filtered_sequences) st)
  | None =>
      let! error_msg := Gen.lift (error_message r) in
      yield_content "error" ("Error executing RNA tool: " ++ error_msg)
  end.

(** *** The planning loop: [for _ in range(PLANNING_LOOP_MAX):] *)

(** [self.request.chat_history[-4:] if self.request.chat_history else None] *)
Definition recent_messages : option (list (string * string)) :=
  match chat_history with
  | [] => None
  | _ => Some (drop (length chat_history - 4) chat_history)
  end.

Definition plan : M string :=
  fun st =>
    (get_next_step e (planning_calls st) message_content (accumulated_data st)
       (last_plan_response st) recent_messages,
     set_planning_calls (S (planning_calls st)) st).

Fixpoint planning_loop (passes : nat) : M unit :=
  match passes with
  | O => Gen.ret tt
  | S passes' =>
      let! plan_response := plan in
      if Py.contains "PLAN_COMPLETE=True" plan_response then Gen.ret tt
      else
        (if Py.startswith plan_response "GET_TRNA"
         then _execute_rna_tool plan_response
         else Gen.ret tt) ;;
        Gen.modify (set_last_plan_response (Some plan_response)) ;;
        planning_loop passes'
  end.

(** *** [UserFacingAgent.stream_response] *)

Fixpoint stream_tokens (chunks : list chunk) : M unit :=
  match chunks with
  | [] => Gen.ret tt
  | Text text :: rest => yield_content "token" text ;; stream_tokens rest
  | StreamFailure x :: _ => Gen.lift (inl x)
  end.

(** The messages sent: the last six of the history with a content that
    is not blank, then the user's input. *)
Definition prompt_messages : list (string * string) :=
  filter (fun m => Py.is_empty (Py.rstrip_space (Py.lstrip_space (snd m))) = false)
    (drop (length chat_history - 6) chat_history)
  ++ [("user", message_content)].

(** [stream_response]: its own handler turns an exception into an
    [error] event. *)
Definition stream_response (tool_results : list filtered) : M unit :=
  fun st =>
    match
      (yield_mark "start_response" ;;
       let! chunks := Gen.lift (text_stream e tool_results prompt_messages) in
       stream_tokens chunks ;;
       yield_mark "end_response") st
    with
    | (inr u, st') => (inr u, st')
    | (inl x, st') =>
        yield_content "error"
          ("Error generating response: " ++ Py.str_of_exn x) st'
    end.

(** *** [process_message] *)

Definition read_chat : M (string * string) :=
  fun st =>
    (get_chat e (chat_reads st), set_chat_reads (S (chat_reads st)) st).

Definition save_response : M unit :=
  let! data := Gen.gets accumulated_data in
  match data with
  | [] => Gen.ret tt
  | _ =>
      read_chat ;;
      Gen.lift (create_message e (json_dumps data) "assistant") ;;
      Gen.modify (fun st =>
        set_messages_created
          (messages_created st ++ [("assistant", json_dumps data)]) st)
  end.

(** What follows the loop: the response phase, then the saving. *)
Definition after_planning : M unit :=
  let! data := Gen.gets accumulated_data in
  stream_response data ;;
  save_response.

Definition body : M unit :=
  let! chat := read_chat in
  (let! t := utcnow in
   yield [("type", JStr "start"); ("chat", JChat (fst chat) (snd chat));
          ("timestamp", JTime t)]) ;;
  planning_loop (Z.to_nat max_loops) ;;
  after_planning.

Definition initial : state :=
  {| accumulated_data := []; last_plan_response := None; out := [];
     clock := 0; planning_calls := 0; rna_requests := []; chat_reads := 0;
     messages_created := [] |}.

(** [process_message()], drained to its end: the final state. *)
Definition process_message : state :=
  match body initial with
  | (inr _, st) => st
  | (inl x, st) =>
      snd (yield_content "error" ("Error: " ++ Py.str_of_exn x) st)
  end.

(** An observation of the state that the response phase and the saving
    cannot change. *)
Class ResponseFrame {X : Type} (f : state -> X) : Prop := {
  by_out : forall v st, f (set_out v st) = f st;
  by_clock : forall v st, f (set_clock v st) = f st;
  by_chat_reads : forall v st, f (set_chat_reads v st) = f st;
  by_messages_created : forall v st, f (set_messages_created v st) = f st
}.

Definition has_key (k : string) (ev : event) : bool :=
  existsb (fun kv => String.eqb (fst kv) k) ev.

(** An event that carries a [timestamp]. *)
Definition stamped (ev : event) : Prop := has_key "timestamp" ev = true.

(** The text of a [token] event, and the texts of the [token] events of
    a run, in order. *)
Definition fragment_of (ev : event) : option string :=
  match ev with
  | ("type", JStr "token") :: ("content", JStr text) :: _ => Some text
  | _ => None
  end.

Definition streamed_fragments (evs : list event) : list string :=
  omap fragment_of evs.

(** Nothing is saved, or one message whose content is the text of the
    accumulated data. *)
Definition saved_tool_data (st : state) : Prop :=
  messages_created st = []
  \/ (accumulated_data st <> []
      /\ messages_created st = [("assistant", json_dumps (accumulated_data st))]).

End Run.

Arguments filtered : clear implicits.
Arguments jval : clear implicits.
Arguments event : clear implicits.
Arguments env : clear implicits.
Arguments state : clear implicits.

End Processor.

(** ** The event queue of [event_manager.py] *)

Module EventManager.

Section Queue.
Context {Data : Type}.

Inductive field : Type :=
| FStr (s : string)
| FData (d : Data)
| FTime (t : nat).

(** [add_event]: the event gets its type, its data and the time of the
    call, and joins the queue. *)
Definition add_event (event_type : string) (data : Data) (now : nat)
    (queue : list (list (string * field))) : list (list (string * field)) :=
  queue ++ [[("type", FStr event_type); ("data", FData data);
             ("timestamp", FTime now)]].

Definition has_timestamp (ev : list (string * field)) : bool :=
  existsb (fun kv => String.eqb (fst kv) "timestamp") ev.

End Queue.
End EventManager.

(** ** Sample collaborators, to run the models on concrete inputs *)

Module Sample.
Import Mcp.

(** Floats restricted to whole numbers. *)
#[global] Instance whole_float : PyFloat Z := {|
  float_of_str := Py.int_of_str;
  float_of_int := fun z => inr z;
  int_of_float := fun z => inr z;
  str_of_float := fun z => Py.str_of_Z z ++ ".0";
  float_nonzero := fun z => negb (z =? 0)
|}.

Definition sample_str (v : pyval Z) : string :=
  match v with
  | VStr s => s
  | VInt z => Py.str_of_Z z
  | VFloat f => str_of_float f
  | VNone => "None"
  | VContext _ => "{...}"
  end.

(** A database whose [human] table holds sixty rows, numbered from 0, and
    whose other tables are empty.  It answers the unfiltered statement of
    [_handle_search] and the statement of [_handle_get_sequence]. *)
Definition gene_of (row : nat) : string := "tRNA-" ++ Py.str_of_nat row.

Definition table (name : string) : list nat :=
  if String.eqb name "human" then seq 0 60 else [].

Definition sample_select (sql : string) (args : list (pyval Z))
  : Py.exn + list nat :=
  if String.eqb sql "SELECT * FROM human WHERE 1=1" then inr (table "human")
  else if String.eqb sql "SELECT * FROM human WHERE GtRNAdb_Gene_Symbol = ?"
  then match args with
       | [VStr g] =>
           inr (List.filter (fun row => String.eqb (gene_of row) g) (table "human"))
       | _ => inr []
       end
  else inl (Py.ExternalError "statement not supported by the sample database").

Definition sample_record (row : nat) : seq_record Z unit :=
  {| seq_id := Py.str_of_nat row; gene_symbol := gene_of row;
     anticodon := "AGC"; isotype := "Ala"; general_score := 70;
     isotype_score := 90; model_agreement := true;
     features := "high confidence"; locus := "chr6"; sequences := tt;
     overview := tt; images := tt |}.

Definition sample_acreate (ctx : context) (row : nat)
  : Py.exn + seq_record Z unit :=
  inr (sample_record row).

Definition session : context :=
  {| user_id := "user-1"; chat_id := Some "chat-1"; message_id := Some "msg-1" |}.

(** A directive token: the key, a colon, the value between double
    quotes. *)
Definition token (key value : string) : string := key ++ ":" ++ Py.quoted value.

(** The adapter over the sample database. *)
Definition rna_process (request : MCPRequest Z)
  : Py.exn + MCPResponse Z unit :=
  RnaDb.process_request sample_str (inr tt) sample_select sample_acreate session
    request.

(** The request that the orchestrator of [chatbot.py] builds from a
    GET_TRNA directive. *)
Definition search_request (directive : string) : Py.exn + MCPRequest Z :=
  let* parsed := Directive.parse Directive.chatbot_key directive in
  inr {| method := "search_rna";
         params := <["context" := VContext session]> parsed |}.

(** Directives: a limit of fifty, a limit of two, a limit that is not a
    number, a sort column (which the sample database does not support, so
    that the search fails), a genome region. *)
Definition limit_50 : string := "GET_TRNA " ++ token "limit" "50".
Definition limit_2 : string := "GET_TRNA " ++ token "limit" "2".
Definition bad_limit : string :=
  "GET_TRNA " ++ token "species" "human" ++ " " ++ token "limit" "ten".
Definition failing_search : string :=
  "GET_TRNA " ++ token "sort_by" "Locus".
Definition region_directive : string :=
  "CRAP " ++ token "chrom" "chr6" ++ " " ++ token "start" "100".

(** A planning output that is no directive and has no sentinel. *)
Definition musing : string := "I should look at the data first".

(** What the sort directive parses to, and the failure the adapter returns
    for it over the sample database. *)
Definition sort_params : gmap string (pyval Z) := {["sort_by" := VStr "Locus"]}.

Definition search_failure : MCPResponse Z unit :=
  failure "SEARCH_ERROR" "statement not supported by the sample database".

(** What the region directive parses to. *)
Definition region_params : gmap string (pyval Z) :=
  <["chrom" := VStr "chr6"]> {["start" := VStr "100"]}.

(** A [get_sequence] request for a species that is not a table. *)
Definition zebrafish_request (gene : string) : MCPRequest Z :=
  {| method := "get_sequence";
     params := <["species" := VStr "zebrafish"]>
                 (<["gene_symbol" := VStr gene]> ∅) |}.



(** The failure that [CrapMCP] returns when the browser raises. *)
Definition crap_failure : MCPResponse Z unit :=
  {| status := "error"; data_of := None;
     error := Some {["message" := "connection refused"]} |}.

(** A run of [chatbot.py]: the planner answers its [n]-th call with the
    [n]-th text of [plans] and with the sentinel afterwards, the RNA tool
    is the adapter over the sample database, the CRAP tool fails, and the
    response streams ["Hel"], an empty chunk, ["lo"]. *)
Definition chatbot_env (plans : list string) : Chatbot.env Z unit :=
  {| Chatbot.recent_history := inr [("user", "hi"); ("assistant", "hello")];
     Chatbot.init_tools := inr tt;
     Chatbot.message_model := fun _ => inr None;
     Chatbot.get_next_step := fun n _ _ _ _ _ => inr (nth n plans Chatbot.SENTINEL);
     Chatbot.rna_tool := fun _ request => rna_process request;
     Chatbot.crap_tool := fun _ _ => inr crap_failure;
     Chatbot.completion := fun _ _ _ =>
       inr [Chatbot.Delta (Some "Hel"); Chatbot.Delta None;
            Chatbot.Delta (Some "lo")];
     Chatbot.create_message := fun _ _ _ => inr tt |}.

Definition chatbot_run (plans : list string) : Chatbot.state Z unit :=
  Chatbot.process_message (fun _ _ => inr None) (chatbot_env plans) session
    "model" 5 "query".

(** The state of that run when it enters the loop. *)
Definition chatbot_start (plans : list string) : Chatbot.state Z unit :=
  snd (Chatbot.prelude (chatbot_env plans) session Chatbot.initial).

(** The same run for [processor.py]; the [sequences] value of a sample
    record has none of the three keys, and the text of the accumulated
    data lists the gene symbols. *)
Definition processor_env (plans : list string) : Processor.env Z unit :=
  {| Processor.get_chat := fun _ => inr ("chat-1", "A chat");
     Processor.get_next_step := fun n _ _ _ _ => inr (nth n plans Chatbot.SENTINEL);
     Processor.rna_tool := fun _ request => rna_process request;
     Processor.text_stream := fun _ _ =>
       inr [Processor.Text "Hel"; Processor.Text "lo"];
     Processor.create_message := fun _ _ => inr tt |}.

Definition sample_dumps (data : list (Processor.filtered Z unit)) : string :=
  "[" ++ Py.join ", " (map Processor.f_gene_symbol data) ++ "]".

Definition processor_run (plans : list string) : Processor.state Z unit :=
  Processor.process_message (fun _ _ => inr None) sample_dumps
    (processor_env plans) session "query"
    [("user", "hi"); ("assistant", "hello")] 5.

Definition processor_start : Processor.state Z unit :=
  Processor.initial.

(** The state of the run of [chatbot.py] after its first pass. *)
Definition chatbot_second (plans : list string) : Chatbot.state Z unit :=
  snd (Chatbot.iteration (fun _ _ => inr None) (chatbot_env plans) session
         "model" 5 "query" (chatbot_start plans)).

End Sample.

(** * Further parts of the code: wrappers, browser, views, registry *)

(** ** Texts of SQL statements *)

Module Sql.
End Sql.

(** ** The wrappers of [tool_wrappers.py]: [ToolMetrics], [MonitoredTool],
    [CachedTool] over any cache, [wrap_tool] *)

Module Wrappers.
Import Mcp.

Section Monitored.
Context {F Json : Type}.

(** Python floats for durations: [0.0], addition, subtraction, the
    division of a float by a count and of a count by a count.  [time_at n]
    is the [n]-th reading of [time.time()]. *)
Context {T : Type}.
Variable fzero : T.
Variable fadd fsub : T -> T -> T.
Variable fdiv : T -> nat -> T.
Variable ratio : nat -> nat -> T.
Variable time_at : nat -> T.

(** [ToolMetrics]; [last_error_time] is the number of the clock reading
    of [datetime.utcnow()]. *)
Record ToolMetrics : Type := {
  total_calls : nat;
  successful_calls : nat;
  failed_calls : nat;
  total_time : T;
  last_error : option string;
  last_error_time : option nat
}.

(** A [MonitoredTool]: its metrics, the readings made of [time.time()]
    and of [datetime.utcnow()], and the calls its tool has received. *)
Record monitored : Type := {
  metrics : ToolMetrics;
  time_reads : nat;
  utc_reads : nat;
  inner_calls : nat
}.

Definition fresh_metrics : ToolMetrics :=
  {| total_calls := 0; successful_calls := 0; failed_calls := 0;
     total_time := fzero; last_error := None; last_error_time := None |}.

Definition fresh : monitored :=
  {| metrics := fresh_metrics; time_reads := 0; utc_reads := 0; inner_calls := 0 |}.

(** [record_success(duration)] *)
Definition record_success (duration : T) (m : ToolMetrics) : ToolMetrics :=
  {| total_calls := S (total_calls m);
     successful_calls := S (successful_calls m);
     failed_calls := failed_calls m;
     total_time := fadd (total_time m) duration;
     last_error := last_error m; last_error_time := last_error_time m |}.

(** [record_error(error)], at the clock reading [now] *)
Definition record_error (error : string) (now : nat) (m : ToolMetrics)
  : ToolMetrics :=
  {| total_calls := S (total_calls m);
     successful_calls := successful_calls m;
     failed_calls := S (failed_calls m);
     total_time := total_time m;
     last_error := Some error; last_error_time := Some now |}.

(** The properties [success_rate] and [average_time] *)
Definition success_rate (m : ToolMetrics) : T :=
  if (total_calls m =? 0)%nat then fzero
  else ratio (successful_calls m) (total_calls m).

Definition average_time (m : ToolMetrics) : T :=
  if (successful_calls m =? 0)%nat then fzero
  else fdiv (total_time m) (successful_calls m).

(** [response.error.get("message", "Unknown error") if response.error
    else "Unknown error"] *)
Definition error_text (r : MCPResponse F Json) : string :=
  match error r with
  | None => "Unknown error"
  | Some d => default "Unknown error" (d !! "message")
  end.

(** The wrapped tool answers its [n]-th call. *)
Variable tool : nat -> MCPRequest F -> Py.exn + MCPResponse F Json.

(** [MonitoredTool.process_request]: an exception of the tool is
    recorded and answered with a [MONITORED_TOOL_ERROR] failure. *)
Definition monitored_process_request (request : MCPRequest F) (s : monitored)
  : MCPResponse F Json * monitored :=
  let start_time := time_at (time_reads s) in
  match tool (inner_calls s) request with
  | inr response =>
      let duration := fsub (time_at (S (time_reads s))) start_time in
      if String.eqb (status response) "success"
      then (response,
            {| metrics := record_success duration (metrics s);
               time_reads := S (S (time_reads s)); utc_reads := utc_reads s;
               inner_calls := S (inner_calls s) |})
      else (response,
            {| metrics := record_error (error_text response) (utc_reads s) (metrics s);
               time_reads := S (S (time_reads s)); utc_reads := S (utc_reads s);
               inner_calls := S (inner_calls s) |})
  | inl e =>
      (failure "MONITORED_TOOL_ERROR" (Py.str_of_exn e),
       {| metrics := record_error (Py.str_of_exn e) (utc_reads s) (metrics s);
          time_reads := S (time_reads s); utc_reads := S (utc_reads s);
          inner_calls := S (inner_calls s) |})
  end.

(** A sequence of requests sent one after the other: the responses, in
    order, and the state left. *)
Fixpoint monitored_run (requests : list (MCPRequest F)) (s : monitored)
  : list (MCPResponse F Json) * monitored :=
  match requests with
  | [] => ([], s)
  | request :: rest =>
      let '(r, s1) := monitored_process_request request s in
      let '(rs, s2) := monitored_run rest s1 in
      (r :: rs, s2)
  end.

(** The responses that are successes. *)
Definition successes (rs : list (MCPResponse F Json)) : nat :=
  length (List.filter (fun r => String.eqb (status r) "success") rs).

End Monitored.

Arguments ToolMetrics : clear implicits.
Arguments monitored : clear implicits.

(** *** [CachedTool] over a cache and a tool with a state of their own *)

Section CachedTool.
Context {F Json J C S : Type}.

(** The cache: [cache.get(key)] and [cache.set(key, response, expiry)]
    on the state [C] of the cache; the truthiness of what [get] returns
    is [Cache.truthy]. *)
Variable cache_get : string -> C -> option (Cache.cached F Json J) * C.
Variable cache_set : string -> MCPResponse F Json -> option Z -> C -> C.
Variable json_truthy : J -> bool.

(** [self.tool.process_request(request)] on the state [S] of the tool. *)
Variable inner : MCPRequest F -> S -> (Py.exn + MCPResponse F Json) * S.

Variable class_name : string.
Variable py_hash : string -> Z.
Variable str_of_params : gmap string (pyval F) -> string.
Variable cache_ttl : Z.

(** [CachedTool.process_request] *)
Definition cached_process_request (request : MCPRequest F) (w : C * S)
  : (Py.exn + Cache.cached F Json J) * (C * S) :=
  let key := Cache.cache_key class_name py_hash str_of_params request in
  let '(found, c1) := cache_get key (fst w) in
  let miss :=
    match inner request (snd w) with
    | (inl e, s1) => (inl e, (c1, s1))
    | (inr response, s1) =>
        if String.eqb (status response) "success"
        then (inr (Cache.Response response),
              (cache_set key response (Some cache_ttl) c1, s1))
        else (inr (Cache.Response response), (c1, s1))
    end in
  match found with
  | Some cached_response =>
      if Cache.truthy json_truthy cached_response
      then (inr cached_response, (c1, snd w))
      else miss
  | None => miss
  end.

End CachedTool.

(** *** [wrap_tool] with the in-memory cache *)

Section WrapTool.
Context {F Json J T : Type}.
Variable json_loads : string -> Py.exn + J.
Variable json_truthy : J -> bool.
Variable fzero : T.
Variable fadd fsub : T -> T -> T.
Variable time_at : nat -> T.
Variable py_hash : string -> Z.
Variable str_of_params : gmap string (pyval F) -> string.

(** The tool that is wrapped, the name of its class, and the expiry. *)
Variable tool : nat -> MCPRequest F -> Py.exn + MCPResponse F Json.
Variable class_name : string.
Variable cache_ttl : Z.

(** The process-wide in-memory cache, and the state of the
    [MonitoredTool] of one wrapped tool. *)
Definition world : Type := gmap string (Cache.stored F Json) * monitored T.

Definition memory_get (key : string) (c : gmap string (Cache.stored F Json))
  : option (Cache.cached F Json J) * gmap string (Cache.stored F Json) :=
  (Cache.get json_loads key c, c).

(** [wrap_tool(tool)] with its defaults, monitoring and caching: a
    [CachedTool] around a [MonitoredTool] around the tool.  The class
    that the cache key names is that of the [MonitoredTool]. *)
Definition wrapped_process_request (request : MCPRequest F) (w : world)
  : (Py.exn + Cache.cached F Json J) * world :=
  cached_process_request memory_get Cache.set json_truthy
    (fun request s =>
       let '(r, s1) := monitored_process_request fadd fsub time_at tool request s in
       (inr r, s1))
    "MonitoredTool" py_hash str_of_params cache_ttl request w.

(** [wrap_tool(tool, enable_monitoring=False)]: a [CachedTool] around the
    tool itself, which then counts its own calls. *)
Definition cached_only_process_request (request : MCPRequest F)
    (w : gmap string (Cache.stored F Json) * nat)
  : (Py.exn + Cache.cached F Json J) * (gmap string (Cache.stored F Json) * nat) :=
  cached_process_request memory_get Cache.set json_truthy
    (fun request n => (tool n request, S n))
    class_name py_hash str_of_params cache_ttl request w.

End WrapTool.

End Wrappers.

(** ** [RedisCache] of [cache.py] *)

Module Redis.
Import Mcp.

Section RedisCache.
Context {F Json J : Type}.

(** The server: the bytes under each key, and the number of commands it
    has received; [reachable n] tells whether the [n]-th command gets
    through, a connection error being raised otherwise. *)
Record server : Type := {
  data : gmap string string;
  commands : nat
}.

Variable reachable : nat -> bool.

(** What [get] makes of the bytes it reads: [json.loads] of their text,
    [pickle.loads] of the bytes when that is no JSON, nothing when either
    raises. *)
Variable decode : string -> option (Cache.cached F Json J).

(** [self.redis.get(key)] *)
Definition redis_get (key : string) (s : server)
  : (Py.exn + option string) * server :=
  let s1 := {| data := data s; commands := S (commands s) |} in
  if reachable (commands s) then (inr (data s !! key), s1)
  else (inl (Py.ExternalError "Connection refused"), s1).

(** [self.redis.set(key, bytes)] and [self.redis.setex(key, expiry, bytes)];
    the expiry is not kept, the server of this model forgets nothing. *)
Definition redis_store (key value : string) (s : server) : server :=
  let s1 := {| data := data s; commands := S (commands s) |} in
  if reachable (commands s)
  then {| data := <[key := value]> (data s); commands := S (commands s) |}
  else s1.

(** [RedisCache.get]: any exception gives [None]. *)
Definition get (key : string) (s : server)
  : option (Cache.cached F Json J) * server :=
  match redis_get key s with
  | (inr (Some value), s1) =>
      if Py.is_empty value then (None, s1) else (decode value, s1)
  | (inr None, s1) => (None, s1)
  | (inl _, s1) => (None, s1)
  end.

(** The bytes of a serialized value. *)
Variable bytes_of : Cache.stored F Json -> string.

(** [RedisCache.set] of a tool response: the serialization is that of
    [InMemoryCache.set], and what it raises is logged; nothing is sent to
    the server then. *)
Definition set (key : string) (value : MCPResponse F Json) (expiry : option Z)
    (s : server) : server :=
  match Cache.serialize value with
  | inr entry => redis_store key (bytes_of entry) s
  | inl _ => s
  end.

(** [CachedTool] over the Redis cache, around a tool that counts its
    calls. *)
Variable json_truthy : J -> bool.
Variable tool : nat -> MCPRequest F -> Py.exn + MCPResponse F Json.
Variable class_name : string.
Variable py_hash : string -> Z.
Variable str_of_params : gmap string (pyval F) -> string.
Variable cache_ttl : Z.

Definition process_request (request : MCPRequest F) (w : server * nat)
  : (Py.exn + Cache.cached F Json J) * (server * nat) :=
  Wrappers.cached_process_request get set json_truthy
    (fun request n => (tool n request, S n))
    class_name py_hash str_of_params cache_ttl request w.

(** The same request, sent [n] times. *)
Fixpoint repeat_request (n : nat) (request : MCPRequest F) (w : server * nat)
  : server * nat :=
  match n with
  | O => w
  | S n' => repeat_request n' request (snd (process_request request w))
  end.

End RedisCache.
End Redis.

(** ** Sample collaborators for the wrappers *)

Module SampleTools.
Import Mcp.

(** Times as whole seconds; the [n]-th reading of the clock is [n]. *)
Definition world0 : Wrappers.world (F:=Z) (Json:=unit) (T:=Z) :=
  (∅, Wrappers.fresh 0).

(** A tool wrapped with the defaults of [wrap_tool], under a hash that is
    the length of the text. *)
Definition wrapped (tool : nat -> MCPRequest Z -> Py.exn + MCPResponse Z unit)
    (request : MCPRequest Z) (w : Wrappers.world)
  : (Py.exn + Cache.cached Z unit unit) * Wrappers.world :=
  Wrappers.wrapped_process_request (fun _ => inr tt) (fun _ => true)
    Z.add Z.sub Z.of_nat (fun text => Z.of_nat (String.length text))
    (fun _ => "{}") tool 3600 request w.

(** A tool that answers every call with its capabilities, and one that
    answers with an empty search result. *)
Definition capable (n : nat) (request : MCPRequest Z)
  : Py.exn + MCPResponse Z unit :=
  inr (success DataCapabilities).

Definition searching (n : nat) (request : MCPRequest Z)
  : Py.exn + MCPResponse Z unit :=
  inr (success (DataSearch [] 0 ∅)).

(** A Redis server that holds nothing and is always reachable, with the
    [CachedTool] of [capable] over it. *)
Definition server0 : Redis.server := {| Redis.data := ∅; Redis.commands := 0 |}.

Definition redis_repeat (n : nat) (request : MCPRequest Z)
  : Redis.server * nat :=
  Redis.repeat_request (fun _ => true) (fun _ => None) (fun _ => "")
    (fun _ : unit => true) capable "RNADatabaseMCP"
    (fun text => Z.of_nat (String.length text)) (fun _ => "{}") 3600
    n request (server0, 0%nat).

End SampleTools.

(** ** The events of a run of [chatbot.py], as a client reads them *)

Module Protocol.
Import Mcp Chatbot.

Section Events.
Context {F Json : Type}.

(** The events of the tool branches: [tool_start], [tool_progress],
    [sequence_data], and the [error] event of a tool failure, which
    carries a [message]. *)
Definition is_tool_event (ev : event F Json) : Prop :=
  has_type "tool_start" ev || has_type "tool_progress" ev
  || has_type "sequence_data" ev
  || (has_type "error" ev && has_key "message" ev) = true.

Definition is_token (ev : event F Json) : Prop := has_type "token" ev = true.

(** The [error] event of the handler of [process_message], which carries
    the text of the exception under [error]. *)
Definition is_run_error (ev : event F Json) : Prop :=
  has_type "error" ev && has_key "error" ev = true.

Definition is_end (ev : event F Json) : Prop := exists t, ev = mark_event "end" t.

(** What a run yields after its tool events: nothing; or the error of
    the handler; or [start_response], the tokens, and then [end] or the
    error of the handler. *)
Inductive response_part : list (event F Json) -> Prop :=
| no_response : response_part []
| failed_before (ev : event F Json) : is_run_error ev -> response_part [ev]
| streamed (t : nat) (tokens : list (event F Json)) (last : event F Json) :
    Forall is_token tokens ->
    is_end last \/ is_run_error last ->
    response_part (mark_event "start_response" t :: tokens ++ [last]).

(** The previous tool result is a search result: a response whose data
    hold [sequences]. *)
Definition holds_search_result (r : option (MCPResponse F Json)) : bool :=
  match r with
  | Some r' =>
      match data_of r' with
      | Some (DataSearch _ _ _) => true
      | _ => false
      end
  | None => false
  end.

End Events.
End Protocol.

(** ** A run of [processor.py] whose response stream fails *)

Module SampleFailure.
Import Mcp.

(** The collaborators of [Sample.processor_env], with a language model
    that raises when the response is asked for. *)
Definition failing_stream_env (plans : list string) : Processor.env Z unit :=
  {| Processor.get_chat := fun _ => inr ("chat-1", "A chat");
     Processor.get_next_step := fun n _ _ _ _ => inr (nth n plans Chatbot.SENTINEL);
     Processor.rna_tool := fun _ request => Sample.rna_process request;
     Processor.text_stream := fun _ _ => inl (Py.ExternalError "overloaded");
     Processor.create_message := fun _ _ => inr tt |}.

(** What [_execute_rna_tool] keeps of a sample record. *)
Definition filtered_record (row : nat) : Processor.filtered Z unit :=
  {| Processor.f_gene_symbol := Sample.gene_of row;
     Processor.f_anticodon := "AGC"; Processor.f_isotype := "Ala";
     Processor.f_general_score := 70; Processor.f_genomic_sequence := None;
     Processor.f_secondary_structure := None; Processor.f_mature_trna := None |}.

(** The state after the planning loop of such a run. *)
Definition after_loop (plans : list string) : Processor.state Z unit :=
  snd (Processor.planning_loop (fun _ _ => inr None) (failing_stream_env plans)
         Sample.session "query" [("user", "hi"); ("assistant", "hello")] 5
         Processor.initial).

End SampleFailure.

(** ** The genome browser of [tools/crap/genome_browser.py] *)

Module Browser.
Import Mcp.

(** [sorted(items, key=...)] and [list.sort(key=...)]: a stable sort that
    compares the keys with [<] only.  [lt a b] tells that the key of [a]
    is less than the key of [b]; an element goes in front of the first
    one whose key is not less than its own. *)
Fixpoint insort {A : Type} (lt : A -> A -> bool) (x : A) (l : list A) : list A :=
  match l with
  | [] => [x]
  | y :: l' => if lt y x then y :: insort lt x l' else x :: y :: l'
  end.

Definition sorted {A : Type} (lt : A -> A -> bool) (l : list A) : list A :=
  foldr (insort lt) [] l.

(** [len(s)] *)
Definition len (s : string) : Z := Z.of_nat (String.length s).

(** [f"{n:05d}"] for an integer that is not negative: its digits, with
    zeros in front up to five characters. *)
Definition zeros (n : nat) : string := Nat.iter n (String "0") "".

Definition pad5 (n : Z) : string :=
  let digits := Py.str_of_Z n in
  zeros (5 - String.length digits) ++ digits.

(** [f"id{i:05d}"] *)
Definition nth_id (i : nat) : string := "id" ++ pad5 (Z.of_nat i).

Section Json.
Context {F : Type} `{PyFloat F}.

(** What [response.json()] returns.  An object is the list of its
    members, each key once. *)
#[warnings="-register-all"]
Inductive json : Type :=
| JNull
| JBool (b : bool)
| JInt (z : Z)
| JFloat (f : F)
| JStr (s : string)
| JArr (items : list json)
| JObj (members : list (string * json)).

(** [item[field]], when [field in item] *)
Definition member (field : string) (item : list (string * json)) : option json :=
  option_map snd (find (fun kv => String.eqb (fst kv) field) item).

(** [int(v)] *)
Definition to_int (v : json) : Py.exn + Z :=
  match v with
  | JInt z => inr z
  | JBool b => inr (if b then 1 else 0)
  | JFloat f => int_of_float f
  | JStr s => Py.int_of_str s
  | JNull =>
      inl (Py.TypeError
             "int() argument must be a string, a bytes-like object or a real number, not 'NoneType'")
  | JArr _ =>
      inl (Py.TypeError
             "int() argument must be a string, a bytes-like object or a real number, not 'list'")
  | JObj _ =>
      inl (Py.TypeError
             "int() argument must be a string, a bytes-like object or a real number, not 'dict'")
  end.

(** The truth value of [v] *)
Definition truthy (v : json) : bool :=
  match v with
  | JNull => false
  | JBool b => b
  | JInt z => negb (z =? 0)
  | JFloat f => float_nonzero f
  | JStr s => negb (Py.is_empty s)
  | JArr items => match items with [] => false | _ => true end
  | JObj members => match members with [] => false | _ => true end
  end.

(** [str(v)]; the text of a list or of a dictionary is left to
    [py_repr]. *)
Variable py_repr : json -> string.

Definition to_str (v : json) : string :=
  match v with
  | JStr s => s
  | JInt z => Py.str_of_Z z
  | JBool true => "True"
  | JBool false => "False"
  | JFloat f => str_of_float f
  | JNull => "None"
  | JArr _ | JObj _ => py_repr v
  end.

(** *** [Feature] *)

Record Feature : Type := {
  feat_id : string;
  feat_start : Z;
  feat_end : Z;
  feat_name : string;
  feat_type : string;
  feat_track : string;
  feat_score : option json;
  feat_raw_data : list (string * json)
}.

(** *** [AnnotatedSequence]

    The coordinates are integers, as the class declares them. *)

Record AnnotatedSequence : Type := {
  sequence : string;
  region_start : Z;
  features : list (Z * Z * Feature)
}.

(** [AnnotatedSequence(sequence, region_start)] *)
Definition new (sequence : string) (region_start : Z) : AnnotatedSequence :=
  {| sequence := sequence; region_start := region_start; features := [] |}.

Definition add_feature (feature : Feature) (a : AnnotatedSequence)
  : AnnotatedSequence :=
  let rel_start := feat_start feature - region_start a in
  let rel_end := feat_end feature - region_start a in
  let rel_start := Z.max 0 rel_start in
  let rel_end := Z.min (len (sequence a)) rel_end in
  if (rel_start <? len (sequence a)) && (rel_end >? rel_start)
  then {| sequence := sequence a; region_start := region_start a;
          features := features a ++ [(rel_start, rel_end, feature)] |}
  else a.

(** [for feature in features: annotated_seq.add_feature(feature)] *)
Definition add_features (fs : list Feature) (a : AnnotatedSequence)
  : AnnotatedSequence :=
  fold_left (fun a feature => add_feature feature a) fs a.

(** The text between the brackets of a tag:
    [{id}-{track}:{start}-{end}:{name}] *)
Definition label (f : Feature) : string :=
  feat_id f ++ "-" ++ feat_track f ++ ":" ++ Py.str_of_Z (feat_start f)
    ++ "-" ++ Py.str_of_Z (feat_end f) ++ ":" ++ feat_name f.

Definition open_tag (f : Feature) : string := "[" ++ label f ++ "|".
Definition close_tag (f : Feature) : string := "|" ++ label f ++ "]".

(** The key [(x[0], -1 * (x[1] - x[0]))] of a stored feature *)
Definition span_lt (x y : Z * Z * Feature) : bool :=
  let '(s1, e1, _) := x in
  let '(s2, e2, _) := y in
  (s1 <? s2) || ((s1 =? s2) && (-1 * (e1 - s1) <? -1 * (e2 - s2))).

(** The key [(x[0], x[1].startswith('|'))] of an annotation; [False]
    is less than [True]. *)
Definition annotation_lt (x y : Z * string) : bool :=
  (fst x <? fst y)
  || ((fst x =? fst y)
      && (negb (Py.startswith (snd x) "|") && Py.startswith (snd y) "|")).

(** The two annotations of a stored feature *)
Definition tags_of (x : Z * Z * Feature) : list (Z * string) :=
  let '(start, end_, feature) := x in
  [(start, open_tag feature); (end_, close_tag feature)].

Definition annotations (a : AnnotatedSequence) : list (Z * string) :=
  sorted annotation_lt (flat_map tags_of (sorted span_lt (features a))).

(** [while pos < ann_pos and pos < len(self.sequence)]: [rest] is the
    sequence from [pos] on, so that [self.sequence[pos]] is its first
    character and [pos < len(self.sequence)] tells that it is not
    empty.  The result is the new [pos], what is left of the sequence,
    and the new [result]. *)
Fixpoint copy_bases (ann_pos pos : Z) (rest result : string)
  : Z * string * string :=
  match rest with
  | EmptyString => (pos, rest, result)
  | String c rest' =>
      if pos <? ann_pos
      then copy_bases ann_pos (pos + 1) rest' (result ++ String c "")
      else (pos, rest, result)
  end.

(** [while pos < len(self.sequence)] *)
Fixpoint copy_rest (rest result : string) : string :=
  match rest with
  | EmptyString => result
  | String c rest' => copy_rest rest' (result ++ String c "")
  end.

Fixpoint place (anns : list (Z * string)) (pos : Z) (rest result : string)
  : string :=
  match anns with
  | [] => copy_rest rest result
  | (ann_pos, ann_text) :: anns' =>
      let '(pos', rest', result') := copy_bases ann_pos pos rest result in
      place anns' pos' rest' (result' ++ ann_text)
  end.

Definition format_sequence (a : AnnotatedSequence) : string :=
  place (annotations a) 0 (sequence a) "".

(** *** [GenomeBrowser.extract_features] *)

(** [for field in fields: if field in item: v = int(item[field]); break] *)
Fixpoint first_int (fields : list string) (item : list (string * json))
  : Py.exn + option Z :=
  match fields with
  | [] => inr None
  | field :: fields' =>
      match member field item with
      | Some v => let* z := to_int v in inr (Some z)
      | None => first_int fields' item
      end
  end.

(** [for field in fields: if field in item and item[field]:
    name = str(item[field]); break] *)
Fixpoint first_name (fields : list string) (item : list (string * json))
  : option string :=
  match fields with
  | [] => None
  | field :: fields' =>
      match member field item with
      | Some v => if truthy v then Some (to_str v) else first_name fields' item
      | None => first_name fields' item
      end
  end.

(** [name or 'unnamed'] *)
Definition name_or_unnamed (name : option string) : string :=
  match name with
  | Some s => if Py.is_empty s then "unnamed" else s
  | None => "unnamed"
  end.

(** What the loop iterates over, after [len(items)] has been taken for
    the debug line: the elements of a list, the keys of a dictionary,
    the characters of a string; the other values have no length. *)
Definition iterate (items : json) : Py.exn + list json :=
  match items with
  | JArr l => inr l
  | JObj members => inr (map (fun kv => JStr (fst kv)) members)
  | JStr s => inr (map (fun c => JStr (String c "")) (list_ascii_of_string s))
  | JNull => inl (Py.TypeError "object of type 'NoneType' has no len()")
  | JBool _ => inl (Py.TypeError "object of type 'bool' has no len()")
  | JInt _ => inl (Py.TypeError "object of type 'int' has no len()")
  | JFloat _ => inl (Py.TypeError "object of type 'float' has no len()")
  end.

(** The [items] of a reply: the member named after the track, the reply
    itself when a dictionary has no such member, the reply when it is a
    list, and nothing otherwise. *)
Definition items_of (track_data : json) (track : string) : json :=
  match track_data with
  | JObj members =>
      match member track members with
      | Some items => items
      | None => JArr [track_data]
      end
  | JArr _ => track_data
  | _ => JArr []
  end.

(** The fields in which a start, an end and a name are looked for, in
    this order. *)
Definition start_fields : list string := ["chromStart"; "txStart"; "start"; "begin"].
Definition end_fields : list string := ["chromEnd"; "txEnd"; "end"; "stop"].
Definition name_fields : list string := ["name"; "id"; "gene"; "transcript"].

Fixpoint extract_items (track : string) (items : list json) (feature_id : Z)
    (features : list Feature) : Py.exn + list Feature :=
  match items with
  | [] => inr features
  | JObj item :: items' =>
      let* start := first_int start_fields item in
      let* end_ := first_int end_fields item in
      let name := first_name name_fields item in
      match start, end_ with
      | Some start, Some end_ =>
          let feature_id := feature_id + 1 in
          extract_items track items' feature_id
            (features
             ++ [{| feat_id := "id" ++ pad5 feature_id; feat_start := start;
                    feat_end := end_; feat_name := name_or_unnamed name;
                    feat_type := track; feat_track := track;
                    feat_score := member "score" item;
                    feat_raw_data := item |}])
      | _, _ => extract_items track items' feature_id features
      end
  | _ :: items' => extract_items track items' feature_id features
  end.

Definition extract_features (track_data : json) (track : string)
  : Py.exn + list Feature :=
  let* items := iterate (items_of track_data track) in
  extract_items track items 0 [].

End Json.

Arguments json : clear implicits.
Arguments Feature : clear implicits.
Arguments AnnotatedSequence : clear implicits.

(** *** What a formatted sequence is made of *)

Inductive piece : Type :=
| Base (c : ascii)
| Tag (text : string).

Fixpoint render (pieces : list piece) : string :=
  match pieces with
  | [] => ""
  | Base c :: ps => String c (render ps)
  | Tag text :: ps => text ++ render ps
  end.

(** A stretch of bases. *)
Definition base_pieces (s : string) : list piece :=
  map Base (list_ascii_of_string s).

(** The bases of a formatted sequence, in order. *)
Fixpoint bases (pieces : list piece) : string :=
  match pieces with
  | [] => ""
  | Base c :: ps => String c (bases ps)
  | Tag _ :: ps => bases ps
  end.

(** The tags of a formatted sequence, each with the number of bases in
    front of it, counted from [n]. *)
Fixpoint placed_from (n : Z) (pieces : list piece) : list (Z * string) :=
  match pieces with
  | [] => []
  | Base _ :: ps => placed_from (n + 1) ps
  | Tag text :: ps => (n, text) :: placed_from n ps
  end.

Definition placed (pieces : list piece) : list (Z * string) :=
  placed_from 0 pieces.

(** The part of the region that a feature covers: the region starts at
    [region_start] and is as long as the sequence. *)
Definition covers {F : Type} (sequence : string) (region_start : Z)
    (f : Feature F) : bool :=
  Z.max (feat_start f) region_start
  <? Z.min (feat_end f) (region_start + len sequence).

Definition clip {F : Type} (sequence : string) (region_start : Z)
    (f : Feature F) : Z * Z * Feature F :=
  (Z.max (feat_start f) region_start - region_start,
   Z.min (feat_end f) (region_start + len sequence) - region_start, f).

End Browser.

(** ** Sample replies of the genome browser *)

Module SampleBrowser.
Import Browser.

Definition sample_repr (v : json Z) : string := "[...]".

Definition ala_item : list (string * json Z) :=
  [("chromStart", JInt 10); ("chromEnd", JInt 20); ("name", JStr "tRNA-Ala")].

(** A reply for the track [tRNAs]: an item with the fields of a BED
    record, one with transcript coordinates written as text and no
    name, and one without coordinates. *)
Definition reply : json Z :=
  JObj [("tRNAs",
         JArr [JObj ala_item;
               JObj [("txStart", JStr "5"); ("txEnd", JInt 9)];
               JObj [("note", JInt 1)]])].

(** A reply whose second item has a start that is no number. *)
Definition bad_item : list (string * json Z) :=
  [("chromStart", JStr "ten"); ("chromEnd", JInt 20)].

Definition bad_reply : json Z :=
  JObj [("tRNAs", JArr [JObj ala_item; JObj bad_item])].

Definition ala_feature : Feature Z :=
  {| feat_id := "id00001"; feat_start := 10; feat_end := 20;
     feat_name := "tRNA-Ala"; feat_type := "tRNAs"; feat_track := "tRNAs";
     feat_score := None; feat_raw_data := ala_item |}.

Definition unnamed_feature : Feature Z :=
  {| feat_id := "id00002"; feat_start := 5; feat_end := 9;
     feat_name := "unnamed"; feat_type := "tRNAs"; feat_track := "tRNAs";
     feat_score := None;
     feat_raw_data := [("txStart", JStr "5"); ("txEnd", JInt 9)] |}.

End SampleBrowser.

(** ** The event stream of [views.py] *)

Module Views.

Section EventStream.
Context {F Json : Type}.

(** What [event_stream] yields; each frame is sent as
    [data: <text>] and an empty line.  A chunk is what the run of
    [chatbot.py] yielded, the other three are events of the view. *)
Inductive frame : Type :=
| StartFrame (chat_id title model : string) (timestamp : nat)
| ChunkFrame (chunk : Chatbot.event F Json)
| EndFrame (timestamp : nat)
| ErrorFrame (error : string) (timestamp : nat).

(** [response.flush], called after the [i]-th chunk has been sent. *)
Variable flush : nat -> Py.exn + unit.

(** [async for chunk in processor.process_message(content)]: the frames
    sent, and the exception that ended the loop, if any. *)
Fixpoint forward (i : nat) (chunks : list (Chatbot.event F Json))
  : list frame * option Py.exn :=
  match chunks with
  | [] => ([], None)
  | chunk :: chunks' =>
      match flush i with
      | inl x => ([ChunkFrame chunk], Some x)
      | inr _ =>
          let '(frames, raised) := forward (S i) chunks' in
          (ChunkFrame chunk :: frames, raised)
      end
  end.

(** [event_stream()]; [started] and [finished] are the times read for
    the first and for the last event. *)
Definition event_stream (chat_id title model : string) (started finished : nat)
    (chunks : list (Chatbot.event F Json)) : list frame :=
  let '(frames, raised) := forward 0 chunks in
  StartFrame chat_id title model started
  :: frames
  ++ [match raised with
      | None => EndFrame finished
      | Some x => ErrorFrame (Py.str_of_exn x) finished
      end].

End EventStream.

Arguments frame : clear implicits.

Section Pagination.
Context {A : Type}.

(** [queryset[start:stop]]: Django refuses a negative bound; a stop
    before the start gives no row. *)
Definition slice (rows : list A) (start stop : Z) : Py.exn + list A :=
  if (start <? 0) || (stop <? 0)
  then inl (Py.ValueError "Negative indexing is not supported.")
  else inr (take (Z.to_nat (stop - start)) (drop (Z.to_nat start) rows)).

(** What [ChatView.get] answers for a user whose active chats, newest
    first, are [rows]: the chats of the page with the [pagination]
    block, or the text of the exception under status 500. *)
Inductive listing : Type :=
| Listed (chats : list A) (page page_size total_chats total_pages : Z)
| Failed (status : Z) (error : string).

Definition chat_page (rows : list A) (page page_size : Z) : listing :=
  let total_chats := Z.of_nat (length rows) in
  let offset := (page - 1) * page_size in
  match slice rows offset (offset + page_size) with
  | inl x => Failed 500 (Py.str_of_exn x)
  | inr chats =>
      if page_size =? 0
      then Failed 500 "integer division or modulo by zero"
      else Listed chats page page_size total_chats
             ((total_chats + page_size - 1) / page_size)
  end.

(** The pages [1 .. n] *)
Definition pages (n : Z) : list Z := map (fun i => Z.of_nat i + 1) (seq 0 (Z.to_nat n)).

(** The chats of a listing; none when the request failed. *)
Definition chats_of (l : listing) : list A :=
  match l with
  | Listed chats _ _ _ _ => chats
  | Failed _ _ => []
  end.

End Pagination.

Arguments listing : clear implicits.

End Views.

(** ** The registry of [event_manager.py] *)

Module Registry.

Section Registry.
Context {Data : Type}.

#[local] Abbreviation sse_event := (list (string * @EventManager.field Data)).

(** The [EventManager] objects, each with its queue, and the module
    dictionary [_event_managers], which maps a chat to its manager.  An
    object is named by a number; a manager that has left the dictionary
    still exists for who holds it. *)
Record world : Type := {
  managers : gmap nat (list sse_event);
  _event_managers : gmap string nat
}.

Definition empty : world := {| managers := ∅; _event_managers := ∅ |}.

(** [EventManager()]: a new object with an empty queue. *)
Definition new_manager (w : world) : nat := fresh (dom (managers w)).

Definition get_event_manager (chat_id : string) (w : world) : nat * world :=
  match _event_managers w !! chat_id with
  | Some manager => (manager, w)
  | None =>
      let manager := new_manager w in
      (manager,
       {| managers := <[manager := []]> (managers w);
          _event_managers := <[chat_id := manager]> (_event_managers w) |})
  end.

Definition cleanup_event_manager (chat_id : string) (w : world) : world :=
  {| managers := managers w;
     _event_managers := delete chat_id (_event_managers w) |}.

(** The queue of a manager. *)
Definition queue (manager : nat) (w : world) : list sse_event :=
  default [] (managers w !! manager).

(** [manager.add_event(event_type, data)] *)
Definition add_event (manager : nat) (event_type : string) (data : Data)
    (now : nat) (w : world) : world :=
  {| managers :=
       <[manager := EventManager.add_event event_type data now (queue manager w)]>
         (managers w);
     _event_managers := _event_managers w |}.

(** What the two functions keep of the dictionary: its managers exist,
    and no two chats share one. *)
Definition registered (w : world) : Prop :=
  (forall chat_id manager,
     _event_managers w !! chat_id = Some manager ->
     manager ∈ dom (managers w))
  /\ (forall chat_id chat_id' manager,
        _event_managers w !! chat_id = Some manager ->
        _event_managers w !! chat_id' = Some manager ->
        chat_id = chat_id').

End Registry.

Arguments world : clear implicits.

End Registry.

(** ** The CRAP tool: [GenomeBrowser.view_region] and [CrapMCP] *)

Module Crap.
Import Mcp Browser.

Definition DEFAULT_TRACKS : list string :=
  ["knownGene"; "encodeCcreCombined"; "encode3RenEnhancerEpdNewPromoter";
   "refSeqComposite"; "wgEncodeBroadHmm"; "cpgIslandExt"; "cons100way";
   "tRNAs"; "Enhancers"; "wgEncodeAwgDnaseUniform";
   "wgEncodeRegDnaseClustered"; "wgEncodeRegTfbsClusteredV3";
   "wgEncodeMapability"; "rmsk"].

(** [s[:n]] *)
Fixpoint first_chars (n : nat) (s : string) : string :=
  match n, s with
  | S n', String c rest => String c (first_chars n' rest)
  | _, _ => ""
  end.

Section CrapMCP.
Context {F Json : Type} `{PyFloat F}.

(** The text of a parameter value inside an f-string, the text of a list
    or of a dictionary of a reply, the dictionary of a feature
    ([f.__dict__]) and [base64.b64encode(...).decode("utf-8")]. *)
Variable py_str : pyval F -> string.
Variable py_repr : json F -> string.
Variable feature_dict : Feature F -> Json.
Variable b64encode : string -> string.

(** What [AnnotatedSequence] does with a start that is a float: the
    arithmetic of floats stays abstract, as do the spans it gives. *)
Variable FloatSpans : Type.
Variable float_none : FloatSpans.
Variable float_add : F -> string -> Feature F -> FloatSpans -> Py.exn + FloatSpans.
Variable float_format : string -> FloatSpans -> string.

(** [GenomicRegion], as [CrapMCP] fills it from the parameters:
    [params.get(key)] is [None] for a missing key, [genome] defaults to
    [hg19], and [tracks] to an empty list ([None] below). *)
Record GenomicRegion : Type := {
  genome : pyval F;
  chrom : pyval F;
  start : pyval F;
  end_ : pyval F;
  tracks : option (pyval F)
}.

Definition region_of (params : gmap string (pyval F)) : GenomicRegion :=
  {| genome := default (VStr "hg19") (params !! "genome");
     chrom := default VNone (params !! "chrom");
     start := default VNone (params !! "start");
     end_ := default VNone (params !! "end");
     tracks := params !! "tracks" |}.

(** [tracks_to_show], as [for track in tracks_to_show] runs through it:
    the default tracks when [region.tracks] is [None], the characters of
    a string, the keys of the context dictionary; a number cannot be
    iterated. *)
Definition shown (tracks : option (pyval F)) : Py.exn + list string :=
  match tracks with
  | None => inr []
  | Some VNone => inr DEFAULT_TRACKS
  | Some (VStr s) => inr (map (fun c => String c "") (list_ascii_of_string s))
  | Some (VContext _) => inr ["user_id"; "chat_id"; "message_id"]
  | Some (VInt _) => inl (Py.TypeError "'int' object is not iterable")
  | Some (VFloat _) => inl (Py.TypeError "'float' object is not iterable")
  end.

(** The reply of the sequence endpoint as [view_region] reads it: a value
    that is falsy or has no [dna], or a dictionary with the text of the
    sequence under [dna]. *)
Inductive sequence_reply : Type :=
| NoSequence
| Dna (dna : string).

(** The network and the browser driver; each takes the number of calls
    made to it before. *)
Record env : Type := {
  sequence_endpoint : nat -> GenomicRegion -> Py.exn + sequence_reply;
  track_endpoint : nat -> GenomicRegion -> string -> Py.exn + json F;
  chrome : nat -> string -> Py.exn + string
}.

(** The calls made so far: to the sequence endpoint, to the track
    endpoint (the tracks asked for) and to the driver. *)
Record calls : Type := {
  sequence_calls : nat;
  track_calls : list string;
  screenshot_calls : nat
}.

Variable e : env.

#[local] Abbreviation M := (Gen.M calls).

(** [GenomeBrowser.get_sequence] *)
Definition get_sequence (region : GenomicRegion) : M sequence_reply :=
  fun st =>
    (sequence_endpoint e (sequence_calls st) region,
     {| sequence_calls := S (sequence_calls st); track_calls := track_calls st;
        screenshot_calls := screenshot_calls st |}).

(** [GenomeBrowser.get_track_data]: any failure gives [{}]. *)
Definition get_track_data (region : GenomicRegion) (track : string)
  : M (json F) :=
  fun st =>
    (inr match track_endpoint e (length (track_calls st)) region track with
         | inr track_data => track_data
         | inl _ => JObj []
         end,
     {| sequence_calls := sequence_calls st;
        track_calls := track_calls st ++ [track];
        screenshot_calls := screenshot_calls st |}).

(** The annotated sequence of a region: its start is an integer, a
    float, or a value with which no subtraction is possible, of the
    type named. *)
Inductive annotated : Type :=
| IntStart (a : AnnotatedSequence F)
| FloatStart (f : F) (spans : FloatSpans)
| OtherStart (type_name : string).

(** [AnnotatedSequence(sequence, region.start)] *)
Definition annotate (sequence : string) (start : pyval F) : annotated :=
  match start with
  | VInt z => IntStart (new sequence z)
  | VFloat f => FloatStart f float_none
  | VStr _ => OtherStart "str"
  | VNone => OtherStart "NoneType"
  | VContext _ => OtherStart "dict"
  end.

(** [annotated_seq.add_feature(feature)]: its first statement subtracts
    the start of the region from the start of the feature. *)
Definition add_feature (sequence : string) (feature : Feature F)
    (ann : annotated) : Py.exn + annotated :=
  match ann with
  | IntStart a => inr (IntStart (Browser.add_feature feature a))
  | FloatStart f spans =>
      let* spans' := float_add f sequence feature spans in
      inr (FloatStart f spans')
  | OtherStart type_name =>
      inl (Py.TypeError
             ("unsupported operand type(s) for -: 'int' and '" ++ type_name ++ "'"))
  end.

Fixpoint add_each (sequence : string) (features : list (Feature F))
    (ann : annotated) : Py.exn + annotated :=
  match features with
  | [] => inr ann
  | feature :: features' =>
      let* ann' := add_feature sequence feature ann in
      add_each sequence features' ann'
  end.

(** [annotated_seq.format_sequence()]; with a start that allows no
    subtraction no feature has been stored, and [format_sequence] does
    not read the start. *)
Definition format (sequence : string) (ann : annotated) : string :=
  match ann with
  | IntStart a => format_sequence a
  | FloatStart _ spans => float_format sequence spans
  | OtherStart _ => format_sequence (new (F:=F) sequence 0)
  end.

(** The loop over the tracks. *)
Fixpoint each_track (region : GenomicRegion) (sequence : string)
    (tracks_to_show : list string) (all_features : list (Feature F))
    (ann : annotated) : M (list (Feature F) * annotated) :=
  match tracks_to_show with
  | [] => Gen.ret (all_features, ann)
  | track :: rest =>
      let! track_data := get_track_data region track in
      let! features := Gen.lift (extract_features py_repr track_data track) in
      let! ann' := Gen.lift (add_each sequence features ann) in
      each_track region sequence rest (all_features ++ features) ann'
  end.

(** The key [(f.start, f.end)] *)
Definition feature_lt (x y : Feature F) : bool :=
  (feat_start x <? feat_start y)
  || ((feat_start x =? feat_start y) && (feat_end x <? feat_end y)).

Record GenomicResponse : Type := {
  resp_region : GenomicRegion;
  resp_sequence : string;
  resp_features : list (Feature F);
  resp_annotated_sequence : string;
  resp_tracks : list string
}.

(** [GenomicResponse.generate_browser_link] *)
Definition generate_browser_link (response : GenomicResponse) : string :=
  let region := resp_region response in
  let position :=
    py_str (chrom region) ++ ":" ++ py_str (start region) ++ "-"
      ++ py_str (end_ region) in
  "https://genome.ucsc.edu/cgi-bin/hgTracks?"
  ++ Py.join "&"
       (["db=" ++ py_str (genome region); "position=" ++ position;
         "lastVirtModeType=default"; "lastVirtModeExtraState=";
         "virtModeType=default"; "virtMode=0"; "nonVirtPosition="]
        ++ map (fun track => track ++ "=pack") (resp_tracks response)).

(** [GenomicResponse.capture_browser_screenshot]: the bytes of the
    image; whatever is raised is raised again as a [RuntimeError]. *)
Definition capture_browser_screenshot (response : GenomicResponse) : M string :=
  fun st =>
    (match chrome e (screenshot_calls st) (generate_browser_link response) with
     | inr image_bytes => inr image_bytes
     | inl x =>
         inl (Py.ExternalError ("Failed to capture screenshot: " ++ Py.str_of_exn x))
     end,
     {| sequence_calls := sequence_calls st; track_calls := track_calls st;
        screenshot_calls := S (screenshot_calls st) |}).

(** [GenomeBrowser.view_region]; [capture_screenshot] has its default,
    [True]. *)
Definition view_region (region : GenomicRegion) : M GenomicResponse :=
  let! sequence_data := get_sequence region in
  match sequence_data with
  | NoSequence => Gen.lift (inl (Py.ValueError "Could not retrieve sequence"))
  | Dna sequence =>
      let! tracks_to_show := Gen.lift (shown (tracks region)) in
      let! found :=
        each_track region sequence tracks_to_show []
          (annotate sequence (start region)) in
      let response :=
        {| resp_region := region; resp_sequence := sequence;
           resp_features := sorted feature_lt (fst found);
           resp_annotated_sequence := format sequence (snd found);
           resp_tracks := tracks_to_show |} in
      capture_browser_screenshot response ;;
      Gen.ret response
  end.

(** The [try] block of [CrapMCP.process_request] *)
Definition answer (request : MCPRequest F) : M (MCPResponse F Json) :=
  let region := region_of (params request) in
  let! response := view_region region in
  let! image_bytes := capture_browser_screenshot response in
  let image_data :=
    if Py.is_empty image_bytes then None else Some (b64encode image_bytes) in
  Gen.ret
    (success
       (DataRegion
          {| reg_sequence := first_chars 2000 (resp_sequence response);
             reg_annotated_sequence :=
               first_chars 2000 (resp_annotated_sequence response);
             reg_features := map feature_dict (take 50 (resp_features response));
             reg_tracks := resp_tracks response;
             reg_browser_link := generate_browser_link response;
             reg_image :=
               match image_data with
               | Some text => if Py.is_empty text then None else Some text
               | None => None
               end |})).

(** [CrapMCP.process_request]: an exception gives a failure that
    carries its text as [message]. *)
Definition process_request (request : MCPRequest F) (st : calls)
  : MCPResponse F Json * calls :=
  match answer request st with
  | (inr response, st') => (response, st')
  | (inl x, st') =>
      ({| status := "error"; data_of := None;
          error := Some {["message" := Py.str_of_exn x]} |}, st')
  end.

End CrapMCP.

Arguments GenomicRegion : clear implicits.
Arguments GenomicResponse : clear implicits.
Arguments env : clear implicits.
Arguments IntStart {F FloatSpans} a.
Arguments FloatStart {F FloatSpans} f spans.
Arguments OtherStart {F FloatSpans} type_name.

End Crap.

(** ** Sample collaborators of the CRAP tool *)

Module SampleCrap.
Import Mcp Browser Crap.

(** A network that answers every sequence request with twelve bases and
    every track request with [track_data], and a driver that returns an
    image. *)
Definition sample_env (track_data : json Z) : env Z :=
  {| sequence_endpoint := fun _ _ => inr (Dna "ACGTACGTACGT");
     track_endpoint := fun _ _ _ => inr track_data;
     chrome := fun _ _ => inr "png" |}.

Definition no_calls : calls :=
  {| sequence_calls := 0; track_calls := []; screenshot_calls := 0 |}.

Definition process (track_data : json Z) (request : MCPRequest Z) (st : calls)
  : MCPResponse Z unit * calls :=
  Crap.process_request Sample.sample_str SampleBrowser.sample_repr (fun _ => tt)
    (fun image => "base64:" ++ image) unit tt (fun _ _ _ spans => inr spans)
    (fun sequence _ => sequence) (sample_env track_data) request st.

(** A directive that names a track, what it parses to, and a reply with
    one feature for that track. *)
Definition track_directive : string :=
  "CRAP " ++ Sample.token "start" "100" ++ " " ++ Sample.token "tracks" "t".

Definition track_params : gmap string (pyval Z) :=
  <["start" := VStr "100"]> {["tracks" := VStr "t"]}.

Definition track_reply : json Z :=
  JObj [("t", JArr [JObj SampleBrowser.ala_item])].

Definition track_feature : Feature Z :=
  {| feat_id := "id00001"; feat_start := 10; feat_end := 20;
     feat_name := "tRNA-Ala"; feat_type := "t"; feat_track := "t";
     feat_score := None; feat_raw_data := SampleBrowser.ala_item |}.

(** The request of the region directive, and the region it gets back. *)
Definition region_request (parsed : gmap string (pyval Z)) : MCPRequest Z :=
  {| method := "view_region";
     params := <["context" := VContext Sample.session]> parsed |}.

Definition region_result : region unit :=
  {| reg_sequence := "ACGTACGTACGT"; reg_annotated_sequence := "ACGTACGTACGT";
     reg_features := []; reg_tracks := [];
     reg_browser_link :=
       "https://genome.ucsc.edu/cgi-bin/hgTracks?db=hg19&position=chr6:100-None&lastVirtModeType=default&lastVirtModeExtraState=&virtModeType=default&virtMode=0&nonVirtPosition=";
     reg_image := Some "base64:png" |}.

End SampleCrap.

(** * Properties *)

(** ** The parsing of a directive *)

Module DirectiveFacts.
Import Mcp Directive.

Section Facts.
Context {F : Type} `{PyFloat F}.
Variable kp : key_parser (F:=F).

(** A token without a colon, and a key that is not recognised, leave the
    parameters as they are and raise nothing. *)
Lemma parse_part_no_colon acc part :
  Py.split_colon part = None -> parse_part kp acc part = inr acc.
Proof. unfold parse_part. now intros ->. Qed.

Lemma parse_part_unknown acc part key value :
  Py.split_colon part = Some (key, value) ->
  kp key (Py.strip Py.dquote value) = inr None ->
  parse_part kp acc part = inr acc.
Proof. unfold parse_part. now intros -> ->. Qed.

(** What [int()] or [float()] raises on one value ends the parsing of the
    whole directive: the keys parsed before are lost with it, the keys
    after are not looked at. *)
Lemma parse_part_raises acc part key value x :
  Py.split_colon part = Some (key, value) ->
  kp key (Py.strip Py.dquote value) = inl x ->
  parse_part kp acc part = inl x.
Proof. unfold parse_part. now intros -> ->. Qed.

Lemma parse_parts_raises acc part rest x :
  parse_part kp acc part = inl x -> parse_parts kp acc (part :: rest) = inl x.
Proof. cbn [parse_parts]. now intros ->. Qed.

Lemma parse_parts_skips acc part rest :
  parse_part kp acc part = inr acc ->
  parse_parts kp acc (part :: rest) = parse_parts kp acc rest.
Proof. cbn [parse_parts]. now intros ->. Qed.

End Facts.

Section Keys.
Context {F : Type} `{PyFloat F}.

Lemma chatbot_key_limit value :
  chatbot_key (F:=F) "limit" value
  = match Py.int_of_str value with
    | inl x => inl x
    | inr n => inr (Some ("limit", VInt n))
    end.
Proof. reflexivity. Qed.

Lemma processor_key_limit value :
  processor_key (F:=F) "limit" value
  = match Py.int_of_str value with
    | inl x => inl x
    | inr n => inr (Some ("limit", VInt n))
    end.
Proof. reflexivity. Qed.

End Keys.
End DirectiveFacts.

(** ** The RNA database adapter *)

Module RnaDbFacts.
Import Mcp RnaDb.

Section Facts.
Context {F Json Row : Type} `{PyFloat F}.
Variable py_str : pyval F -> string.
Variable sqlite_connect : Py.exn + unit.
Variable sqlite_select : string -> list (pyval F) -> Py.exn + list Row.
Variable acreate : context -> Row -> Py.exn + seq_record F Json.

#[local] Abbreviation dict := (gmap string (pyval F)).


Lemma species_of_default (p : dict) :
  defaults_to_human p = true -> species_of p = inr "human".
Proof.
  unfold defaults_to_human, species_of, get_lower.
  destruct (p !! "species") as [[s | | | |] |]; try discriminate; intros Hd; cbn [Py.bind].
  - apply negb_true_iff, bool_decide_eq_false in Hd.
    destruct (decide _) as [Hin | _]; [contradiction | reflexivity].
  - now destruct (decide _).
Qed.


Lemma append_cons (ch : ascii) (a b : string) :
  String ch a ++ b = String ch (a ++ b).
Proof. reflexivity. Qed.

Lemma append_assoc (a b c : string) : (a ++ b) ++ c = a ++ (b ++ c).
Proof.
  induction a as [| ch a IH]; [reflexivity |].
  now rewrite !append_cons, IH.
Qed.

Lemma extends_add base (st : statement F) text args :
  extends base st -> extends base (add st text args).
Proof.
  intros [rest Hrest]. exists (rest ++ text). unfold add; cbn [sql]. rewrite Hrest.
  apply append_assoc.
Qed.

Lemma extends_add_score (p : dict) key text st st' base :
  add_score p key text st = inr st' -> extends base st -> extends base st'.
Proof.
  unfold add_score. destruct (p !! key) as [v |].
  - destruct (to_float v); cbn; [discriminate |]. intros [= <-]. apply extends_add.
  - now intros [= <-].
Qed.

Ltac bind_step H :=
  match type of H with
  | Py.bind ?x _ = inr _ =>
      let E := fresh "E" in
      destruct x eqn:E; cbn [Py.bind] in H; [discriminate H |]
  end.

Lemma extends_refl base :
  extends (F:=F) base {| sql := base; sql_params := []; sql_limit := None |}.
Proof.
  exists "". cbn [sql]. induction base as [| c b IH]; [reflexivity |].
  now rewrite append_cons, <- IH.
Qed.

Lemma extends_add_search_term (p : dict) base st :
  extends base st -> extends base (add_search_term py_str p st).
Proof.
  unfold add_search_term. destruct (p !! "search_term"); [apply extends_add | trivial].
Qed.

Lemma extends_add_filter (p : dict) key text base st :
  extends base st -> extends base (add_filter p key text st).
Proof. unfold add_filter. destruct (p !! key); [apply extends_add | trivial]. Qed.

Lemma extends_add_json_filter (p : dict) base st :
  extends base st -> extends base (add_json_filter p st).
Proof.
  unfold add_json_filter. intros Hst.
  destruct (p !! "json_field"); [| exact Hst].
  destruct (p !! "json_value"); [| exact Hst].
  destruct (is_str _ _); [| exact Hst]. now do 2 apply extends_add.
Qed.

Lemma extends_add_sorting (p : dict) base st st' :
  add_sorting py_str p st = inr st' -> extends base st -> extends base st'.
Proof.
  unfold add_sorting. destruct (p !! "sort_by"); [| now intros [= <-]].
  intros Hb Hst. bind_step Hb. injection Hb as <-. now do 2 apply extends_add.
Qed.

Lemma extends_add_sampling (p : dict) base st st' :
  add_sampling p st = inr st' -> extends base st -> extends base st'.
Proof.
  unfold add_sampling. intros Hb Hst. bind_step Hb. injection Hb as <-.
  destruct (String.eqb _ _); [now apply extends_add | exact Hst].
Qed.

Lemma extends_add_limit (p : dict) base st st' :
  add_limit p st = inr st' -> extends base st -> extends base st'.
Proof.
  unfold add_limit. intros Hb Hst.
  destruct (p !! "limit"); [bind_step Hb |]; injection Hb as <-; exact Hst.
Qed.

(** The statement of a search reads the table of the request's species. *)
Lemma search_statement_extends (p : dict) st sp :
  search_statement py_str p = inr st -> species_of p = inr sp ->
  extends ("SELECT * FROM " ++ sp ++ " WHERE 1=1") st.
Proof.
  unfold search_statement. intros Hst Hsp. rewrite Hsp in Hst. cbn [Py.bind] in Hst.
  do 7 bind_step Hst.
  eapply extends_add_limit; [eassumption |].
  eapply extends_add_sampling; [eassumption |].
  eapply extends_add_sorting; [eassumption |]. apply extends_add_json_filter.
  do 4 (eapply extends_add_score; [eassumption |]).
  do 2 apply extends_add_filter. apply extends_add_search_term, extends_refl.
Qed.

(** The limit clause carries the requested number, as it was given. *)
Lemma search_statement_limit (p : dict) st n :
  search_statement py_str p = inr st -> p !! "limit" = Some (VInt n) ->
  sql_limit st = Some n.
Proof.
  unfold search_statement. intros Hst Hn. do 8 bind_step Hst.
  unfold add_limit in Hst. rewrite Hn in Hst. cbn in Hst. now injection Hst as <-.
Qed.

Lemma store_rows_length ctx rows seqs :
  store_rows acreate ctx rows = inr seqs -> length seqs = length rows.
Proof.
  revert seqs. induction rows as [| row rows IH]; cbn [store_rows]; intros seqs Hs.
  - now injection Hs as <-.
  - do 2 bind_step Hs. injection Hs as <-. cbn. f_equal. now apply IH.
Qed.

Lemma error_code_failure code msg :
  error_code (failure (F:=F) (Json:=Json) code msg) = Some code.
Proof.
  unfold error_code, failure. cbn [error].
  rewrite lookup_insert_ne by discriminate. apply lookup_singleton_eq.
Qed.

Lemma error_code_success d : error_code (success (F:=F) (Json:=Json) d) = None.
Proof. reflexivity. Qed.

(** [_handle_search] answers with its sequences or with [SEARCH_ERROR]. *)
Lemma handle_search_cases (p : dict) ctx :
  (exists st rows seqs,
      search_statement py_str p = inr st
      /\ sqlite_connect = inr tt
      /\ fetchall sqlite_select st = inr rows
      /\ store_rows acreate ctx rows = inr seqs
      /\ _handle_search py_str sqlite_connect sqlite_select acreate p ctx
         = success (DataSearch seqs (length seqs) p))
  \/ (exists msg,
      _handle_search py_str sqlite_connect sqlite_select acreate p ctx
      = failure "SEARCH_ERROR" msg).
Proof.
  unfold _handle_search.
  destruct (search_statement py_str p) as [x | st] eqn:Est; cbn [Py.bind]; [right; eauto |].
  destruct sqlite_connect as [x | []] eqn:Econn; cbn [Py.bind]; [right; eauto |].
  destruct (fetchall sqlite_select st) as [x | rows] eqn:Erows; cbn [Py.bind]; [right; eauto |].
  destruct (store_rows acreate ctx rows) as [x | seqs] eqn:Eseqs; cbn [Py.bind]; [right; eauto |].
  left. exists st, rows, seqs. auto.
Qed.

(** The number of records returned is the requested limit or the number
    of rows the statement finds, whichever is smaller: no ceiling takes
    part. *)
Lemma handle_search_count (p : dict) ctx n k :
  p !! "limit" = Some (VInt n) -> 0 <= n ->
  returned (_handle_search py_str sqlite_connect sqlite_select acreate p ctx) = Some k ->
  exists st rows,
    search_statement py_str p = inr st
    /\ sqlite_select (sql st) (sql_params st) = inr rows
    /\ k = Nat.min (Z.to_nat n) (length rows).
Proof.
  intros Hn Hpos Hk.
  destruct (handle_search_cases p ctx) as [(st & rows & seqs & Est & _ & Erows & Eseqs & Er) | (msg & Er)];
    rewrite Er in Hk; [| discriminate].
  cbn in Hk. injection Hk as <-.
  pose proof (search_statement_limit _ _ _ Est Hn) as Hl.
  unfold fetchall in Erows. rewrite Hl in Erows. bind_step Erows.
  exists st, l. split; [exact Est |]. split; [exact E |].
  rewrite (store_rows_length _ _ _ Eseqs).
  unfold sqlite_limit in Erows.
  destruct (_ || _); [discriminate |]. injection Erows as <-.
  destruct (n <? 0) eqn:En; [lia |]. now rewrite length_take.
Qed.

(** [_handle_get_sequence] answers with its sequence or with one of its
    three failures. *)
Lemma handle_get_sequence_cases (p : dict) ctx :
  let r := _handle_get_sequence py_str sqlite_connect sqlite_select acreate p ctx in
  (exists s, r = success (DataSequence s))
  \/ (exists code msg,
        r = failure code msg
        /\ (code = "MISSING_PARAM" \/ code = "NOT_FOUND"
            \/ code = "GET_SEQUENCE_ERROR")).
Proof.
  unfold _handle_get_sequence. destruct (negb _); [right; eauto 6 |].
  destruct sqlite_connect as [x | []]; cbn [Py.bind]; [right; eauto 7 |].
  destruct (species_of p) as [x | sp]; cbn [Py.bind]; [right; eauto 7 |].
  destruct (display_name sp) as [x | name]; cbn [Py.bind]; [right; eauto 7 |].
  destruct (sqlite_select _ _) as [x | [| row rows]]; cbn [Py.bind]; [right; eauto 7 | right; eauto 7 |].
  destruct (acreate ctx row) as [x | s]; cbn [Py.bind]; [right; eauto 7 | left; eauto].
Qed.

(** With the species defaulted, [_handle_get_sequence] reads the human
    table: a row found there and stored is the success; no row is
    [NOT_FOUND]. *)
Lemma handle_get_sequence_human (p : dict) ctx g :
  defaults_to_human p = true ->
  p !! "gene_symbol" = Some g -> truthy (Some g) = true ->
  sqlite_connect = inr tt ->
  match sqlite_select "SELECT * FROM human WHERE GtRNAdb_Gene_Symbol = ?" [g] with
  | inr (row :: _) =>
      match acreate ctx row with
      | inr s =>
          _handle_get_sequence py_str sqlite_connect sqlite_select acreate p ctx
          = success (DataSequence s)
      | inl x =>
          _handle_get_sequence py_str sqlite_connect sqlite_select acreate p ctx
          = failure "GET_SEQUENCE_ERROR" (Py.str_of_exn x)
      end
  | inr [] =>
      _handle_get_sequence py_str sqlite_connect sqlite_select acreate p ctx
      = failure "NOT_FOUND"
          ("No sequence found with gene symbol: " ++ py_str g)
  | inl x =>
      _handle_get_sequence py_str sqlite_connect sqlite_select acreate p ctx
      = failure "GET_SEQUENCE_ERROR" (Py.str_of_exn x)
  end.
Proof.
  intros Hd Hg Ht Hconn. unfold _handle_get_sequence.
  rewrite Hg, Ht, Hconn, (species_of_default _ Hd). cbn [negb Py.bind default].
  change (display_name "human") with (@inr Py.exn string "Human (Homo sapiens)").
  cbn [Py.bind].
  change ("SELECT * FROM " ++ "human" ++ " WHERE GtRNAdb_Gene_Symbol = ?")
    with "SELECT * FROM human WHERE GtRNAdb_Gene_Symbol = ?".
  destruct (sqlite_select _ _) as [x | [| row rows]]; cbn [Py.bind]; try reflexivity.
  now destruct (acreate ctx row).
Qed.

End Facts.
End RnaDbFacts.

(** C1 (defect of the code).  The claim asks for [min(L, C)] records with
    the ceiling [C = 10].  On a table of sixty rows, the request that the
    directive [GET_TRNA limit:"50"] produces makes [RNADatabaseMCP]
    return fifty records: [_handle_search] binds the requested limit as
    it is.  The sibling [_handle_search_rna] of [mcp_server.py] computes
    [min(50, 10) = 10] for the same arguments. *)
Theorem C1_requested_limit_is_not_clamped :
  exists request response,
    Sample.search_request Sample.limit_50 = inr request
    /\ Sample.rna_process request = inr response
    /\ Mcp.status response = "success"
    /\ Mcp.returned response = Some 50%nat
    /\ McpServer.final_limit (Mcp.params request) = inr 10.
Proof.
  do 2 eexists. split; [vm_compute; reflexivity |].
  split; [vm_compute; reflexivity |].
  repeat split; vm_compute; reflexivity.
Qed.

(** C10 (as amended).  When the species of a request is absent, or is a
    name that once lower-cased is none of human, yeast and mouse, the
    adapter takes human: the search statement reads the human table, and
    neither handler ever answers [INVALID_PARAM].  The answer is a success
    when the statement, the query and the storing of its rows succeed,
    and for [get_sequence] when a gene symbol is given and a row is
    found; when no row is found the answer is [NOT_FOUND], and an
    exception gives [GET_SEQUENCE_ERROR]. *)
Theorem C10_species_defaults_to_human
    {F Json Row : Type} `{Mcp.PyFloat F}
    (py_str : Mcp.pyval F -> string) (sqlite_connect : Py.exn + unit)
    (sqlite_select : string -> list (Mcp.pyval F) -> Py.exn + list Row)
    (acreate : Mcp.context -> Row -> Py.exn + Mcp.seq_record F Json)
    (p : gmap string (Mcp.pyval F)) (ctx : Mcp.context) :
  RnaDb.defaults_to_human p = true ->
  RnaDb.species_of p = inr "human"
  /\ (forall st, RnaDb.search_statement py_str p = inr st ->
        RnaDb.extends "SELECT * FROM human WHERE 1=1" st)
  /\ Mcp.error_code (RnaDb._handle_search py_str sqlite_connect sqlite_select acreate p ctx)
     <> Some "INVALID_PARAM"
  /\ Mcp.error_code (RnaDb._handle_get_sequence py_str sqlite_connect sqlite_select acreate p ctx)
     <> Some "INVALID_PARAM"
  /\ (forall st rows seqs,
        RnaDb.search_statement py_str p = inr st ->
        sqlite_connect = inr tt ->
        RnaDb.fetchall sqlite_select st = inr rows ->
        RnaDb.store_rows acreate ctx rows = inr seqs ->
        RnaDb._handle_search py_str sqlite_connect sqlite_select acreate p ctx
        = Mcp.success (Mcp.DataSearch seqs (length seqs) p))
  /\ (forall g,
        p !! "gene_symbol" = Some g -> RnaDb.truthy (Some g) = true ->
        sqlite_connect = inr tt ->
        match sqlite_select "SELECT * FROM human WHERE GtRNAdb_Gene_Symbol = ?" [g] with
        | inr (row :: _) =>
            match acreate ctx row with
            | inr s =>
                RnaDb._handle_get_sequence py_str sqlite_connect sqlite_select acreate p ctx
                = Mcp.success (Mcp.DataSequence s)
            | inl x =>
                RnaDb._handle_get_sequence py_str sqlite_connect sqlite_select acreate p ctx
                = Mcp.failure "GET_SEQUENCE_ERROR" (Py.str_of_exn x)
            end
        | inr [] =>
            RnaDb._handle_get_sequence py_str sqlite_connect sqlite_select acreate p ctx
            = Mcp.failure "NOT_FOUND"
                ("No sequence found with gene symbol: " ++ py_str g)
        | inl x =>
            RnaDb._handle_get_sequence py_str sqlite_connect sqlite_select acreate p ctx
            = Mcp.failure "GET_SEQUENCE_ERROR" (Py.str_of_exn x)
        end).
Proof.
  intros Hd. pose proof (RnaDbFacts.species_of_default p Hd) as Hsp.
  split; [exact Hsp |]. split.
  { intros st Hst.
    exact (RnaDbFacts.search_statement_extends py_str p st "human" Hst Hsp). }
  split.
  { destruct (RnaDbFacts.handle_search_cases py_str sqlite_connect sqlite_select acreate p ctx)
      as [(st & rows & seqs & _ & _ & _ & _ & ->) | (msg & ->)].
    - rewrite RnaDbFacts.error_code_success. discriminate.
    - rewrite RnaDbFacts.error_code_failure. discriminate. }
  split.
  { destruct (RnaDbFacts.handle_get_sequence_cases py_str sqlite_connect sqlite_select acreate p ctx)
      as [(s & ->) | (code & msg & -> & Hcode)].
    - rewrite RnaDbFacts.error_code_success. discriminate.
    - rewrite RnaDbFacts.error_code_failure.
      destruct Hcode as [-> | [-> | ->]]; discriminate. }
  split.
  { intros st rows seqs Hst Hconn Hrows Hseqs. unfold RnaDb._handle_search.
    now rewrite Hst, Hconn; cbn [Py.bind]; rewrite Hrows; cbn [Py.bind];
      rewrite Hseqs. }
  intros g Hg Ht Hconn.
  exact (RnaDbFacts.handle_get_sequence_human py_str sqlite_connect sqlite_select
           acreate p ctx g Hd Hg Ht Hconn).
Qed.

Lemma C10_species_defaults_to_human_witness :
  RnaDb.defaults_to_human (Mcp.params (Sample.zebrafish_request "tRNA-7")) = true
  /\ RnaDb.species_of (Mcp.params (Sample.zebrafish_request "tRNA-7")) = inr "human".
Proof.
  split; [vm_compute; reflexivity |].
  apply (C10_species_defaults_to_human Sample.sample_str (inr tt) Sample.sample_select
           Sample.sample_acreate (Mcp.params (Sample.zebrafish_request "tRNA-7"))
           Sample.session).
  vm_compute; reflexivity.
Defined.

(** C10 as stated fails: a [get_sequence] request for the species
    zebrafish is answered from the human table, and when the gene symbol
    is not there the answer is the failure [NOT_FOUND], not a success.
    Besides, the name [Mouse] is not one of the three table names, and
    the adapter reads the mouse table for it, not the human one. *)
Lemma C10_default_species_can_fail :
  RnaDb.defaults_to_human (Mcp.params (Sample.zebrafish_request "tRNA-none")) = true
  /\ (exists response,
        Sample.rna_process (Sample.zebrafish_request "tRNA-none") = inr response
        /\ Mcp.status response = "error"
        /\ Mcp.error_code response = Some "NOT_FOUND")
  /\ ("Mouse" ∉ RnaDb.valid_species)
  /\ RnaDb.species_of (<["species" := Mcp.VStr "Mouse"]> (∅ : gmap string (Mcp.pyval Z)))
     = inr "mouse".
Proof.
  split; [vm_compute; reflexivity |]. split.
  - eexists. split; [vm_compute; reflexivity |].
    split; vm_compute; reflexivity.
  - split; [| vm_compute; reflexivity].
    unfold RnaDb.valid_species. rewrite !elem_of_union, !elem_of_singleton.
    intros [[Hm | Hm] | Hm]; discriminate Hm.
Qed.

(** ** The cache wrapper *)

Module CacheFacts.
Import Mcp Cache.

Section Facts.
Context {F Json J : Type}.
Variable json_loads : string -> Py.exn + J.
Variable json_truthy : J -> bool.
Variable tool : nat -> MCPRequest F -> Py.exn + MCPResponse F Json.
Variable class_name : string.
Variable py_hash : string -> Z.
Variable str_of_params : gmap string (pyval F) -> string.
Variable cache_ttl : Z.

#[local] Abbreviation process := (process_request json_loads json_truthy tool class_name py_hash str_of_params cache_ttl).
#[local] Abbreviation key_of := (cache_key class_name py_hash str_of_params).

Lemma set_stores_object key (value : MCPResponse F Json) expiry c :
  set key value expiry c = <[key := StoredObject value]> c.
Proof. reflexivity. Qed.

Lemma get_after_set key (value : MCPResponse F Json) expiry c :
  get json_loads key (set key value expiry c) = Some (Response value).
Proof. rewrite set_stores_object. unfold get. now rewrite lookup_insert_eq. Qed.







End Facts.


End CacheFacts.

(** ** Generator code *)

Module GenFacts.
Import Gen.
Section Laws.
Context {S : Type}.

Lemma keeps_ret {A X} (f : S -> X) (a : A) : keeps f (ret a).
Proof. intros st. reflexivity. Qed.

Lemma keeps_lift {A X} (f : S -> X) (x : Py.exn + A) : keeps f (lift x).
Proof. intros st. reflexivity. Qed.

Lemma keeps_gets {A X} (f : S -> X) (g : S -> A) : keeps f (gets g).
Proof. intros st. reflexivity. Qed.

Lemma keeps_modify {X} (f : S -> X) (g : S -> S) :
  (forall st, f (g st) = f st) -> keeps f (modify g).
Proof. intros Hg st. apply Hg. Qed.

Lemma keeps_bind {A B X} (f : S -> X) (m : M S A) (k : A -> M S B) :
  keeps f m -> (forall a, keeps f (k a)) -> keeps f (bind m k).
Proof.
  intros Hm Hk st. unfold bind. specialize (Hm st).
  destruct (m st) as [[x | a] st']; cbn [snd] in *; [exact Hm |].
  now rewrite Hk.
Qed.

Lemma grows_ret {A X} (f : S -> list X) (a : A) : grows f (ret a).
Proof. intros st. exists []. cbn. now rewrite app_nil_r. Qed.

Lemma grows_lift {A X} (f : S -> list X) (x : Py.exn + A) : grows f (lift x).
Proof. intros st. exists []. cbn. now rewrite app_nil_r. Qed.

Lemma grows_gets {A X} (f : S -> list X) (g : S -> A) : grows f (gets g).
Proof. intros st. exists []. cbn. now rewrite app_nil_r. Qed.

Lemma grows_keeps {A X} (f : S -> list X) (m : M S A) : keeps f m -> grows f m.
Proof. intros Hm st. exists []. now rewrite Hm, app_nil_r. Qed.

Lemma grows_bind {A B X} (f : S -> list X) (m : M S A) (k : A -> M S B) :
  grows f m -> (forall a, grows f (k a)) -> grows f (bind m k).
Proof.
  intros Hm Hk st. unfold bind. destruct (Hm st) as [l1 H1].
  destruct (m st) as [[x | a] st']; cbn [snd] in *; [now exists l1 |].
  destruct (Hk a st') as [l2 H2]. exists (l1 ++ l2)%list.
  now rewrite H2, H1, app_assoc.
Qed.

Lemma adds_keeps {A X} (f : S -> list X) (P : X -> Prop) (m : M S A) :
  keeps f m -> adds f P m.
Proof. intros Hm st. exists []. now rewrite Hm, app_nil_r. Qed.

Lemma adds_ret {A X} (f : S -> list X) (P : X -> Prop) (a : A) :
  adds f P (ret a).
Proof. apply adds_keeps, keeps_ret. Qed.

Lemma adds_lift {A X} (f : S -> list X) (P : X -> Prop) (x : Py.exn + A) :
  adds f P (lift x).
Proof. apply adds_keeps, keeps_lift. Qed.

Lemma adds_gets {A X} (f : S -> list X) (P : X -> Prop) (g : S -> A) :
  adds f P (gets g).
Proof. apply adds_keeps, keeps_gets. Qed.

Lemma adds_bind {A B X} (f : S -> list X) (P : X -> Prop)
    (m : M S A) (k : A -> M S B) :
  adds f P m -> (forall a, adds f P (k a)) -> adds f P (bind m k).
Proof.
  intros Hm Hk st. unfold bind. destruct (Hm st) as (l1 & H1 & P1).
  destruct (m st) as [[x | a] st']; cbn [snd] in *; [now exists l1 |].
  destruct (Hk a st') as (l2 & H2 & P2). exists (l1 ++ l2)%list.
  split; [now rewrite H2, H1, app_assoc | now apply Forall_app].
Qed.

Lemma adds_grows {A X} (f : S -> list X) (P : X -> Prop) (m : M S A) :
  adds f P m -> grows f m.
Proof. intros Hm st. destruct (Hm st) as (l & Hl & _). now exists l. Qed.

(** The value and the state of a bind whose first part returns. *)
Lemma bind_returns {A B} (m : M S A) (k : A -> M S B) st a st' :
  m st = (inr a, st') -> bind m k st = k a st'.
Proof. unfold bind. now intros ->. Qed.

Lemma bind_raises {A B} (m : M S A) (k : A -> M S B) st x st' :
  m st = (inl x, st') -> bind m k st = (inl x, st').
Proof. unfold bind. now intros ->. Qed.

(** A value that [m] keeps is still there after [m]. *)
Lemma keeps_value {A X} (f : S -> X) (m : M S A) (v : X) :
  keeps f m -> forall st, f st = v -> f (snd (m st)) = v.
Proof. intros Hk st <-. apply Hk. Qed.

(** [I] holds up to the last step, which establishes [Q]; an exception
    before it leaves [I], which is enough for [Q]. *)
Lemma bind_ends {A B} (I Q : S -> Prop) (m : M S A) (k : A -> M S B) :
  (forall st, I st -> Q st) ->
  (forall st, I st -> I (snd (m st))) ->
  (forall a st, I st -> Q (snd (k a st))) ->
  forall st, I st -> Q (snd (bind m k st)).
Proof.
  intros Hweak Hm Hk st Hst. unfold bind. specialize (Hm st Hst).
  destruct (m st) as [[x | a] st']; cbn [snd] in *; auto.
Qed.

End Laws.
End GenFacts.

(** ** The orchestrator of [chatbot.py] *)

Module ChatbotFacts.
Import Mcp Chatbot Gen GenFacts.

Section Facts.
Context {F Json : Type} `{PyFloat F}.
Variable json_get : Json -> string -> Py.exn + option Json.
Variable e : env F Json.
Variable session : context.
Variable model_name : string.
Variable max_loops : Z.
Variable message : string.

#[local] Instance frame_rna_requests : ResponseFrame (@rna_requests F Json).
Proof. split; reflexivity. Qed.
#[local] Instance frame_crap_requests : ResponseFrame (@crap_requests F Json).
Proof. split; reflexivity. Qed.
#[local] Instance frame_planning_calls_r : ResponseFrame (@planning_calls F Json).
Proof. split; reflexivity. Qed.
#[local] Instance frame_loop_count_r : ResponseFrame (@loop_count F Json).
Proof. split; reflexivity. Qed.
#[local] Instance frame_planning_calls : ToolFrame (@planning_calls F Json).
Proof. split; try reflexivity. apply _. Qed.
#[local] Instance frame_loop_count : ToolFrame (@loop_count F Json).
Proof. split; try reflexivity. apply _. Qed.

Ltac keeps_step :=
  lazymatch goal with
  | |- keeps _ (Gen.ret _) => apply keeps_ret
  | |- keeps _ (Gen.lift _) => apply keeps_lift
  | |- keeps _ (Gen.gets _) => apply keeps_gets
  | |- keeps _ (Gen.bind _ _) => apply keeps_bind; [| intros ?]
  | |- keeps _ (Gen.modify _) => apply keeps_modify; intros ?
  | |- keeps _ (if ?x then _ else _) => destruct x
  | |- keeps _ (match ?x with _ => _ end) => destruct x
  end.

Section Response.
Context {X : Type} (f : state F Json -> X) `{!ResponseFrame f}.

Lemma keeps_utcnow : keeps f utcnow.
Proof. intros st. apply by_clock. Qed.

Lemma keeps_yield ev : keeps f (yield ev).
Proof. intros st. apply by_out. Qed.

Lemma keeps_yield_content ty content : keeps f (yield_content ty content).
Proof. unfold yield_content. apply keeps_bind; [apply keeps_utcnow | intros; apply keeps_yield]. Qed.

Lemma keeps_yield_mark ty : keeps f (yield_mark ty).
Proof. unfold yield_mark. apply keeps_bind; [apply keeps_utcnow | intros; apply keeps_yield]. Qed.

Lemma keeps_update_chat_history role response :
  keeps f (_update_chat_history e session role response).
Proof.
  unfold _update_chat_history.
  repeat first [apply by_chat_history | apply by_messages_created | keeps_step].
Qed.

Lemma keeps_stream_tokens chunks full : keeps f (stream_tokens chunks full).
Proof.
  revert full. induction chunks as [| [[text |] | x] chunks IH]; intros full; cbn [stream_tokens].
  - apply keeps_ret.
  - repeat first [apply keeps_utcnow | apply keeps_yield | apply IH | keeps_step].
  - apply IH.
  - apply keeps_lift.
Qed.

Lemma keeps_respond model : keeps f (respond e session model).
Proof.
  unfold respond.
  repeat first [ apply keeps_yield_mark | apply keeps_stream_tokens
               | apply keeps_update_chat_history
               | rewrite by_next_message_image; apply by_chat_history
               | keeps_step ].
Qed.

End Response.
Section Tools.
Context {X : Type} (f : state F Json -> X) `{!ToolFrame f}.

Lemma keeps_yield_tool_error r : keeps f (yield_tool_error r).
Proof. unfold yield_tool_error. repeat first [apply (keeps_yield f) | keeps_step]. Qed.

Lemma keeps_send_sequences seqs : keeps f (send_sequences json_get seqs).
Proof.
  induction seqs as [| s seqs IH]; cbn [send_sequences].
  - apply keeps_ret.
  - repeat first [apply (keeps_yield f) | apply IH | apply by_accumulated_data | keeps_step].
Qed.

Lemma keeps_call_rna request : keeps f (call_rna e request).
Proof.
  intros st. unfold call_rna. destruct (rna_tool e _ _); cbn [snd].
  - apply by_rna_requests.
  - now rewrite by_result, by_rna_requests.
Qed.

Lemma keeps_call_crap request : keeps f (call_crap e request).
Proof.
  intros st. unfold call_crap. destruct (crap_tool e _ _); cbn [snd].
  - apply by_crap_requests.
  - now rewrite by_result, by_crap_requests.
Qed.

Lemma keeps_run_get_trna plan_response :
  keeps f (run_get_trna json_get e session plan_response).
Proof.
  unfold run_get_trna.
  repeat first [ apply (keeps_yield_content f) | apply keeps_call_rna
               | apply keeps_send_sequences | apply keeps_yield_tool_error
               | apply by_data_summary | keeps_step ].
Qed.

Lemma keeps_run_crap plan_response :
  keeps f (run_crap e session plan_response).
Proof.
  unfold run_crap.
  repeat first [ apply (keeps_yield_content f) | apply keeps_call_crap
               | apply keeps_yield_tool_error | apply by_data_summary
               | apply by_accumulated_data | apply by_next_message_image
               | keeps_step ].
Qed.

Lemma keeps_dispatch plan_response :
  keeps f (dispatch json_get e session plan_response).
Proof.
  unfold dispatch.
  repeat first [apply keeps_run_get_trna | apply keeps_run_crap | keeps_step].
Qed.

End Tools.

#[local] Abbreviation iteration := (Chatbot.iteration json_get e session model_name max_loops message).
#[local] Abbreviation planning_loop := (Chatbot.planning_loop json_get e session model_name max_loops message).

(** *** One pass of the loop *)

(** What a pass is once the message lookup and the planning call have
    returned. *)
Lemma iteration_planned st stored plan_response :
  message_model e (planning_calls st) = inr stored ->
  get_next_step e (planning_calls st) (planning_history st) message
    (if Py.is_empty (data_summary st) then [] else [data_summary st])
    (last_plan_response st) (choose_model model_name stored) = inr plan_response ->
  iteration st
  = (if (max_loops - 1 <=? loop_count st) || Py.contains SENTINEL plan_response
     then respond e session (choose_model model_name stored) ;; Gen.ret Break
     else dispatch json_get e session plan_response ;;
          Gen.modify (advance plan_response) ;; Gen.ret Continue)
      (set_planning_calls (S (planning_calls st)) st).
Proof.
  intros Hmodel Hplan. unfold Chatbot.iteration, Gen.bind at 1 2 3 4, Gen.gets, Gen.lift, plan.
  rewrite Hmodel, Hplan. reflexivity.
Qed.

(** A pass makes at most one planning call. *)
Lemma iteration_calls st :
  (planning_calls (snd (iteration st)) <= S (planning_calls st))%nat.
Proof.
  unfold Chatbot.iteration, Gen.bind at 1 2 3 4, Gen.gets, Gen.lift, plan.
  destruct (message_model e _) as [x | stored]; cbn [snd]; [lia |].
  destruct (get_next_step e _ _ _ _ _ _) as [x | plan_response]; cbn [snd]; [cbn; lia |].
  match goal with |- context [set_planning_calls ?n st] =>
    set (st1 := set_planning_calls n st) end.
  change (loop_count st1) with (loop_count st).
  assert (Hk : keeps (@planning_calls F Json)
            (if (max_loops - 1 <=? loop_count st) || Py.contains SENTINEL plan_response
             then respond e session (choose_model model_name stored) ;; Gen.ret Break
             else dispatch json_get e session plan_response ;;
                  Gen.modify (advance plan_response) ;; Gen.ret Continue)).
  { repeat first [apply (keeps_respond planning_calls) | apply (keeps_dispatch planning_calls) | keeps_step].
    reflexivity. }
  rewrite (Hk st1). cbn. lia.
Qed.

(** A pass that asks for another one has made its planning call and has
    advanced the counter by one. *)
Lemma iteration_continue st st' :
  iteration st = (inr Continue, st') ->
  planning_calls st' = S (planning_calls st)
  /\ loop_count st' = loop_count st + 1.
Proof.
  unfold Chatbot.iteration, Gen.bind at 1 2 3 4, Gen.gets, Gen.lift, plan.
  destruct (message_model e _) as [x | stored]; [discriminate |].
  destruct (get_next_step e _ _ _ _ _ _) as [x | plan_response]; [discriminate |].
  match goal with |- context [set_planning_calls ?n st] =>
    set (st1 := set_planning_calls n st) end.
  change (loop_count st1) with (loop_count st).
  destruct (_ || _).
  - unfold Gen.bind. destruct (respond _ _ _ _) as [[x | u] st2]; discriminate.
  - unfold Gen.bind at 1.
    pose proof (keeps_dispatch (@planning_calls F Json) plan_response st1) as Hc.
    pose proof (keeps_dispatch (@loop_count F Json) plan_response st1) as Hl.
    destruct (dispatch json_get e session plan_response st1) as [[x | u] st2]; [discriminate |].
    cbn [snd] in Hc, Hl. cbn. intros [= <-]. cbn. rewrite Hc, Hl. now split.
Qed.

(** *** The whole loop *)

(** The loop makes no more planning calls than the passes left to it. *)
Lemma planning_loop_calls fuel st :
  (planning_calls (snd (planning_loop fuel st))
   <= planning_calls st + Z.to_nat (max_loops - loop_count st))%nat.
Proof.
  revert st. induction fuel as [| fuel IH]; intros st; cbn [Chatbot.planning_loop].
  - destruct (loop_count st <? max_loops); cbn; lia.
  - destruct (loop_count st <? max_loops) eqn:Elt; [| cbn; lia].
    apply Z.ltb_lt in Elt. pose proof (iteration_calls st) as Hcalls.
    destruct (iteration st) as [[x | [|]] st'] eqn:Eit; cbn [snd] in *; try lia.
    destruct (iteration_continue _ _ Eit) as [Hc Hl].
    specialize (IH st'). rewrite Hc, Hl in IH. lia.
Qed.

(** With as much fuel as passes left, the loop ends by its own condition,
    by [break] or by an exception. *)
Lemma planning_loop_fuel fuel st :
  (Z.to_nat (max_loops - loop_count st) <= fuel)%nat ->
  fst (planning_loop fuel st) <> inr false.
Proof.
  revert st. induction fuel as [| fuel IH]; intros st Hfuel; cbn [Chatbot.planning_loop].
  - destruct (loop_count st <? max_loops) eqn:Elt; [| discriminate].
    apply Z.ltb_lt in Elt. lia.
  - destruct (loop_count st <? max_loops) eqn:Elt; [| discriminate].
    apply Z.ltb_lt in Elt.
    destruct (iteration st) as [[x | [|]] st'] eqn:Eit; cbn [fst]; try discriminate.
    destruct (iteration_continue _ _ Eit) as [_ Hl]. apply IH. lia.
Qed.

Lemma keeps_prelude {X} (f : state F Json -> X) `{!ToolFrame f} :
  (forall v st, f (set_planning_history v st) = f st) ->
  keeps f (prelude e session).
Proof.
  intros Hp. unfold prelude.
  repeat first [apply by_chat_history | apply Hp | keeps_step].
Qed.

Lemma handle_keeps {A X} (f : state F Json -> X) `{!ResponseFrame f}
    (m : Gen.M (state F Json) A) st :
  f (handle m st) = f (snd (m st)).
Proof.
  unfold handle. destruct (m st) as [[x | a] st']; [| reflexivity]. cbn [snd].
  apply (keeps_bind f utcnow); [apply (keeps_utcnow f) |].
  intros t. apply (keeps_yield f).
Qed.

(** The run makes no more planning calls than the configured maximum. *)
Lemma process_message_calls :
  (planning_calls (Chatbot.process_message json_get e session model_name max_loops message)
   <= Z.to_nat max_loops)%nat.
Proof.
  unfold Chatbot.process_message. rewrite handle_keeps by apply _.
  unfold Gen.bind.
  pose proof (keeps_prelude (@planning_calls F Json) (fun _ _ => eq_refl) initial) as Hc.
  pose proof (keeps_prelude (@loop_count F Json) (fun _ _ => eq_refl) initial) as Hl.
  destruct (prelude e session initial) as [[x | u] st]; cbn [snd] in *.
  - rewrite Hc. cbn. lia.
  - pose proof (planning_loop_calls (Z.to_nat max_loops) st) as Hloop.
    rewrite Hc, Hl in Hloop. cbn in Hloop. now rewrite Z.sub_0_r in Hloop.
Qed.


Lemma iteration_calls_exact st stored :
  message_model e (planning_calls st) = inr stored ->
  planning_calls (snd (iteration st)) = S (planning_calls st).
Proof.
  intros Hm.
  unfold Chatbot.iteration, Gen.bind at 1 2 3 4, Gen.gets, Gen.lift, plan.
  rewrite Hm.
  destruct (get_next_step e _ _ _ _ _ _) as [x | plan_response]; cbn [snd]; [reflexivity |].
  match goal with |- context [set_planning_calls ?n st] =>
    set (st1 := set_planning_calls n st) end.
  change (loop_count st1) with (loop_count st).
  assert (Hk : keeps (@planning_calls F Json)
            (if (max_loops - 1 <=? loop_count st) || Py.contains SENTINEL plan_response
             then respond e session (choose_model model_name stored) ;; Gen.ret Break
             else dispatch json_get e session plan_response ;;
                  Gen.modify (advance plan_response) ;; Gen.ret Continue)).
  { repeat first [apply (keeps_respond planning_calls) | apply (keeps_dispatch planning_calls) | keeps_step].
    reflexivity. }
  now rewrite (Hk st1).
Qed.

Lemma startswith_nonempty p prefix :
  Py.startswith p prefix = true -> Py.is_empty prefix = false -> Py.is_empty p = false.
Proof. destruct p, prefix; cbn; congruence. Qed.

Lemma found_sequences_failure (r : MCPResponse F Json) :
  String.eqb (status r) "success" = false -> found_sequences r = inr None.
Proof. unfold found_sequences. now intros ->. Qed.

Lemma get_trna_failure st stored plan_response parsed r msg :
  loop_count st < max_loops - 1 ->
  message_model e (planning_calls st) = inr stored ->
  get_next_step e (planning_calls st) (planning_history st) message
    (if Py.is_empty (data_summary st) then [] else [data_summary st])
    (last_plan_response st) (choose_model model_name stored) = inr plan_response ->
  Py.contains SENTINEL plan_response = false ->
  Py.startswith plan_response "GET_TRNA" = true ->
  Directive.parse Directive.chatbot_key plan_response = inr parsed ->
  rna_tool e (length (rna_requests st))
    {| method := "search_rna"; params := <["context" := VContext session]> parsed |}
  = inr r ->
  String.eqb (status r) "success" = false ->
  error_message r = inr msg ->
  exists st',
    iteration st = (inr Continue, st')
    /\ out st' = (out st ++ [content_event "tool_start" "Searching for tRNA sequences..." (clock st);
                            tool_error_event msg])%list
    /\ loop_count st' = loop_count st + 1
    /\ planning_calls st' = S (planning_calls st)
    /\ messages_created st' = messages_created st.
Proof.
  intros Hlt Hmodel Hplan Hsent Hget Hparse Htool Hstatus Hmsg.
  rewrite (iteration_planned _ _ _ Hmodel Hplan).
  replace (max_loops - 1 <=? loop_count st) with false by (symmetry; apply Z.leb_gt; lia).
  rewrite Hsent. cbn [orb].
  unfold dispatch. rewrite (startswith_nonempty _ _ Hget eq_refl), Hget.
  unfold run_get_trna, Gen.bind at 1 2 3, Gen.lift at 1. rewrite Hparse.
  unfold yield_content, Gen.bind, utcnow, yield, Gen.modify, call_rna.
  cbn [rna_requests set_out set_clock set_planning_calls]. rewrite Htool.
  unfold Gen.lift. rewrite (found_sequences_failure _ Hstatus).
  unfold yield_tool_error, Gen.bind, Gen.lift. rewrite Hmsg.
  eexists. split; [reflexivity |].
  cbn. rewrite <- app_assoc. repeat split; reflexivity.
Qed.


Lemma previous_sequences_count (r : MCPResponse F Json) seqs count query :
  data_of r = Some (DataSearch seqs count query) ->
  previous_sequences (Some r) = inr (length seqs).
Proof. unfold previous_sequences. now intros ->. Qed.

(** A failed genome browser call: the progress line on the previous
    search, the start of the tool, then the error. *)
Lemma crap_failure st stored plan_response parsed found r msg :
  loop_count st < max_loops - 1 ->
  message_model e (planning_calls st) = inr stored ->
  get_next_step e (planning_calls st) (planning_history st) message
    (if Py.is_empty (data_summary st) then [] else [data_summary st])
    (last_plan_response st) (choose_model model_name stored) = inr plan_response ->
  Py.contains SENTINEL plan_response = false ->
  Py.startswith plan_response "GET_TRNA" = false ->
  Py.startswith plan_response "CRAP" = true ->
  Directive.parse Directive.crap_key plan_response = inr parsed ->
  previous_sequences (result st) = inr found ->
  crap_tool e (length (crap_requests st))
    {| method := "view_region"; params := <["context" := VContext session]> parsed |}
  = inr r ->
  String.eqb (status r) "success" = false ->
  error_message r = inr msg ->
  exists st',
    iteration st = (inr Continue, st')
    /\ out st'
       = (out st
          ++ [content_event "tool_progress"
                ("Found " ++ Py.str_of_nat found ++ " sequences") (clock st);
              content_event "tool_start" "Surfing the genome browser..."
                (S (clock st));
              tool_error_event msg])%list
    /\ loop_count st' = loop_count st + 1
    /\ planning_calls st' = S (planning_calls st)
    /\ messages_created st' = messages_created st.
Proof.
  intros Hlt Hmodel Hplan Hsent Hget Hcrap Hparse Hprev Htool Hstatus Hmsg.
  rewrite (iteration_planned _ _ _ Hmodel Hplan).
  replace (max_loops - 1 <=? loop_count st) with false by (symmetry; apply Z.leb_gt; lia).
  rewrite Hsent. cbn [orb].
  unfold dispatch. rewrite (startswith_nonempty _ _ Hcrap eq_refl), Hget, Hcrap.
  unfold run_crap, Gen.bind at 1 2 3 4, Gen.lift at 1, Gen.gets at 1. rewrite Hparse.
  cbn [result set_planning_calls]. unfold Gen.lift at 1. rewrite Hprev.
  unfold yield_content, Gen.bind, utcnow, yield, Gen.modify, call_crap.
  cbn [crap_requests set_out set_clock set_planning_calls]. rewrite Htool, Hstatus.
  unfold yield_tool_error, Gen.bind, Gen.lift. rewrite Hmsg.
  eexists. split; [reflexivity |].
  cbn. rewrite <- !app_assoc. repeat split; reflexivity.
Qed.

(** *** A planning output that is neither a directive nor the sentinel *)

Lemma unrecognised_step st stored plan_response :
  loop_count st < max_loops - 1 ->
  message_model e (planning_calls st) = inr stored ->
  get_next_step e (planning_calls st) (planning_history st) message
    (if Py.is_empty (data_summary st) then [] else [data_summary st])
    (last_plan_response st) (choose_model model_name stored) = inr plan_response ->
  Py.contains SENTINEL plan_response = false ->
  Py.startswith plan_response "GET_TRNA" = false ->
  Py.startswith plan_response "CRAP" = false ->
  iteration st
  = (inr Continue,
     advance plan_response (set_planning_calls (S (planning_calls st)) st)).
Proof.
  intros Hlt Hmodel Hplan Hsent Hget Hcrap.
  rewrite (iteration_planned _ _ _ Hmodel Hplan).
  replace (max_loops - 1 <=? loop_count st) with false by (symmetry; apply Z.leb_gt; lia).
  rewrite Hsent. cbn [orb]. unfold dispatch. rewrite Hget, Hcrap.
  now destruct (Py.is_empty plan_response).
Qed.

(** On the last pass allowed, any planning output starts the response. *)
Lemma last_pass_responds st stored plan_response :
  max_loops - 1 <= loop_count st ->
  message_model e (planning_calls st) = inr stored ->
  get_next_step e (planning_calls st) (planning_history st) message
    (if Py.is_empty (data_summary st) then [] else [data_summary st])
    (last_plan_response st) (choose_model model_name stored) = inr plan_response ->
  iteration st
  = (respond e session (choose_model model_name stored) ;; Gen.ret Break)
      (set_planning_calls (S (planning_calls st)) st).
Proof.
  intros Hlast Hmodel Hplan. rewrite (iteration_planned _ _ _ Hmodel Hplan).
  replace (max_loops - 1 <=? loop_count st) with true by (symmetry; apply Z.leb_le; lia).
  reflexivity.
Qed.

(** *** The response phase *)

Lemma grows_yield_mark ty : grows (@out F Json) (yield_mark ty).
Proof. intros st. eexists. reflexivity. Qed.

Lemma grows_stream_tokens chunks full :
  grows (@out F Json) (stream_tokens chunks full).
Proof.
  revert full. induction chunks as [| [[text |] | x] chunks IH]; intros full; cbn [stream_tokens].
  - apply grows_ret.
  - apply grows_bind; [apply grows_keeps; intros st; reflexivity | intros t].
    apply grows_bind; [intros st; eexists; reflexivity | intros _; apply IH].
  - apply IH.
  - apply grows_lift.
Qed.

Lemma out_update_chat_history role response :
  keeps (@out F Json) (_update_chat_history e session role response).
Proof. unfold _update_chat_history. repeat keeps_step; reflexivity. Qed.

(** The response phase first yields its [start_response] event. *)
Lemma respond_starts model st :
  exists more,
    out (snd (respond e session model st))
    = (out st ++ mark_event "start_response" (clock st) :: more)%list.
Proof.
  unfold respond. unfold Gen.bind at 1.
  set (image := Gen.bind (Gen.gets next_message_image) _).
  assert (Hout : keeps (@out F Json) image).
  { unfold image. repeat keeps_step; reflexivity. }
  assert (Hclock : keeps (@clock F Json) image).
  { unfold image. repeat keeps_step; reflexivity. }
  specialize (Hout st). specialize (Hclock st).
  assert (Hret : exists u, fst (image st) = inr u).
  { unfold image, Gen.bind, Gen.gets. destruct (next_message_image st) as [[role url] |]; cbn; eauto. }
  destruct Hret as [u Hu].
  destruct (image st) as [v st1]; cbn [fst snd] in *. subst v.
  unfold Gen.bind at 1, yield_mark at 1, Gen.bind at 1, utcnow, yield, Gen.modify.
  match goal with |- context [Gen.bind ?m ?k ?s] =>
    destruct (grows_bind (@out F Json) m k) with (st := s) as [more Hmore] end.
  - apply grows_gets.
  - intros data. repeat first
      [ apply grows_gets | apply grows_lift | apply grows_stream_tokens
      | apply grows_yield_mark
      | apply grows_keeps, out_update_chat_history
      | apply grows_bind; [| intros ?] ].
  - exists more. rewrite Hmore. cbn. rewrite Hout, Hclock, <- app_assoc. reflexivity.
Qed.

(** *** The sentinel *)

Lemma sentinel_ends_planning fuel st stored plan_response :
  loop_count st < max_loops ->
  message_model e (planning_calls st) = inr stored ->
  get_next_step e (planning_calls st) (planning_history st) message
    (if Py.is_empty (data_summary st) then [] else [data_summary st])
    (last_plan_response st) (choose_model model_name stored) = inr plan_response ->
  Py.contains SENTINEL plan_response = true ->
  let final := planning_loop (S fuel) st in
  fst final <> inr false
  /\ planning_calls (snd final) = S (planning_calls st)
  /\ rna_requests (snd final) = rna_requests st
  /\ crap_requests (snd final) = crap_requests st
  /\ exists more,
       out (snd final)
       = (out st ++ mark_event "start_response" (clock st) :: more)%list.
Proof.
  intros Hlt Hmodel Hplan Hsent. cbn zeta. cbn [Chatbot.planning_loop].
  replace (loop_count st <? max_loops) with true by (symmetry; apply Z.ltb_lt; lia).
  rewrite (iteration_planned _ _ _ Hmodel Hplan), Hsent, orb_true_r.
  set (st1 := set_planning_calls _ st). set (model := choose_model _ _).
  pose proof (keeps_respond planning_calls model st1) as Hc.
  pose proof (keeps_respond rna_requests model st1) as Hr.
  pose proof (keeps_respond crap_requests model st1) as Hp.
  destruct (respond_starts model st1) as [more Hmore].
  unfold Gen.bind.
  destruct (respond e session model st1) as [[x | u] st2];
    cbn [fst snd Gen.ret] in *;
    (split; [discriminate |]); rewrite Hc, Hr, Hp; repeat split; eauto.
Qed.


(** *** After a pass that continues, planning is called again *)

Lemma iteration_calls_ge st :
  (planning_calls st <= planning_calls (snd (iteration st)))%nat.
Proof.
  destruct (message_model e (planning_calls st)) as [x | stored] eqn:Hm.
  - unfold Chatbot.iteration, Gen.bind at 1 2, Gen.gets, Gen.lift. now rewrite Hm.
  - rewrite (iteration_calls_exact _ _ Hm). lia.
Qed.

Lemma planning_loop_calls_ge fuel st :
  (planning_calls st <= planning_calls (snd (planning_loop fuel st)))%nat.
Proof.
  revert st. induction fuel as [| fuel IH]; intros st; cbn [Chatbot.planning_loop].
  - now destruct (loop_count st <? max_loops).
  - destruct (loop_count st <? max_loops); [| reflexivity].
    pose proof (iteration_calls_ge st) as Hge.
    destruct (iteration st) as [[x | [|]] st']; cbn [snd] in *; try exact Hge.
    specialize (IH st'). lia.
Qed.

Lemma next_pass_plans fuel st stored :
  loop_count st < max_loops ->
  message_model e (planning_calls st) = inr stored ->
  (S (planning_calls st) <= planning_calls (snd (planning_loop (S fuel) st)))%nat.
Proof.
  intros Hlt Hm. cbn [Chatbot.planning_loop].
  replace (loop_count st <? max_loops) with true by (symmetry; apply Z.ltb_lt; lia).
  pose proof (iteration_calls_exact _ _ Hm) as Hex.
  destruct (iteration st) as [[x | [|]] st']; cbn [snd] in *; try (rewrite Hex; reflexivity).
  rewrite <- Hex. apply planning_loop_calls_ge.
Qed.

Lemma continue_then_plans fuel st st' stored' :
  loop_count st < max_loops - 1 ->
  iteration st = (inr Continue, st') ->
  message_model e (planning_calls st') = inr stored' ->
  planning_loop (S (S fuel)) st = planning_loop (S fuel) st'
  /\ (S (S (planning_calls st))
      <= planning_calls (snd (planning_loop (S (S fuel)) st)))%nat.
Proof.
  intros Hlt Hit Hm.
  assert (Hloop : planning_loop (S (S fuel)) st = planning_loop (S fuel) st').
  { cbn [Chatbot.planning_loop].
    replace (loop_count st <? max_loops) with true by (symmetry; apply Z.ltb_lt; lia).
    now rewrite Hit. }
  split; [exact Hloop |]. rewrite Hloop.
  destruct (iteration_continue _ _ Hit) as [Hc Hl]. rewrite <- Hc.
  apply (next_pass_plans fuel st' stored'); [lia | exact Hm].
Qed.

(** A directive whose number does not parse raises out of the pass. *)
Lemma get_trna_parse_error st stored plan_response x :
  loop_count st < max_loops - 1 ->
  message_model e (planning_calls st) = inr stored ->
  get_next_step e (planning_calls st) (planning_history st) message
    (if Py.is_empty (data_summary st) then [] else [data_summary st])
    (last_plan_response st) (choose_model model_name stored) = inr plan_response ->
  Py.contains SENTINEL plan_response = false ->
  Py.startswith plan_response "GET_TRNA" = true ->
  Directive.parse Directive.chatbot_key plan_response = inl x ->
  iteration st = (inl x, set_planning_calls (S (planning_calls st)) st).
Proof.
  intros Hlt Hmodel Hplan Hsent Hget Hparse.
  rewrite (iteration_planned _ _ _ Hmodel Hplan).
  replace (max_loops - 1 <=? loop_count st) with false by (symmetry; apply Z.leb_gt; lia).
  rewrite Hsent. cbn [orb].
  unfold dispatch. rewrite (startswith_nonempty _ _ Hget eq_refl), Hget.
  unfold run_get_trna, Gen.bind at 1 2, Gen.lift at 1. now rewrite Hparse.
Qed.


(** The fuel that [process_message] gives the loop is never what ends it. *)
Lemma process_message_fuel :
  fst ((prelude e session ;; planning_loop (Z.to_nat max_loops)) initial)
  <> inr false.
Proof.
  unfold Gen.bind.
  pose proof (keeps_prelude (@loop_count F Json) (fun _ _ => eq_refl) initial) as Hl.
  destruct (prelude e session initial) as [[x | u] st]; cbn [fst snd] in *; [discriminate |].
  apply planning_loop_fuel. rewrite Hl. cbn. now rewrite Z.sub_0_r.
Qed.


(** *** The response that is saved is the response that was streamed *)

Lemma streamed_fragments_app (a b : list (event F Json)) :
  streamed_fragments (a ++ b) = (streamed_fragments a ++ streamed_fragments b)%list.
Proof. apply omap_app. Qed.

Lemma streamed_fragments_plain (l : list (event F Json)) :
  Forall plain l -> streamed_fragments l = [].
Proof.
  induction 1 as [| ev l Hev _ IH]; [reflexivity |].
  unfold streamed_fragments in *. cbn [omap list_omap]. now rewrite Hev.
Qed.

Lemma stream_tokens_collects chunks full st full' st' :
  stream_tokens chunks full st = (inr full', st') ->
  exists added,
    out st' = (out st ++ added)%list
    /\ full' = (full ++ streamed_fragments added)%list
    /\ messages_created st' = messages_created st
    /\ @chat_history F Json st' = @chat_history F Json st.
Proof.
  revert full st. induction chunks as [| [[text |] | x] chunks IH]; intros full st;
    cbn [stream_tokens].
  - intros [= <- <-]. exists []. now rewrite !app_nil_r.
  - unfold Gen.bind, utcnow, yield, Gen.modify. intros Hrest.
    destruct (IH _ _ Hrest) as (added & Hout & Hfull & Hm & Hh).
    exists (content_event "token" text (clock st) :: added).
    cbn in Hout, Hm, Hh. rewrite Hout, Hfull, <- !app_assoc. auto.
  - apply IH.
  - discriminate.
Qed.

Lemma respond_saves model st st' :
  has_chat session = true ->
  (forall c role content, create_message e c role content = inr tt) ->
  respond e session model st = (inr tt, st') ->
  exists added,
    out st' = (out st ++ added)%list
    /\ messages_created st'
       = (messages_created st
          ++ [("assistant", Py.join "" (streamed_fragments added))])%list
    /\ last (chat_history st')
       = Some (ChatMessage "assistant" (Py.join "" (streamed_fragments added))).
Proof.
  intros Hchat Hcreate. unfold respond. unfold Gen.bind at 1.
  set (image := Gen.bind (Gen.gets next_message_image) _).
  assert (Hout : keeps (@out F Json) image).
  { unfold image. repeat keeps_step; reflexivity. }
  assert (Hmsg : keeps (@messages_created F Json) image).
  { unfold image. repeat keeps_step; reflexivity. }
  specialize (Hout st). specialize (Hmsg st).
  destruct (image st) as [[x | u] st0]; cbn [snd] in *; [discriminate |].
  unfold Gen.bind at 1, yield_mark at 1, Gen.bind at 1, utcnow, yield, Gen.modify.
  unfold Gen.bind at 1 2 3, Gen.gets, Gen.lift.
  destruct (completion e _ _ _) as [x | chunks]; [discriminate |].
  unfold Gen.bind at 1.
  match goal with |- context [stream_tokens chunks [] ?s] =>
    destruct (stream_tokens chunks [] s) as [[x | full] st1] eqn:Etok end;
    [discriminate |].
  destruct (stream_tokens_collects _ _ _ _ _ Etok) as (added & Hout1 & Hfull & Hm1 & Hh1).
  cbn [app] in Hfull. subst full.
  unfold _update_chat_history, Gen.bind at 1 2, Gen.modify at 1.
  rewrite Hchat, Hcreate.
  unfold yield_mark, Gen.bind, utcnow, yield, Gen.modify. intros [= <-].
  exists (mark_event "start_response" (clock st0) :: added
          ++ [mark_event "end" (clock st1)])%list.
  assert (Hfrag : streamed_fragments
            (mark_event "start_response" (clock st0) :: added
             ++ [mark_event "end" (clock st1)])%list = streamed_fragments added).
  { change (mark_event "start_response" (clock st0) :: added ++ [mark_event "end" (clock st1)])%list
      with ([mark_event "start_response" (clock st0)] ++ added ++ [mark_event "end" (clock st1)])%list.
    rewrite !streamed_fragments_app. cbn. now rewrite app_nil_r. }
  rewrite Hfrag. cbn in Hout1, Hm1, Hh1 |- *.
  rewrite Hout1, Hm1, Hout, Hmsg, <- !app_assoc. repeat split.
  apply last_snoc.
Qed.

Lemma transcript_yield ev : plain ev -> keeps (@transcript F Json) (yield ev).
Proof.
  intros Hev st. unfold transcript.
  change (out (snd (yield ev st))) with (out st ++ [ev])%list.
  change (messages_created (snd (yield ev st))) with (messages_created st).
  rewrite streamed_fragments_app. unfold streamed_fragments at 2.
  cbn [omap list_omap]. rewrite Hev. now rewrite app_nil_r.
Qed.

Ltac transcript_step :=
  lazymatch goal with
  | |- keeps _ utcnow => intros ?; reflexivity
  | |- keeps _ (yield _) => apply transcript_yield; reflexivity
  | |- keeps _ (Gen.modify _) => apply keeps_modify; intros ?; reflexivity
  | |- keeps _ (yield_content _ _) => unfold yield_content
  | |- keeps _ (yield_tool_error _) => unfold yield_tool_error
  | |- keeps _ (call_rna _ _) =>
      let st := fresh "st" in
      intros st; unfold call_rna; destruct (rna_tool _ _ _); reflexivity
  | |- keeps _ (call_crap _ _) =>
      let st := fresh "st" in
      intros st; unfold call_crap; destruct (crap_tool _ _ _); reflexivity
  | |- _ => keeps_step
  end.

Lemma transcript_send_sequences seqs :
  keeps (@transcript F Json) (send_sequences json_get seqs).
Proof.
  induction seqs as [| s seqs IH]; cbn [send_sequences];
    repeat first [apply IH | transcript_step].
Qed.

Lemma transcript_dispatch plan_response :
  keeps (@transcript F Json) (dispatch json_get e session plan_response).
Proof.
  unfold dispatch, run_get_trna, run_crap.
  repeat first [apply transcript_send_sequences | transcript_step].
Qed.

Lemma transcript_prelude : keeps (@transcript F Json) (prelude e session).
Proof. unfold prelude. repeat transcript_step. Qed.

Lemma quiet_transcript (st : state F Json) : quiet st <-> transcript st = ([], []).
Proof.
  unfold quiet, transcript. split; [intros [-> ->]; reflexivity |].
  intros [= -> ->]. now split.
Qed.

(** A pass that ends the loop has run the response phase, and nothing
    after the planning call but it. *)
Lemma iteration_break st st' :
  iteration st = (inr Break, st') ->
  exists model,
    respond e session model (set_planning_calls (S (planning_calls st)) st)
    = (inr tt, st').
Proof.
  unfold Chatbot.iteration, Gen.bind at 1 2 3 4, Gen.gets, Gen.lift, plan.
  destruct (message_model e _) as [x | stored]; [discriminate |].
  destruct (get_next_step e _ _ _ _ _ _) as [x | plan_response]; [discriminate |].
  destruct (_ || _).
  - unfold Gen.bind, Gen.ret.
    destruct (respond _ _ _ _) as [[x | []] st2] eqn:Er; [discriminate |].
    intros [= <-]. eexists. exact Er.
  - unfold Gen.bind at 1.
    destruct (dispatch _ _ _ _ _) as [[x | u] st2]; discriminate.
Qed.

(** A pass that asks for another one was not the last one allowed, and has
    saved and streamed nothing. *)
Lemma iteration_continue_transcript st st' :
  iteration st = (inr Continue, st') ->
  transcript st' = transcript st /\ loop_count st + 1 < max_loops.
Proof.
  unfold Chatbot.iteration, Gen.bind at 1 2 3 4, Gen.gets, Gen.lift, plan.
  destruct (message_model e _) as [x | stored]; [discriminate |].
  destruct (get_next_step e _ _ _ _ _ _) as [x | plan_response]; [discriminate |].
  match goal with |- context [set_planning_calls ?n st] =>
    set (st1 := set_planning_calls n st) end.
  change (loop_count st1) with (loop_count st).
  destruct (_ || _) eqn:Elast.
  - unfold Gen.bind. destruct (respond _ _ _ _) as [[x | u] st2]; discriminate.
  - apply orb_false_iff in Elast as [Elast _]. apply Z.leb_gt in Elast.
    unfold Gen.bind at 1.
    pose proof (transcript_dispatch plan_response st1) as Ht.
    destruct (dispatch json_get e session plan_response st1) as [[x | u] st2]; [discriminate |].
    cbn [snd] in Ht. cbn. intros [= <-]. split; [exact Ht | lia].
Qed.

(** The loop, started before anything was streamed or saved and with a
    pass left, saves exactly what it streams. *)
Lemma planning_loop_saves fuel st final :
  has_chat session = true ->
  (forall c role content, create_message e c role content = inr tt) ->
  quiet st ->
  loop_count st < max_loops ->
  planning_loop fuel st = (inr true, final) ->
  messages_created final
  = [("assistant", Py.join "" (streamed_fragments (out final)))].
Proof.
  intros Hchat Hcreate. revert st.
  induction fuel as [| fuel IH]; intros st Hquiet Hlt; cbn [Chatbot.planning_loop];
    apply Z.ltb_lt in Hlt as Elt; rewrite Elt; [discriminate |].
  destruct (iteration st) as [[x | [|]] st'] eqn:Eit; [discriminate | |].
  - destruct (iteration_continue_transcript _ _ Eit) as [Ht Hnext].
    destruct (iteration_continue _ _ Eit) as [_ Hl].
    apply IH; [| lia].
    apply quiet_transcript. rewrite Ht. now apply quiet_transcript.
  - intros [= <-]. destruct (iteration_break _ _ Eit) as [model Hr].
    destruct (respond_saves _ _ _ Hchat Hcreate Hr) as (added & Hout & Hm & _).
    destruct Hquiet as [Hq1 Hq2]. cbn in Hout, Hm.
    rewrite Hm, Hq1, Hout, streamed_fragments_app, Hq2. reflexivity.
Qed.

(** A run that ends without an exception, with a chat whose store accepts
    messages and at least one pass allowed, has saved one assistant
    message: the concatenation, in order, of the fragments it streamed. *)
Lemma run_saves_streamed b :
  has_chat session = true ->
  (forall c role content, create_message e c role content = inr tt) ->
  1 <= max_loops ->
  fst ((prelude e session ;; planning_loop (Z.to_nat max_loops)) initial) = inr b ->
  let final := Chatbot.process_message json_get e session model_name max_loops message in
  messages_created final
  = [("assistant", Py.join "" (streamed_fragments (out final)))].
Proof.
  intros Hchat Hcreate Hmax Hrun.
  pose proof process_message_fuel as Hfuel. rewrite Hrun in Hfuel.
  destruct b; [| congruence]. clear Hfuel.
  unfold Chatbot.process_message, handle. cbn zeta.
  destruct ((prelude e session ;; planning_loop (Z.to_nat max_loops)) initial)
    as [[x | b] final] eqn:Erun; cbn [fst] in Hrun; [discriminate |].
  injection Hrun as ->. revert Erun. unfold Gen.bind.
  pose proof (transcript_prelude initial) as Ht.
  pose proof (keeps_prelude (@loop_count F Json) (fun _ _ => eq_refl) initial) as Hl.
  destruct (prelude e session initial) as [[x | u] st]; cbn [snd] in *; [discriminate |].
  intros Hloop. apply (planning_loop_saves _ _ _ Hchat Hcreate) in Hloop; [exact Hloop | |].
  - apply quiet_transcript. rewrite Ht. reflexivity.
  - rewrite Hl. cbn. lia.
Qed.

End Facts.
End ChatbotFacts.

(** ** The orchestrator of [processor.py] *)

Module ProcessorFacts.
Import Mcp Processor Gen GenFacts.

Section Facts.
Context {F Json : Type} `{PyFloat F}.
Variable json_get : Json -> string -> Py.exn + option Json.
Variable json_dumps : list (filtered F Json) -> string.
Variable e : env F Json.
Variable request : context.
Variable message_content : string.
Variable chat_history : list (string * string).
Variable max_loops : Z.

#[local] Abbreviation planning_loop :=
  (Processor.planning_loop json_get e request message_content chat_history).
#[local] Abbreviation after_planning :=
  (Processor.after_planning json_dumps e message_content chat_history).

Ltac keeps_step :=
  lazymatch goal with
  | |- keeps _ (Gen.ret _) => apply keeps_ret
  | |- keeps _ (Gen.lift _) => apply keeps_lift
  | |- keeps _ (Gen.gets _) => apply keeps_gets
  | |- keeps _ (Gen.bind _ _) => apply keeps_bind; [| intros ?]
  | |- keeps _ (Gen.modify _) => apply keeps_modify; intros ?
  | |- keeps _ (if ?x then _ else _) => destruct x
  | |- keeps _ (match ?x with _ => _ end) => destruct x
  | |- keeps _ utcnow => intros ?; reflexivity
  | |- keeps _ (yield _) => intros ?; reflexivity
  | |- keeps _ (yield_content _ _) => unfold yield_content
  | |- keeps _ (yield_mark _) => unfold yield_mark
  end.

(** Only [plan] counts planning calls. *)
Lemma calls_send_sequences seqs acc :
  keeps (@planning_calls F Json) (send_sequences json_get seqs acc).
Proof.
  revert acc. induction seqs as [| s seqs IH]; intros acc; cbn [send_sequences];
    repeat first [apply IH | keeps_step].
Qed.

Lemma calls_execute_rna_tool plan_response :
  keeps (@planning_calls F Json) (_execute_rna_tool json_get e request plan_response).
Proof.
  unfold _execute_rna_tool.
  repeat first
    [ apply calls_send_sequences | keeps_step
    | match goal with |- keeps _ (call_rna _ _) => intros ?; reflexivity end
    | reflexivity ].
Qed.

Section Response.
Context {X : Type} (f : state F Json -> X) `{!ResponseFrame f}.

Lemma content_keeps ty content : keeps f (yield_content ty content).
Proof.
  unfold yield_content. apply keeps_bind; [intros st; apply by_clock |].
  intros t st. apply by_out.
Qed.

Lemma mark_keeps ty : keeps f (yield_mark ty).
Proof.
  unfold yield_mark. apply keeps_bind; [intros st; apply by_clock |].
  intros t st. apply by_out.
Qed.

Lemma text_stream_keeps chunks : keeps f (stream_tokens chunks).
Proof.
  induction chunks as [| [text | x] chunks IH]; cbn [stream_tokens];
    repeat first [apply IH | apply content_keeps | keeps_step].
Qed.

Lemma keeps_stream_response data :
  keeps f (stream_response e message_content chat_history data).
Proof.
  intros st. unfold stream_response.
  match goal with |- context [Gen.bind ?m ?k st] =>
    assert (Hk : keeps f (Gen.bind m k)) end.
  { repeat first [apply text_stream_keeps | apply mark_keeps | keeps_step]. }
  specialize (Hk st). destruct (Gen.bind _ _ st) as [[x | u] st']; cbn [snd] in *; [| exact Hk].
  rewrite <- Hk. apply content_keeps.
Qed.

Lemma keeps_after_planning : keeps f after_planning.
Proof.
  unfold Processor.after_planning, save_response.
  repeat first
    [ apply keeps_stream_response | apply by_messages_created
    | match goal with |- keeps _ (Processor.read_chat _) => intros ?; apply by_chat_reads end
    | keeps_step ].
Qed.

End Response.

#[local] Instance frame_planning_calls : ResponseFrame (@planning_calls F Json).
Proof. split; reflexivity. Qed.
#[local] Instance frame_rna_requests : ResponseFrame (@rna_requests F Json).
Proof. split; reflexivity. Qed.

Lemma calls_after_planning : keeps (@planning_calls F Json) after_planning.
Proof. apply (keeps_after_planning planning_calls). Qed.

(** *** The loop *)

Lemma planning_loop_sentinel passes st plan_response :
  get_next_step e (planning_calls st) message_content (accumulated_data st)
    (last_plan_response st) (recent_messages chat_history) = inr plan_response ->
  Py.contains "PLAN_COMPLETE=True" plan_response = true ->
  planning_loop (S passes) st
  = (inr tt, set_planning_calls (S (planning_calls st)) st).
Proof.
  intros Hplan Hsent. cbn [Processor.planning_loop].
  unfold Gen.bind at 1, plan. now rewrite Hplan, Hsent.
Qed.

Lemma planning_loop_unrecognised passes st plan_response :
  get_next_step e (planning_calls st) message_content (accumulated_data st)
    (last_plan_response st) (recent_messages chat_history) = inr plan_response ->
  Py.contains "PLAN_COMPLETE=True" plan_response = false ->
  Py.startswith plan_response "GET_TRNA" = false ->
  planning_loop (S passes) st
  = planning_loop passes
      (set_last_plan_response (Some plan_response)
         (set_planning_calls (S (planning_calls st)) st)).
Proof.
  intros Hplan Hsent Hget. cbn [Processor.planning_loop].
  unfold Gen.bind at 1, plan. now rewrite Hplan, Hsent, Hget.
Qed.

Lemma passes_bound_calls passes st :
  (planning_calls (snd (planning_loop passes st)) <= planning_calls st + passes)%nat.
Proof.
  revert st. induction passes as [| passes IH]; intros st; cbn [Processor.planning_loop].
  - cbn. lia.
  - unfold Gen.bind at 1, plan.
    destruct (get_next_step e _ _ _ _ _) as [x | plan_response]; [cbn; lia |].
    set (st1 := set_planning_calls _ st).
    destruct (Py.contains _ _); [cbn; lia |].
    unfold Gen.bind at 1.
    match goal with |- context [?m st1] =>
      assert (Hk : keeps (@planning_calls F Json) m) end.
    { repeat first [apply calls_execute_rna_tool | keeps_step]. }
    specialize (Hk st1).
    match type of Hk with context [?m st1] => destruct (m st1) as [[x | u] st2] end;
      cbn [snd] in *; [rewrite Hk; cbn; lia |].
    unfold Gen.bind, Gen.modify. specialize (IH (set_last_plan_response (Some plan_response) st2)).
    cbn in IH |- *. rewrite Hk in IH. cbn in IH. lia.
Qed.

(** The run makes no more planning calls than the configured maximum. *)
Lemma run_calls_bounded :
  (planning_calls
     (Processor.process_message json_get json_dumps e request message_content
        chat_history max_loops)
   <= Z.to_nat max_loops)%nat.
Proof.
  unfold Processor.process_message, body.
  assert (Hfinal : forall (m : Gen.M (state F Json) unit) st,
            planning_calls
              (match m st with
               | (inr _, st') => st'
               | (inl x, st') =>
                   snd (yield_content "error" ("Error: " ++ Py.str_of_exn x) st')
               end) = planning_calls (snd (m st))).
  { intros m st. destruct (m st) as [[x | u] st']; reflexivity. }
  rewrite Hfinal. unfold Gen.bind at 1, read_chat.
  destruct (get_chat e _) as [x | chat]; cbn [snd]; [cbn; lia |].
  unfold Gen.bind at 1 2, utcnow, yield, Gen.modify. cbn [snd].
  match goal with |- context [Gen.bind _ _ ?s] => set (st1 := s) end.
  pose proof (passes_bound_calls (Z.to_nat max_loops) st1) as Hloop.
  unfold Gen.bind.
  destruct (planning_loop _ st1) as [[x | u] st2]; cbn [snd] in *; [exact Hloop |].
  now rewrite calls_after_planning.
Qed.


Lemma passes_keep_calls passes st :
  (planning_calls st <= planning_calls (snd (planning_loop passes st)))%nat.
Proof.
  revert st. induction passes as [| passes IH]; intros st; cbn [Processor.planning_loop].
  - reflexivity.
  - unfold Gen.bind at 1, plan.
    destruct (get_next_step e _ _ _ _ _) as [x | plan_response]; [cbn; lia |].
    set (st1 := set_planning_calls _ st).
    destruct (Py.contains _ _); [cbn; lia |].
    unfold Gen.bind at 1.
    match goal with |- context [?m st1] =>
      assert (Hk : keeps (@planning_calls F Json) m) end.
    { repeat first [apply calls_execute_rna_tool | keeps_step]. }
    specialize (Hk st1).
    match type of Hk with context [?m st1] => destruct (m st1) as [[x | u] st2] end;
      cbn [snd] in *; [rewrite Hk; cbn; lia |].
    unfold Gen.bind, Gen.modify. specialize (IH (set_last_plan_response (Some plan_response) st2)).
    cbn in IH |- *. rewrite Hk in IH. cbn in IH. lia.
Qed.

(** A pass calls the planner. *)
Lemma pass_plans passes st :
  (S (planning_calls st) <= planning_calls (snd (planning_loop (S passes) st)))%nat.
Proof.
  cbn [Processor.planning_loop]. unfold Gen.bind at 1, plan.
  destruct (get_next_step e _ _ _ _ _) as [x | plan_response]; [cbn; lia |].
  set (st1 := set_planning_calls _ st).
  destruct (Py.contains _ _); [cbn; lia |].
  unfold Gen.bind at 1.
  match goal with |- context [?m st1] =>
    assert (Hk : keeps (@planning_calls F Json) m) end.
  { repeat first [apply calls_execute_rna_tool | keeps_step]. }
  specialize (Hk st1).
  match type of Hk with context [?m st1] => destruct (m st1) as [[x | u] st2] end;
    cbn [snd] in *; [rewrite Hk; cbn; lia |].
  unfold Gen.bind, Gen.modify.
  pose proof (passes_keep_calls passes (set_last_plan_response (Some plan_response) st2)) as Hge.
  cbn in Hge |- *. rewrite Hk in Hge. cbn in Hge. lia.
Qed.

(** The response phase first yields its [start_response] event. *)
Lemma after_planning_starts st :
  exists more,
    out (snd (after_planning st))
    = (out st ++ mark_event "start_response" (clock st) :: more)%list.
Proof.
  unfold Processor.after_planning, Gen.bind at 1, Gen.gets.
  assert (Hgrow : forall (m : Gen.M (state F Json) unit),
            grows (@out F Json) m ->
            forall st0, exists more,
              out (snd ((yield_mark "start_response" ;; m) st0))
              = (out st0 ++ mark_event "start_response" (clock st0) :: more)%list).
  { intros m Hm st0. unfold Gen.bind at 1, yield_mark, Gen.bind at 1, utcnow, yield, Gen.modify.
    match goal with |- context [m ?s] => destruct (Hm s) as [more Hmore] end.
    exists more. rewrite Hmore. cbn. now rewrite <- app_assoc. }
  assert (Hy : forall ty content, grows (@out F Json) (yield_content ty content)).
  { intros ty content st0. eexists. reflexivity. }
  assert (Htok : forall chunks, grows (@out F Json) (stream_tokens chunks)).
  { induction chunks as [| [text | x] chunks IH]; cbn [stream_tokens].
    - apply grows_ret.
    - apply grows_bind; [apply Hy | intros _; apply IH].
    - apply grows_lift. }
  assert (Hsave : grows (@out F Json) (save_response json_dumps e)).
  { apply grows_keeps. unfold save_response.
    repeat first
      [ keeps_step
      | match goal with |- keeps _ (Processor.read_chat _) => intros ?; reflexivity end
      | reflexivity ]. }
  unfold stream_response. unfold Gen.bind at 1.
  match goal with |- context [Gen.bind (yield_mark "start_response") ?k st] =>
    destruct (Hgrow (k tt)) with (st0 := st) as [more Hmore] end.
  { assert (Hmark : forall ty, grows (@out F Json) (yield_mark ty)).
    { intros ty st0. eexists. reflexivity. }
    repeat first [ apply Htok | apply Hmark | apply grows_lift
                 | apply grows_bind; [| intros ?] ]. }
  destruct (Gen.bind (yield_mark "start_response") _ st) as [[x | u] st1]; cbn [snd] in *.
  - destruct (Hy "error" ("Error generating response: " ++ Py.str_of_exn x) st1) as [m1 H1].
    destruct (yield_content _ _ st1) as [[y | v] st2]; cbn [snd] in *.
    + exists (more ++ m1)%list. now rewrite H1, Hmore, <- app_assoc.
    + destruct (Hsave st2) as [m2 H2]. exists (more ++ m1 ++ m2)%list.
      rewrite H2, H1, Hmore, <- !app_assoc. reflexivity.
  - destruct (Hsave st1) as [m2 H2]. exists (more ++ m2)%list.
    rewrite H2, Hmore, <- !app_assoc. reflexivity.
Qed.


(** After the sentinel: no tool call, no planning call, and the response
    phase. *)
Lemma sentinel_returns_to_response passes st plan_response :
  get_next_step e (planning_calls st) message_content (accumulated_data st)
    (last_plan_response st) (recent_messages chat_history) = inr plan_response ->
  Py.contains "PLAN_COMPLETE=True" plan_response = true ->
  let final := (planning_loop (S passes) ;; after_planning) st in
  planning_calls (snd final) = S (planning_calls st)
  /\ rna_requests (snd final) = rna_requests st
  /\ exists more,
       out (snd final)
       = (out st ++ mark_event "start_response" (clock st) :: more)%list.
Proof.
  intros Hplan Hsent. cbn zeta. unfold Gen.bind.
  rewrite (planning_loop_sentinel _ _ _ Hplan Hsent).
  set (st1 := set_planning_calls _ st).
  rewrite (keeps_after_planning planning_calls st1),
          (keeps_after_planning rna_requests st1).
  split; [reflexivity |]. split; [reflexivity |]. apply (after_planning_starts st1).
Qed.


(** *** Every event of [processor.py] carries a timestamp *)

Ltac adds_step :=
  lazymatch goal with
  | |- adds _ _ (Gen.ret _) => apply adds_ret
  | |- adds _ _ (Gen.lift _) => apply adds_lift
  | |- adds _ _ (Gen.gets _) => apply adds_gets
  | |- adds _ _ (Gen.bind _ _) => apply adds_bind; [| intros ?]
  | |- adds _ _ (Gen.modify _) =>
      apply adds_keeps, keeps_modify; intros ?; reflexivity
  | |- adds _ _ (if ?x then _ else _) => destruct x
  | |- adds _ _ (match ?x with _ => _ end) => destruct x
  end.

Lemma adds_yield (P : event F Json -> Prop) ev :
  P ev -> adds (@out F Json) P (yield ev).
Proof.
  intros Hev st. exists [ev]. split; [reflexivity | now constructor].
Qed.

Lemma adds_utcnow (P : event F Json -> Prop) : adds (@out F Json) P utcnow.
Proof. apply adds_keeps. intros st. reflexivity. Qed.

Lemma stamped_yield_content ty content :
  adds (@out F Json) stamped (yield_content ty content).
Proof.
  unfold yield_content. apply adds_bind; [apply adds_utcnow | intros t].
  apply adds_yield. reflexivity.
Qed.

Lemma stamped_yield_mark ty : adds (@out F Json) stamped (yield_mark ty).
Proof.
  unfold yield_mark. apply adds_bind; [apply adds_utcnow | intros t].
  apply adds_yield. reflexivity.
Qed.

Lemma stamped_send_sequences seqs acc :
  adds (@out F Json) stamped (send_sequences json_get seqs acc).
Proof.
  revert acc. induction seqs as [| s seqs IH]; intros acc; cbn [send_sequences];
    repeat first
      [ apply IH | apply adds_utcnow | apply adds_yield; reflexivity | adds_step ].
Qed.

Lemma stamped_execute_rna_tool plan_response :
  adds (@out F Json) stamped (_execute_rna_tool json_get e request plan_response).
Proof.
  unfold _execute_rna_tool.
  repeat first
    [ apply stamped_send_sequences | apply stamped_yield_content
    | apply adds_utcnow | apply adds_yield; reflexivity
    | match goal with
      | |- adds _ _ (call_rna _ _) => apply adds_keeps; intros ?; reflexivity
      end
    | adds_step ].
Qed.

Lemma stamped_planning_loop passes :
  adds (@out F Json) stamped (planning_loop passes).
Proof.
  induction passes as [| passes IH]; cbn [Processor.planning_loop].
  - apply adds_ret.
  - repeat first
      [ apply IH | apply stamped_execute_rna_tool
      | match goal with
        | |- adds _ _ (plan _ _ _) => apply adds_keeps; intros ?; reflexivity
        end
      | adds_step ].
Qed.

Lemma stamped_stream_tokens chunks :
  adds (@out F Json) stamped (stream_tokens chunks).
Proof.
  induction chunks as [| [text | x] chunks IH]; cbn [stream_tokens];
    repeat first [apply IH | apply stamped_yield_content | adds_step].
Qed.

Lemma stamped_stream_response data :
  adds (@out F Json) stamped
    (stream_response e message_content chat_history data).
Proof.
  intros st. unfold stream_response.
  match goal with |- context [Gen.bind ?m ?k st] =>
    assert (Hk : adds (@out F Json) stamped (Gen.bind m k)) end.
  { repeat first [apply stamped_stream_tokens | apply stamped_yield_mark | adds_step]. }
  destruct (Hk st) as (l1 & H1 & P1).
  destruct (Gen.bind _ _ st) as [[x | u] st']; cbn [snd] in *; [| now exists l1].
  destruct (stamped_yield_content "error"
              ("Error generating response: " ++ Py.str_of_exn x) st')
    as (l2 & H2 & P2).
  exists (l1 ++ l2)%list. split; [now rewrite H2, H1, app_assoc | now apply Forall_app].
Qed.

Lemma stamped_after_planning : adds (@out F Json) stamped after_planning.
Proof.
  unfold Processor.after_planning, save_response.
  repeat first
    [ apply stamped_stream_response
    | match goal with
      | |- adds _ _ (Processor.read_chat _) => apply adds_keeps; intros ?; reflexivity
      end
    | adds_step ].
Qed.

(** Whatever the collaborators answer, each event that a run of
    [processor.py] yields carries a timestamp. *)
Lemma run_events_stamped :
  Forall stamped
    (out (Processor.process_message json_get json_dumps e request message_content
            chat_history max_loops)).
Proof.
  unfold Processor.process_message.
  assert (Hbody : adds (@out F Json) stamped
            (body json_get json_dumps e request message_content chat_history max_loops)).
  { unfold body.
    repeat first
      [ apply stamped_planning_loop | apply stamped_after_planning
      | apply adds_utcnow | apply adds_yield; reflexivity
      | match goal with
        | |- adds _ _ (Processor.read_chat _) => apply adds_keeps; intros ?; reflexivity
        end
      | adds_step ]. }
  destruct (Hbody initial) as (l1 & H1 & P1).
  destruct (body _ _ _ _ _ _ _ initial) as [[x | u] st]; cbn [snd] in *.
  - destruct (stamped_yield_content "error" ("Error: " ++ Py.str_of_exn x) st)
      as (l2 & H2 & P2).
    rewrite H2, H1. cbn. now apply Forall_app.
  - now rewrite H1.
Qed.

(** *** What [processor.py] saves *)

Ltac saved_step :=
  lazymatch goal with
  | |- keeps _ (Gen.modify _) => apply keeps_modify; intros ?; reflexivity
  | |- keeps _ (call_rna _ _) => intros ?; reflexivity
  | |- keeps _ (plan _ _ _) => intros ?; reflexivity
  | |- keeps _ (read_chat _) => intros ?; reflexivity
  | |- _ => keeps_step
  end.

Lemma saved_send_sequences seqs acc :
  keeps (@messages_created F Json) (send_sequences json_get seqs acc).
Proof.
  revert acc. induction seqs as [| s seqs IH]; intros acc; cbn [send_sequences];
    repeat first [apply IH | saved_step].
Qed.

Lemma saved_planning_loop passes :
  keeps (@messages_created F Json) (planning_loop passes).
Proof.
  induction passes as [| passes IH]; cbn [Processor.planning_loop];
    unfold _execute_rna_tool;
    repeat first [apply IH | apply saved_send_sequences | saved_step].
Qed.

Lemma saved_stream_tokens chunks :
  keeps (@messages_created F Json) (stream_tokens chunks).
Proof.
  induction chunks as [| [text | x] chunks IH]; cbn [stream_tokens];
    repeat first [apply IH | saved_step].
Qed.

Lemma saved_stream_response data :
  keeps (@messages_created F Json)
    (stream_response e message_content chat_history data).
Proof.
  intros st. unfold stream_response.
  match goal with |- context [Gen.bind ?m ?k st] =>
    assert (Hk : keeps (@messages_created F Json) (Gen.bind m k)) end.
  { repeat first [apply saved_stream_tokens | saved_step]. }
  specialize (Hk st).
  destruct (Gen.bind _ _ st) as [[x | u] st']; cbn [snd] in *; [| exact Hk].
  rewrite <- Hk. clear Hk. revert st'.
  change (keeps (@messages_created F Json)
            (yield_content "error" ("Error generating response: " ++ Py.str_of_exn x))).
  repeat saved_step.
Qed.

Lemma saved_data_stream_response data :
  keeps (@accumulated_data F Json)
    (stream_response e message_content chat_history data).
Proof. apply keeps_stream_response. split; reflexivity. Qed.

Lemma save_response_saves st :
  messages_created st = [] ->
  saved_tool_data json_dumps (snd (save_response json_dumps e st)).
Proof.
  intros Hnone. unfold save_response, Gen.bind at 1, Gen.gets.
  destruct (accumulated_data st) as [| d data] eqn:Edata; [now left |].
  unfold Gen.bind, read_chat, Gen.lift, Gen.modify.
  destruct (get_chat e _) as [x | chat]; [now left |].
  destruct (create_message e _ _) as [x | u]; [now left |].
  right. cbn. rewrite Edata, Hnone. now split.
Qed.

Lemma body_saves :
  saved_tool_data json_dumps
    (snd (body json_get json_dumps e request message_content chat_history max_loops
            initial)).
Proof.
  cut (forall st : state F Json, messages_created st = [] ->
       saved_tool_data json_dumps
         (snd (body json_get json_dumps e request message_content chat_history
                 max_loops st))); [intros Hst; now apply Hst |].
  unfold body, Processor.after_planning.
  repeat lazymatch goal with
  | |- forall st, _ -> _ (snd (Gen.bind _ _ st)) =>
      apply bind_ends; [intros ? ?; now left | apply keeps_value | intros ?]
  end; try apply save_response_saves;
  repeat first [apply saved_planning_loop | apply saved_stream_response | saved_step].
Qed.

(** Whatever the run, [processor.py] saves nothing or the text of the
    accumulated tool data; the fragments it streamed are not what it
    saves. *)
Lemma run_saves_tool_data :
  saved_tool_data json_dumps
    (Processor.process_message json_get json_dumps e request message_content
       chat_history max_loops).
Proof.
  unfold Processor.process_message. pose proof body_saves as Hb.
  destruct (body _ _ _ _ _ _ _ initial) as [[x | u] st]; cbn [snd] in *; [| exact Hb].
  unfold saved_tool_data in *.
  change (messages_created (snd (yield_content "error" ("Error: " ++ Py.str_of_exn x) st)))
    with (messages_created st).
  change (accumulated_data (snd (yield_content "error" ("Error: " ++ Py.str_of_exn x) st)))
    with (accumulated_data st).
  exact Hb.
Qed.

End Facts.
End ProcessorFacts.

(** * The claims on the planning loop *)

(** C4.  In both orchestrators a run calls the planner at most
    [PLANNING_LOOP_MAX] times, whatever the planner, the tools and the
    other collaborators answer (a maximum below zero counts as zero);
    and the loop of [chatbot.py] always ends by its condition, by
    [break] or by an exception. *)
Theorem C4_planning_calls_bounded
    {F Json : Type} `{Mcp.PyFloat F}
    (cjson_get : Json -> string -> Py.exn + option Json)
    (e : Chatbot.env F Json) (session : Mcp.context) (model_name message : string)
    (json_get : Json -> string -> Py.exn + option Json)
    (json_dumps : list (Processor.filtered F Json) -> string)
    (pe : Processor.env F Json) (request : Mcp.context)
    (message_content : string) (chat_history : list (string * string))
    (max_loops : Z) :
  (Chatbot.planning_calls
     (Chatbot.process_message json_get e session model_name max_loops message)
   <= Z.to_nat max_loops)%nat
  /\ fst ((Chatbot.prelude e session ;;
           Chatbot.planning_loop cjson_get e session model_name max_loops message
             (Z.to_nat max_loops)) Chatbot.initial) <> inr false
  /\ (Processor.planning_calls
        (Processor.process_message json_get json_dumps pe request
           message_content chat_history max_loops)
      <= Z.to_nat max_loops)%nat.
Proof.
  split; [apply ChatbotFacts.process_message_calls |].
  split; [apply ChatbotFacts.process_message_fuel |].
  apply ProcessorFacts.run_calls_bounded.
Qed.

(** C5.  When the planner's answer contains [PLAN_COMPLETE=True], at
    whatever count the loop stands, the loop is over: no tool is called,
    no further planning call is made, and the next event is the
    [start_response] of the response phase.  In [chatbot.py] the loop
    ends by [break] or by an exception of the response phase; in
    [processor.py] the loop returns and the response phase follows. *)
Theorem C5_sentinel_ends_planning
    {F Json : Type} `{Mcp.PyFloat F}
    (cjson_get : Json -> string -> Py.exn + option Json)
    (e : Chatbot.env F Json) (session : Mcp.context) (model_name message : string)
    (max_loops : Z) (fuel : nat) (st : Chatbot.state F Json)
    (stored : option string) (plan_response : string)
    (json_get : Json -> string -> Py.exn + option Json)
    (json_dumps : list (Processor.filtered F Json) -> string)
    (pe : Processor.env F Json) (request : Mcp.context)
    (message_content : string) (chat_history : list (string * string))
    (passes : nat) (pst : Processor.state F Json) :
  Py.contains Chatbot.SENTINEL plan_response = true ->
  Chatbot.loop_count st < max_loops ->
  Chatbot.message_model e (Chatbot.planning_calls st) = inr stored ->
  Chatbot.get_next_step e (Chatbot.planning_calls st) (Chatbot.planning_history st)
    message
    (if Py.is_empty (Chatbot.data_summary st) then [] else [Chatbot.data_summary st])
    (Chatbot.last_plan_response st) (Chatbot.choose_model model_name stored)
  = inr plan_response ->
  Processor.get_next_step pe (Processor.planning_calls pst) message_content
    (Processor.accumulated_data pst) (Processor.last_plan_response pst)
    (Processor.recent_messages chat_history) = inr plan_response ->
  (let final :=
     Chatbot.planning_loop cjson_get e session model_name max_loops message (S fuel) st in
   fst final <> inr false
   /\ Chatbot.planning_calls (snd final) = S (Chatbot.planning_calls st)
   /\ Chatbot.rna_requests (snd final) = Chatbot.rna_requests st
   /\ Chatbot.crap_requests (snd final) = Chatbot.crap_requests st
   /\ exists more,
        Chatbot.out (snd final)
        = (Chatbot.out st
           ++ Chatbot.mark_event "start_response" (Chatbot.clock st) :: more)%list)
  /\ (let final :=
        (Processor.planning_loop json_get pe request message_content chat_history
           (S passes) ;;
         Processor.after_planning json_dumps pe message_content chat_history) pst in
      Processor.planning_calls (snd final) = S (Processor.planning_calls pst)
      /\ Processor.rna_requests (snd final) = Processor.rna_requests pst
      /\ exists more,
           Processor.out (snd final)
           = (Processor.out pst
              ++ Processor.mark_event "start_response" (Processor.clock pst)
                 :: more)%list).
Proof.
  intros Hsent Hlt Hmodel Hplan Hpplan. split.
  - exact (ChatbotFacts.sentinel_ends_planning cjson_get e session model_name max_loops
             message fuel st stored plan_response Hlt Hmodel Hplan Hsent).
  - exact (ProcessorFacts.sentinel_returns_to_response json_get json_dumps pe request
             message_content chat_history passes pst plan_response Hpplan Hsent).
Qed.

Lemma C5_sentinel_ends_planning_witness :
  Chatbot.planning_calls
    (snd (Chatbot.planning_loop (fun _ _ => inr None) (Sample.chatbot_env [Sample.limit_2]) Sample.session
            "model" 5 "query" 1
            (Chatbot.set_planning_calls 1
               (Chatbot.set_loop_count 1 (Sample.chatbot_start [Sample.limit_2])))))
  = 2%nat.
Proof.
  refine (proj1 (proj2 (proj1
    (C5_sentinel_ends_planning (fun _ _ => inr None) (Sample.chatbot_env [Sample.limit_2]) Sample.session
       "model" "query" 5 0
       (Chatbot.set_planning_calls 1
          (Chatbot.set_loop_count 1 (Sample.chatbot_start [Sample.limit_2])))
       None Chatbot.SENTINEL
       (fun _ _ => inr None) Sample.sample_dumps (Sample.processor_env [])
       Sample.session "query" [] 0 Sample.processor_start _ _ _ _ _)))).
  - vm_compute; reflexivity.
  - vm_compute; reflexivity.
  - reflexivity.
  - reflexivity.
  - reflexivity.
Defined.

(** C6.  A pass in which the tool of the directive is called and returns
    a failure (its status is not [success]; its error carries a message
    or is absent) yields exactly one [error] event, adds one to the loop
    counter and continues: the loop runs its next pass, whose planning
    call is made once the message lookup of that pass has returned.  For
    GET_TRNA the events of the pass are the start of the tool and the
    error; for CRAP they are the progress line on the previous search,
    the start of the tool and the error. *)
Theorem C6_tool_failure_continues
    {F Json : Type} `{Mcp.PyFloat F}
    (cjson_get : Json -> string -> Py.exn + option Json)
    (e : Chatbot.env F Json) (session : Mcp.context) (model_name message : string)
    (max_loops : Z) (fuel : nat) (st : Chatbot.state F Json)
    (stored : option string) (plan_response : string)
    (parsed : gmap string (Mcp.pyval F)) (found : nat)
    (r : Mcp.MCPResponse F Json) (msg : string) :
  Chatbot.loop_count st < max_loops - 1 ->
  Chatbot.message_model e (Chatbot.planning_calls st) = inr stored ->
  Chatbot.get_next_step e (Chatbot.planning_calls st) (Chatbot.planning_history st)
    message
    (if Py.is_empty (Chatbot.data_summary st) then [] else [Chatbot.data_summary st])
    (Chatbot.last_plan_response st) (Chatbot.choose_model model_name stored)
  = inr plan_response ->
  Py.contains Chatbot.SENTINEL plan_response = false ->
  String.eqb (Mcp.status r) "success" = false ->
  Chatbot.error_message r = inr msg ->
  let continues (added : list (Chatbot.event F Json)) : Prop :=
    exists st',
      Chatbot.iteration cjson_get e session model_name max_loops message st
      = (inr Chatbot.Continue, st')
      /\ Chatbot.out st' = (Chatbot.out st ++ added)%list
      /\ Chatbot.count_type "error" added = 1%nat
      /\ Chatbot.loop_count st' = Chatbot.loop_count st + 1
      /\ forall stored',
           Chatbot.message_model e (Chatbot.planning_calls st') = inr stored' ->
           Chatbot.planning_loop cjson_get e session model_name max_loops message
             (S (S fuel)) st
           = Chatbot.planning_loop cjson_get e session model_name max_loops message
               (S fuel) st'
           /\ (S (S (Chatbot.planning_calls st))
               <= Chatbot.planning_calls
                    (snd (Chatbot.planning_loop cjson_get e session model_name max_loops
                            message (S (S fuel)) st)))%nat in
  (Py.startswith plan_response "GET_TRNA" = true ->
   Directive.parse Directive.chatbot_key plan_response = inr parsed ->
   Chatbot.rna_tool e (length (Chatbot.rna_requests st))
     {| Mcp.method := "search_rna";
        Mcp.params := <["context" := Mcp.VContext session]> parsed |} = inr r ->
   continues
     [Chatbot.content_event "tool_start" "Searching for tRNA sequences..."
        (Chatbot.clock st);
      Chatbot.tool_error_event msg])
  /\ (Py.startswith plan_response "GET_TRNA" = false ->
      Py.startswith plan_response "CRAP" = true ->
      Directive.parse Directive.crap_key plan_response = inr parsed ->
      Chatbot.previous_sequences (Chatbot.result st) = inr found ->
      Chatbot.crap_tool e (length (Chatbot.crap_requests st))
        {| Mcp.method := "view_region";
           Mcp.params := <["context" := Mcp.VContext session]> parsed |} = inr r ->
      continues
        [Chatbot.content_event "tool_progress"
           ("Found " ++ Py.str_of_nat found ++ " sequences") (Chatbot.clock st);
         Chatbot.content_event "tool_start" "Surfing the genome browser..."
           (S (Chatbot.clock st));
         Chatbot.tool_error_event msg]).
Proof.
  intros Hlt Hmodel Hplan Hsent Hstatus Hmsg continues. split.
  - intros Hget Hparse Htool.
    destruct (ChatbotFacts.get_trna_failure cjson_get e session model_name max_loops message
                st stored plan_response parsed r msg
                Hlt Hmodel Hplan Hsent Hget Hparse Htool Hstatus Hmsg)
      as (st' & Hit & Hout & Hcount & Hcalls & _).
    exists st'. repeat split; try assumption; try reflexivity;
      apply (ChatbotFacts.continue_then_plans cjson_get e session model_name max_loops
               message fuel st st' stored'); assumption.
  - intros Hget Hcrap Hparse Hprev Htool.
    destruct (ChatbotFacts.crap_failure cjson_get e session model_name max_loops message
                st stored plan_response parsed found r msg
                Hlt Hmodel Hplan Hsent Hget Hcrap Hparse Hprev Htool Hstatus Hmsg)
      as (st' & Hit & Hout & Hcount & Hcalls & _).
    exists st'. repeat split; try assumption; try reflexivity;
      apply (ChatbotFacts.continue_then_plans cjson_get e session model_name max_loops
               message fuel st st' stored'); assumption.
Qed.

Lemma C6_tool_failure_continues_witness :
  (exists st',
      Chatbot.iteration (fun _ _ => inr None) (Sample.chatbot_env [Sample.failing_search]) Sample.session
        "model" 5 "query" (Sample.chatbot_start [Sample.failing_search])
      = (inr Chatbot.Continue, st')
      /\ Chatbot.loop_count st' = 1)
  /\ (exists st',
        Chatbot.iteration (fun _ _ => inr None)
          (Sample.chatbot_env [Sample.limit_2; Sample.region_directive])
          Sample.session "model" 5 "query"
          (Sample.chatbot_second [Sample.limit_2; Sample.region_directive])
        = (inr Chatbot.Continue, st')
        /\ Chatbot.loop_count st' = 2).
Proof.
  split.
  - destruct (proj1
      (C6_tool_failure_continues (fun _ _ => inr None) (Sample.chatbot_env [Sample.failing_search])
         Sample.session "model" "query" 5 0
         (Sample.chatbot_start [Sample.failing_search]) None Sample.failing_search
         Sample.sort_params 0 Sample.search_failure
         "statement not supported by the sample database"
         ltac:(vm_compute; reflexivity) ltac:(reflexivity)
         ltac:(reflexivity) ltac:(vm_compute; reflexivity)
         ltac:(vm_compute; reflexivity) ltac:(vm_compute; reflexivity))
      ltac:(vm_compute; reflexivity) ltac:(vm_compute; reflexivity)
      ltac:(vm_compute; reflexivity))
      as (st' & Hit & _ & _ & Hl & _).
    exists st'. split; [exact Hit | rewrite Hl; reflexivity].
  - destruct (proj2
      (C6_tool_failure_continues (fun _ _ => inr None)
         (Sample.chatbot_env [Sample.limit_2; Sample.region_directive])
         Sample.session "model" "query" 5 0
         (Sample.chatbot_second [Sample.limit_2; Sample.region_directive]) None
         Sample.region_directive Sample.region_params 2 Sample.crap_failure
         "connection refused"
         ltac:(vm_compute; reflexivity) ltac:(reflexivity)
         ltac:(vm_compute; reflexivity) ltac:(vm_compute; reflexivity)
         ltac:(vm_compute; reflexivity) ltac:(vm_compute; reflexivity))
      ltac:(vm_compute; reflexivity) ltac:(vm_compute; reflexivity)
      ltac:(vm_compute; reflexivity) ltac:(vm_compute; reflexivity)
      ltac:(vm_compute; reflexivity))
      as (st' & Hit & _ & _ & Hl & _).
    exists st'. split; [exact Hit | rewrite Hl; vm_compute; reflexivity].
Defined.

(** C3 (as amended).  A planning output that is neither a GET_TRNA or
    CRAP directive nor contains the sentinel is a plan step without
    effect: no event is yielded and no tool is called, the output becomes
    the last plan response, the loop counter advances by one, and the
    loop runs its next pass, whose planning call is made once the message
    lookup of that pass has returned.  Only on the last pass allowed
    (counter at the maximum less one) does the pass go to the response
    phase, as it does there for any output.  In [processor.py], where
    only GET_TRNA is a directive, the loop likewise goes on to its next
    pass, and returns to the response phase when no pass is left. *)
Theorem C3_unrecognised_output_is_a_plan_step
    {F Json : Type} `{Mcp.PyFloat F}
    (cjson_get : Json -> string -> Py.exn + option Json)
    (e : Chatbot.env F Json) (session : Mcp.context) (model_name message : string)
    (max_loops : Z) (fuel : nat) (st : Chatbot.state F Json)
    (stored : option string) (plan_response : string)
    (json_get : Json -> string -> Py.exn + option Json)
    (pe : Processor.env F Json) (request : Mcp.context)
    (message_content : string) (chat_history : list (string * string))
    (passes : nat) (pst : Processor.state F Json) :
  Py.contains Chatbot.SENTINEL plan_response = false ->
  Py.startswith plan_response "GET_TRNA" = false ->
  Py.startswith plan_response "CRAP" = false ->
  Chatbot.message_model e (Chatbot.planning_calls st) = inr stored ->
  Chatbot.get_next_step e (Chatbot.planning_calls st) (Chatbot.planning_history st)
    message
    (if Py.is_empty (Chatbot.data_summary st) then [] else [Chatbot.data_summary st])
    (Chatbot.last_plan_response st) (Chatbot.choose_model model_name stored)
  = inr plan_response ->
  Processor.get_next_step pe (Processor.planning_calls pst) message_content
    (Processor.accumulated_data pst) (Processor.last_plan_response pst)
    (Processor.recent_messages chat_history) = inr plan_response ->
  let st' :=
    Chatbot.advance plan_response
      (Chatbot.set_planning_calls (S (Chatbot.planning_calls st)) st) in
  let pst' :=
    Processor.set_last_plan_response (Some plan_response)
      (Processor.set_planning_calls (S (Processor.planning_calls pst)) pst) in
  (Chatbot.loop_count st < max_loops - 1 ->
   Chatbot.iteration cjson_get e session model_name max_loops message st
   = (inr Chatbot.Continue, st')
   /\ Chatbot.out st' = Chatbot.out st
   /\ Chatbot.rna_requests st' = Chatbot.rna_requests st
   /\ Chatbot.crap_requests st' = Chatbot.crap_requests st
   /\ Chatbot.last_plan_response st' = Some plan_response
   /\ Chatbot.loop_count st' = Chatbot.loop_count st + 1
   /\ forall stored',
        Chatbot.message_model e (Chatbot.planning_calls st') = inr stored' ->
        (S (S (Chatbot.planning_calls st))
         <= Chatbot.planning_calls
              (snd (Chatbot.planning_loop cjson_get e session model_name max_loops message
                      (S (S fuel)) st)))%nat)
  /\ (max_loops - 1 <= Chatbot.loop_count st ->
      Chatbot.iteration cjson_get e session model_name max_loops message st
      = (Chatbot.respond e session (Chatbot.choose_model model_name stored) ;;
         Gen.ret Chatbot.Break)
          (Chatbot.set_planning_calls (S (Chatbot.planning_calls st)) st))
  /\ Processor.planning_loop json_get pe request message_content chat_history
       (S passes) pst
     = Processor.planning_loop json_get pe request message_content chat_history
         passes pst'
  /\ Processor.out pst' = Processor.out pst
  /\ Processor.rna_requests pst' = Processor.rna_requests pst
  /\ (S (S (Processor.planning_calls pst))
      <= Processor.planning_calls
           (snd (Processor.planning_loop json_get pe request message_content
                   chat_history (S (S passes)) pst)))%nat
  /\ Processor.planning_loop json_get pe request message_content chat_history 1 pst
     = (inr tt, pst').
Proof.
  intros Hsent Hget Hcrap Hmodel Hplan Hpplan st' pst'.
  split.
  { intros Hlt.
    pose proof (ChatbotFacts.unrecognised_step cjson_get e session model_name max_loops
                  message st stored plan_response Hlt Hmodel Hplan Hsent Hget Hcrap)
      as Hit.
    split; [exact Hit |]. do 5 (split; [reflexivity |]).
    intros stored' Hm.
    apply (ChatbotFacts.continue_then_plans cjson_get e session model_name max_loops
             message fuel st st' stored' Hlt Hit Hm). }
  split.
  { intros Hlast.
    apply (ChatbotFacts.last_pass_responds cjson_get e session model_name max_loops message
             st stored plan_response Hlast Hmodel Hplan). }
  assert (Hstep : forall n,
            Processor.planning_loop json_get pe request message_content
              chat_history (S n) pst
            = Processor.planning_loop json_get pe request message_content
                chat_history n pst').
  { intros n.
    apply (ProcessorFacts.planning_loop_unrecognised json_get pe request
             message_content chat_history n pst plan_response Hpplan Hsent Hget). }
  split; [apply Hstep |]. do 2 (split; [reflexivity |]).
  split; [| apply Hstep].
  rewrite Hstep.
  apply (ProcessorFacts.pass_plans json_get pe request message_content
           chat_history passes pst').
Qed.

Lemma C3_unrecognised_output_is_a_plan_step_witness :
  Chatbot.iteration (fun _ _ => inr None) (Sample.chatbot_env [Sample.musing]) Sample.session "model" 5
    "query" (Sample.chatbot_start [Sample.musing])
  = (inr Chatbot.Continue,
     Chatbot.advance Sample.musing
       (Chatbot.set_planning_calls 1 (Sample.chatbot_start [Sample.musing]))).
Proof.
  refine (proj1 (proj1
    (C3_unrecognised_output_is_a_plan_step (fun _ _ => inr None) (Sample.chatbot_env [Sample.musing])
       Sample.session "model" "query" 5 0 (Sample.chatbot_start [Sample.musing])
       None Sample.musing (fun _ _ => inr None)
       (Sample.processor_env [Sample.musing]) Sample.session "query" [] 0
       Sample.processor_start _ _ _ _ _ _) _)).
  - vm_compute; reflexivity.
  - vm_compute; reflexivity.
  - vm_compute; reflexivity.
  - reflexivity.
  - reflexivity.
  - reflexivity.
  - vm_compute; reflexivity.
Defined.

(** C3 as stated fails: after the output [I should look at the data
    first], which is no directive and has no sentinel, the pass of
    [chatbot.py] does not leave the loop for the response phase; it asks
    for another pass, and the run makes a second planning call.  The run
    of [processor.py] does the same. *)
Lemma C3_unrecognised_output_plans_again :
  Py.contains Chatbot.SENTINEL Sample.musing = false
  /\ Py.startswith Sample.musing "GET_TRNA" = false
  /\ Py.startswith Sample.musing "CRAP" = false
  /\ fst (Chatbot.iteration (fun _ _ => inr None) (Sample.chatbot_env [Sample.musing]) Sample.session
            "model" 5 "query" (Sample.chatbot_start [Sample.musing]))
     = inr Chatbot.Continue
  /\ Chatbot.out (Sample.chatbot_second [Sample.musing]) = []
  /\ Chatbot.planning_calls (Sample.chatbot_run [Sample.musing]) = 2%nat
  /\ Processor.planning_calls (Sample.processor_run [Sample.musing]) = 2%nat.
Proof. repeat split; vm_compute; reflexivity. Qed.

(** C2 (defect of the code).  The directive
    [GET_TRNA species:"human" limit:"ten"] carries a limit that is not a
    number.  [int("ten")] raises out of the parsing loop and out of the
    pass.  In [chatbot.py] the run then ends with the single [error]
    event of the handler of [process_message]: one planning call, no tool
    call, no response phase, no second pass.  In [processor.py] the run
    ends likewise after its [start] event.  The claim asks that only the
    limit be dropped and the pass go on. *)
Theorem C2_unparsable_number_ends_the_run :
  Directive.parse (F:=Z) Directive.chatbot_key Sample.bad_limit
  = inl (Py.ValueError "invalid literal for int() with base 10: 'ten'")
  /\ Chatbot.out (Sample.chatbot_run [Sample.bad_limit])
     = [[("type", Chatbot.JStr "error");
         ("error", Chatbot.JStr "invalid literal for int() with base 10: 'ten'");
         ("timestamp", Chatbot.JTime 0)]]
  /\ Chatbot.planning_calls (Sample.chatbot_run [Sample.bad_limit]) = 1%nat
  /\ Chatbot.rna_requests (Sample.chatbot_run [Sample.bad_limit]) = []
  /\ Chatbot.loop_count (Sample.chatbot_run [Sample.bad_limit]) = 0
  /\ Processor.out (Sample.processor_run [Sample.bad_limit])
     = [[("type", Processor.JStr "start");
         ("chat", Processor.JChat "chat-1" "A chat");
         ("timestamp", Processor.JTime 0)];
        Processor.content_event "error"
          "Error: invalid literal for int() with base 10: 'ten'" 1]
  /\ Processor.planning_calls (Sample.processor_run [Sample.bad_limit]) = 1%nat
  /\ Processor.rna_requests (Sample.processor_run [Sample.bad_limit]) = [].
Proof. repeat split; vm_compute; reflexivity. Qed.

(** C8 (defect of the code).  In [chatbot.py] the [error] event of a
    tool failure and the [sequence_data] event of a returned record are
    built without a [timestamp] key: the run on a failing search yields
    the former, the run on a search of two records yields the latter
    twice.  Every event of every run of [processor.py], which yields
    events of the same two kinds at the same places, and every event of
    [EventManager.add_event], carries the key. *)
Theorem C8_events_without_timestamp :
  In (Chatbot.tool_error_event "statement not supported by the sample database")
     (Chatbot.out (Sample.chatbot_run [Sample.failing_search]))
  /\ (forall msg, Chatbot.has_key "timestamp"
                    (Chatbot.tool_error_event (F:=Z) (Json:=unit) msg) = false)
  /\ In (Chatbot.sequence_event (Sample.sample_record 0))
        (Chatbot.out (Sample.chatbot_run [Sample.limit_2]))
  /\ (forall s, Chatbot.has_key "timestamp"
                  (Chatbot.sequence_event (F:=Z) (Json:=unit) s) = false)
  /\ (forall (F Json : Type) (HF : Mcp.PyFloat F)
        (json_get : Json -> string -> Py.exn + option Json)
        (json_dumps : list (Processor.filtered F Json) -> string)
        (e : Processor.env F Json) (request : Mcp.context)
        (message_content : string) (chat_history : list (string * string))
        (max_loops : Z),
        Forall Processor.stamped
          (Processor.out
             (Processor.process_message json_get json_dumps e request
                message_content chat_history max_loops)))
  /\ (forall (ty : string) (data : unit) (now : nat) queue,
        Forall (fun ev => EventManager.has_timestamp ev = true) queue ->
        Forall (fun ev => EventManager.has_timestamp ev = true)
          (EventManager.add_event ty data now queue)).
Proof.
  split; [vm_compute; tauto |]. split; [reflexivity |].
  split; [vm_compute; tauto |]. split; [reflexivity |].
  split; [intros; apply ProcessorFacts.run_events_stamped |].
  intros ty data now queue Hq. unfold EventManager.add_event.
  apply Forall_app. split; [exact Hq |]. now constructor.
Qed.

(** C9 (defect of the code).  In [processor.py] a run that streams the
    fragments [Hel] and [lo] and ends with [end_response] creates no
    assistant message when no tool result was accumulated; with tool
    results it creates one whose content is the text of the accumulated
    data, not [Hello]; on every run it saves nothing or that text.  The
    same runs of [chatbot.py] create one assistant message with the
    content [Hello]; every run of [chatbot.py] that ends without an
    exception, with a chat whose store accepts the message and at least
    one pass allowed, creates exactly one assistant message, whose content
    is the concatenation, in order, of the fragments it streamed. *)
Theorem C9_processor_does_not_save_the_response :
  Processor.streamed_fragments (Processor.out (Sample.processor_run []))
  = ["Hel"; "lo"]
  /\ last (Processor.out (Sample.processor_run []))
     = Some (Processor.mark_event "end_response" 4)
  /\ Processor.messages_created (Sample.processor_run []) = []
  /\ Processor.streamed_fragments (Processor.out (Sample.processor_run [Sample.limit_2]))
     = ["Hel"; "lo"]
  /\ Processor.messages_created (Sample.processor_run [Sample.limit_2])
     = [("assistant", "[tRNA-0, tRNA-1]")]
  /\ Chatbot.streamed_fragments (Chatbot.out (Sample.chatbot_run []))
     = ["Hel"; "lo"]
  /\ Chatbot.messages_created (Sample.chatbot_run []) = [("assistant", "Hello")]
  /\ Chatbot.messages_created (Sample.chatbot_run [Sample.limit_2])
     = [("assistant", "Hello")]
  /\ (forall (F Json : Type) (HF : Mcp.PyFloat F)
        (json_get : Json -> string -> Py.exn + option Json)
        (json_dumps : list (Processor.filtered F Json) -> string)
        (e : Processor.env F Json) (request : Mcp.context)
        (message_content : string) (chat_history : list (string * string))
        (max_loops : Z),
        Processor.saved_tool_data json_dumps
          (Processor.process_message json_get json_dumps e request
             message_content chat_history max_loops))
  /\ (forall (F Json : Type) (HF : Mcp.PyFloat F)
        (json_get : Json -> string -> Py.exn + option Json)
        (e : Chatbot.env F Json) (session : Mcp.context)
        (model_name : string) (max_loops : Z) (message : string) (b : bool),
        Chatbot.has_chat session = true ->
        (forall c role content, Chatbot.create_message e c role content = inr tt) ->
        1 <= max_loops ->
        fst (Gen.bind (Chatbot.prelude e session)
               (fun _ => Chatbot.planning_loop json_get e session model_name
                           max_loops message (Z.to_nat max_loops))
               Chatbot.initial) = inr b ->
        let final :=
          Chatbot.process_message json_get e session model_name max_loops message in
        Chatbot.messages_created final
        = [("assistant",
            Py.join "" (Chatbot.streamed_fragments (Chatbot.out final)))]).
Proof.
  do 8 (split; [vm_compute; reflexivity |]).
  split; [intros; apply ProcessorFacts.run_saves_tool_data |].
  intros F Json HF json_get e session model_name max_loops message b.
  apply ChatbotFacts.run_saves_streamed.
Qed.

(** * Properties of the code beyond the specification *)

Module RnaDbMoreFacts.
Import Mcp RnaDb RnaDbFacts.
#[local] Set Default Proof Using "Type".

Section Facts.
Context {F Json Row : Type} `{PyFloat F}.
Variable py_str : pyval F -> string.
Variable sqlite_connect : Py.exn + unit.
Variable sqlite_select : string -> list (pyval F) -> Py.exn + list Row.
Variable acreate : context -> Row -> Py.exn + seq_record F Json.

#[local] Abbreviation dict := (gmap string (pyval F)).

Ltac bind_step H :=
  match type of H with
  | Py.bind ?x _ = inr _ =>
      let E := fresh "E" in
      destruct x eqn:E; cbn [Py.bind] in H; [discriminate H |]
  end.

Lemma lower_ascii_idem c : Py.lower_ascii (Py.lower_ascii c) = Py.lower_ascii c.
Proof. destruct c as [[] [] [] [] [] [] [] []]; reflexivity. Qed.

Lemma lower_idem s : Py.lower (Py.lower s) = Py.lower s.
Proof.
  induction s as [| c s IH]; [reflexivity |].
  cbn [Py.lower]. now rewrite lower_ascii_idem, IH.
Qed.

(** The statement depends on the parameters through the species they
    give and the other keys. *)
Lemma search_statement_agree (p q : dict) :
  species_of p = species_of q ->
  (forall k, k <> "species" -> p !! k = q !! k) ->
  search_statement py_str p = search_statement py_str q.
Proof.
  intros Hsp Hag. unfold search_statement. rewrite Hsp.
  unfold add_score, add_filter, add_search_term, add_json_filter, add_sorting,
    add_sampling, add_limit, get_lower.
  rewrite !(Hag "search_term"), !(Hag "isotype"), !(Hag "anticodon"),
    !(Hag "min_general_score"), !(Hag "max_general_score"),
    !(Hag "min_isotype_score"), !(Hag "max_isotype_score"),
    !(Hag "json_field"), !(Hag "json_value"), !(Hag "sort_by"),
    !(Hag "order"), !(Hag "sample"), !(Hag "limit") by discriminate.
  reflexivity.
Qed.


Lemma species_of_lower (p : dict) s :
  species_of (<["species" := VStr s]> p)
  = species_of (<["species" := VStr (Py.lower s)]> p).
Proof.
  unfold species_of, get_lower. rewrite !lookup_insert_eq. now rewrite lower_idem.
Qed.

Lemma agree_insert (p : dict) k0 v w k :
  k <> k0 -> <[k0 := v]> p !! k = <[k0 := w]> p !! k.
Proof. intros Hk. now rewrite !lookup_insert_ne by congruence. Qed.








(** What [delete "sort_by"] leaves of the builders: they read other keys. *)
Lemma species_of_delete_sort (p : dict) :
  species_of (delete "sort_by" p) = species_of p.
Proof. unfold species_of, get_lower. now rewrite lookup_delete_ne by discriminate. Qed.

Lemma add_score_delete_sort (p : dict) key text st :
  key <> "sort_by" ->
  add_score (delete "sort_by" p) key text st = add_score p key text st.
Proof. intros Hk. unfold add_score. now rewrite lookup_delete_ne by congruence. Qed.

Lemma add_filter_delete_sort (p : dict) key text st :
  key <> "sort_by" ->
  add_filter (delete "sort_by" p) key text st = add_filter p key text st.
Proof. intros Hk. unfold add_filter. now rewrite lookup_delete_ne by congruence. Qed.

Lemma add_search_term_delete_sort (p : dict) st :
  add_search_term py_str (delete "sort_by" p) st = add_search_term py_str p st.
Proof. unfold add_search_term. now rewrite lookup_delete_ne by discriminate. Qed.

Lemma add_json_filter_delete_sort (p : dict) st :
  add_json_filter (delete "sort_by" p) st = add_json_filter p st.
Proof. unfold add_json_filter. now rewrite !lookup_delete_ne by discriminate. Qed.

Lemma add_sampling_delete_sort (p : dict) st :
  add_sampling (delete "sort_by" p) st = add_sampling p st.
Proof. unfold add_sampling, get_lower. now rewrite lookup_delete_ne by discriminate. Qed.

Lemma add_limit_delete_sort (p : dict) st :
  add_limit (delete "sort_by" p) st = add_limit p st.
Proof. unfold add_limit. now rewrite lookup_delete_ne by discriminate. Qed.

Lemma add_sorting_delete_sort (p : dict) st :
  add_sorting py_str (delete "sort_by" p) st = inr st.
Proof. unfold add_sorting. now rewrite lookup_delete_eq. Qed.

Lemma add_sampling_text (p : dict) st st' :
  add_sampling p st = inr st' ->
  exists post, forall st1 : statement F,
    sql_params st1 = sql_params st -> sql_limit st1 = sql_limit st ->
    exists st1', add_sampling p st1 = inr st1'
      /\ sql st1' = sql st1 ++ post /\ sql st' = sql st ++ post
      /\ sql_params st1' = sql_params st' /\ sql_limit st1' = sql_limit st'.
Proof.
  unfold add_sampling. destruct (get_lower p "sample" "") as [x | sample]; cbn [Py.bind];
    [discriminate |].
  intros [= <-]. destruct (String.eqb sample "random").
  - exists " ORDER BY RANDOM()". intros st1 Hp Hl. eexists. split; [reflexivity |].
    unfold add; cbn [sql sql_params sql_limit]. now rewrite Hp, Hl.
  - exists "". intros st1 Hp Hl. eexists. split; [reflexivity |].
    assert (Hnil : forall t : string, t ++ "" = t).
    { induction t as [| c t IH]; [reflexivity |]. now rewrite append_cons, IH. }
    now rewrite !Hnil.
Qed.

(** X2.  The value of [sort_by] is spliced into the text of the statement
    as it is, after [ORDER BY]; it is no bound value.  The statement
    differs from the statement of the same request without [sort_by] by
    that text alone. *)
Theorem sort_by_is_spliced_into_the_statement (p : dict) v st :
  p !! "sort_by" = Some v ->
  search_statement py_str p = inr st ->
  exists st0 pre post order,
    search_statement py_str (delete "sort_by" p) = inr st0
    /\ sql st0 = pre ++ post
    /\ sql st = ((pre ++ " ORDER BY " ++ py_str v) ++ order) ++ post
    /\ (order = " ASC" \/ order = " DESC")
    /\ sql_params st = sql_params st0
    /\ sql_limit st = sql_limit st0.
Proof.
  intros Hsort Hst. unfold search_statement in Hst. do 8 bind_step Hst.
  unfold add_sorting in E5. rewrite Hsort in E5. bind_step E5. injection E5 as <-.
  destruct (add_sampling_text _ _ _ E6) as [post Hpost].
  destruct (Hpost (add_json_filter p s4)) as (s6' & Es6' & Hsql' & Hsql & Hpar & Hlim);
    [unfold add; cbn [sql_params]; now rewrite !app_nil_r | reflexivity |].
  assert (Hl : exists st0, add_limit p s6' = inr st0
                 /\ sql st0 = sql s6' /\ sql st = sql s6
                 /\ sql_params st = sql_params st0 /\ sql_limit st = sql_limit st0).
  { unfold add_limit in *. destruct (p !! "limit") as [n |].
    - bind_step Hst. injection Hst as <-. eexists. split; [reflexivity |].
      cbn. now rewrite Hpar.
    - injection Hst as <-. eexists. split; [reflexivity |]. cbn. now rewrite Hpar. }
  destruct Hl as (st0 & Est0 & H0 & H1 & H2 & H3).
  exists st0, (sql (add_json_filter p s4)), post,
    (if (s7 =? "desc")%string then " DESC" else " ASC").
  split.
  { unfold search_statement. rewrite species_of_delete_sort, E. cbn [Py.bind].
    rewrite E0. cbn [Py.bind].
    rewrite !add_filter_delete_sort, add_search_term_delete_sort by discriminate.
    rewrite add_score_delete_sort, E1 by discriminate. cbn [Py.bind].
    rewrite add_score_delete_sort, E2 by discriminate. cbn [Py.bind].
    rewrite add_score_delete_sort, E3 by discriminate. cbn [Py.bind].
    rewrite add_score_delete_sort, E4 by discriminate. cbn [Py.bind].
    rewrite add_json_filter_delete_sort, add_sorting_delete_sort. cbn [Py.bind].
    rewrite add_sampling_delete_sort, Es6'. cbn [Py.bind].
    rewrite add_limit_delete_sort. exact Est0. }
  split; [now rewrite H0, Hsql' |].
  split; [rewrite H1, Hsql; reflexivity |].
  split; [destruct (String.eqb _ _); auto |]. now split.
Qed.


(** X3.  The species name is matched without regard to case: a request
    and the same request with its species lower-cased build the same
    search statement and get the same answer from [get_sequence]. *)
Theorem species_case_is_ignored (p : dict) (ctx : context) (s : string) :
  search_statement py_str (<["species" := VStr s]> p)
  = search_statement py_str (<["species" := VStr (Py.lower s)]> p)
  /\ _handle_get_sequence py_str sqlite_connect sqlite_select acreate
       (<["species" := VStr s]> p) ctx
     = _handle_get_sequence py_str sqlite_connect sqlite_select acreate
         (<["species" := VStr (Py.lower s)]> p) ctx.
Proof.
  split.
  - apply search_statement_agree; [apply species_of_lower |].
    intros k Hk. now apply agree_insert.
  - unfold _handle_get_sequence.
    rewrite !(lookup_insert_ne _ "species" "gene_symbol") by discriminate.
    now rewrite species_of_lower.
Qed.

(** X4.  Whatever [process_request] returns is a success with its data or
    a failure with a code and a message, the code being one of
    [INVALID_METHOD], [SEARCH_ERROR], [MISSING_PARAM], [NOT_FOUND] and
    [GET_SEQUENCE_ERROR]: the [INTERNAL_ERROR] of its own handler never
    occurs. *)
Theorem process_request_answers (self : context) (request : MCPRequest F)
    (r : MCPResponse F Json) :
  process_request py_str sqlite_connect sqlite_select acreate self request = inr r ->
  ((exists d, r = success d)
   \/ (exists code msg,
         r = failure code msg
         /\ In code ["INVALID_METHOD"; "SEARCH_ERROR"; "MISSING_PARAM";
                     "NOT_FOUND"; "GET_SEQUENCE_ERROR"]))
  /\ error_code r <> Some "INTERNAL_ERROR".
Proof.
  intros Hr.
  assert (Hcases : (exists d, r = success d)
   \/ (exists code msg,
         r = failure code msg
         /\ In code ["INVALID_METHOD"; "SEARCH_ERROR"; "MISSING_PARAM";
                     "NOT_FOUND"; "GET_SEQUENCE_ERROR"])).
  { unfold process_request in Hr.
    destruct (update_context self (params request)) as [x | ctx]; cbn [Py.bind] in Hr;
      [discriminate |].
    destruct (String.eqb (method request) "get_capabilities");
      [injection Hr as <-; left; eauto |].
    destruct (String.eqb (method request) "search_rna").
    { injection Hr as <-.
      destruct (handle_search_cases py_str sqlite_connect sqlite_select acreate
                  (params request) ctx)
        as [(st & rows & seqs & _ & _ & _ & _ & ->) | (msg & ->)];
        [left; eauto | right; exists "SEARCH_ERROR", msg; cbn; auto]. }
    destruct (String.eqb (method request) "get_sequence").
    { injection Hr as <-.
      destruct (handle_get_sequence_cases py_str sqlite_connect sqlite_select acreate
                  (params request) ctx)
        as [(s & ->) | (code & msg & -> & [-> | [-> | ->]])];
        [left; eauto | right; eexists _, msg; cbn; auto 7 ..]. }
    injection Hr as <-. right. eexists _, _. cbn. auto. }
  split; [exact Hcases |].
  destruct Hcases as [(d & ->) | (code & msg & -> & Hin)]; [discriminate |].
  rewrite error_code_failure. cbn in Hin.
  intros [= ->]. repeat destruct Hin as [Hin | Hin]; try discriminate; contradiction.
Qed.


End Facts.
End RnaDbMoreFacts.


Lemma sort_by_is_spliced_into_the_statement_witness :
  exists st,
    RnaDb.search_statement Sample.sample_str Sample.sort_params = inr st
    /\ exists st0 pre post order,
         RnaDb.search_statement Sample.sample_str (delete "sort_by" Sample.sort_params)
         = inr st0
         /\ RnaDb.sql st0 = pre ++ post
         /\ RnaDb.sql st
            = ((pre ++ " ORDER BY " ++ Sample.sample_str (Mcp.VStr "Locus")) ++ order) ++ post
         /\ (order = " ASC" \/ order = " DESC")
         /\ RnaDb.sql_params st = RnaDb.sql_params st0
         /\ RnaDb.sql_limit st = RnaDb.sql_limit st0.
Proof.
  eexists. split; [vm_compute; reflexivity |].
  apply (RnaDbMoreFacts.sort_by_is_spliced_into_the_statement Sample.sample_str
           Sample.sort_params (Mcp.VStr "Locus")); vm_compute; reflexivity.
Defined.

Lemma process_request_answers_witness :
  exists r,
    Sample.rna_process (Sample.zebrafish_request "tRNA-99") = inr r
    /\ ((exists d, r = Mcp.success d)
        \/ (exists code msg,
              r = Mcp.failure code msg
              /\ In code ["INVALID_METHOD"; "SEARCH_ERROR"; "MISSING_PARAM";
                          "NOT_FOUND"; "GET_SEQUENCE_ERROR"]))
    /\ Mcp.error_code r <> Some "INTERNAL_ERROR".
Proof.
  eexists. split; [vm_compute; reflexivity |].
  apply (RnaDbMoreFacts.process_request_answers Sample.sample_str (inr tt)
           Sample.sample_select Sample.sample_acreate Sample.session
           (Sample.zebrafish_request "tRNA-99")).
  vm_compute; reflexivity.
Defined.


(** ** More on the parsing of a directive *)

Module DirectiveMoreFacts.
Import Mcp Directive.
#[local] Set Default Proof Using "Type".

Lemma append_nil_r (s : string) : s ++ "" = s.
Proof.
  induction s as [| c s IH]; [reflexivity |].
  now rewrite RnaDbFacts.append_cons, IH.
Qed.

(** The stripping of double quotes, on a value written between double
    quotes. *)
Lemma rstrip_snoc q (w : string) : Py.rstrip q (w ++ String q "") = Py.rstrip q w.
Proof.
  induction w as [| c w IH].
  - change ("" ++ String q "") with (String q ""). cbn. now rewrite Ascii.eqb_refl.
  - rewrite RnaDbFacts.append_cons. cbn [Py.rstrip]. now rewrite IH.
Qed.

Lemma strip_snoc q (v : string) :
  Py.strip q (v ++ String q "") = Py.strip q v.
Proof.
  unfold Py.strip. induction v as [| c v IH].
  - change ("" ++ String q "") with (String q ""). cbn. now rewrite Ascii.eqb_refl.
  - rewrite RnaDbFacts.append_cons. cbn [Py.lstrip].
    destruct (Ascii.eqb c q); [exact IH |].
    rewrite <- RnaDbFacts.append_cons. apply rstrip_snoc.
Qed.

Lemma strip_quoted (v : string) :
  Py.strip Py.dquote (Py.quoted v) = Py.strip Py.dquote v.
Proof.
  unfold Py.quoted. rewrite <- (strip_snoc Py.dquote v).
  unfold Py.strip. cbn [Py.lstrip]. now rewrite Ascii.eqb_refl.
Qed.

Lemma split_colon_app (key rest : string) :
  Py.split_colon key = None ->
  Py.split_colon (key ++ ":" ++ rest) = Some (key, rest).
Proof.
  induction key as [| c key IH]; [reflexivity |].
  rewrite RnaDbFacts.append_cons. cbn [Py.split_colon].
  destruct (Ascii.eqb c ":"); [discriminate |].
  destruct (Py.split_colon key) as [[k v] |]; [discriminate |].
  intros _. now rewrite IH.
Qed.

Section Facts.
Context {F : Type} `{PyFloat F}.
Variable kp : key_parser (F:=F).

#[local] Abbreviation dict := (gmap string (pyval F)).

Lemma parse_parts_app (acc : dict) l1 l2 :
  parse_parts kp acc (l1 ++ l2)
  = let* a := parse_parts kp acc l1 in parse_parts kp a l2.
Proof.
  revert acc. induction l1 as [| part l1 IH]; intros acc; [reflexivity |].
  cbn [app parse_parts].
  destruct (parse_part kp acc part) as [x | a]; cbn [Py.bind]; [reflexivity | apply IH].
Qed.

(** X6.  A token without a colon, and a token whose key is not one the
    parser knows, can stand anywhere among the tokens of a directive:
    the parameters parsed, or the exception raised, are those of the
    directive without it. *)
Theorem skipped_token_changes_nothing (acc : dict) (before after : list string)
    (part : string) :
  (Py.split_colon part = None
   \/ exists key value,
        Py.split_colon part = Some (key, value)
        /\ kp key (Py.strip Py.dquote value) = inr None) ->
  parse_parts kp acc (before ++ part :: after)
  = parse_parts kp acc (before ++ after).
Proof.
  intros Hskip.
  assert (Hpart : forall a : dict, parse_part kp a part = inr a).
  { intros a. unfold parse_part.
    destruct Hskip as [-> | (key & value & -> & Hk)]; [reflexivity |].
    now rewrite Hk. }
  rewrite !parse_parts_app.
  destruct (parse_parts kp acc before) as [x | a]; cbn [Py.bind]; [reflexivity |].
  cbn [parse_parts]. now rewrite Hpart.
Qed.

(** X7.  When a key occurs more than once, its last occurrence decides:
    the value that the last token stores is the value of its parameter
    in the result. *)
Theorem last_token_wins (acc d : dict) (parts : list string) (part key value : string)
    (name : string) (v : pyval F) :
  Py.split_colon part = Some (key, value) ->
  kp key (Py.strip Py.dquote value) = inr (Some (name, v)) ->
  parse_parts kp acc (parts ++ [part]) = inr d ->
  d !! name = Some v.
Proof.
  intros Hsplit Hk. rewrite parse_parts_app.
  destruct (parse_parts kp acc parts) as [x | a]; cbn [Py.bind]; [discriminate |].
  cbn [parse_parts]. unfold parse_part. rewrite Hsplit, Hk. cbn [Py.bind].
  intros [= <-]. apply lookup_insert_eq.
Qed.

(** X8.  The double quotes around a value are optional: a token whose
    value is written between double quotes parses as the token with the
    bare value. *)
Theorem quotes_are_optional (acc : dict) (key v : string) :
  Py.split_colon key = None ->
  parse_part kp acc (key ++ ":" ++ Py.quoted v)
  = parse_part kp acc (key ++ ":" ++ v).
Proof.
  intros Hkey. unfold parse_part.
  rewrite !(split_colon_app _ _ Hkey). now rewrite strip_quoted.
Qed.

End Facts.

Section Crap.
Context {F : Type} `{PyFloat F}.

Lemma crap_parts (acc : gmap string (pyval F)) (parts : list string) :
  map_Forall (fun _ v => exists t, v = VStr t) acc ->
  exists d, parse_parts crap_key acc parts = inr d
            /\ map_Forall (fun _ v => exists t, v = VStr t) d.
Proof.
  revert acc. induction parts as [| part parts IH]; intros acc Hacc; [now exists acc |].
  cbn [parse_parts]. unfold parse_part.
  destruct (Py.split_colon part) as [[key value] |]; cbn [Py.bind]; [| now apply IH].
  apply IH. apply map_Forall_insert_2; [eauto | exact Hacc].
Qed.

(** X9.  The parsing of a CRAP directive never raises, whatever the text,
    and every parameter it stores is a string: numbers are not
    converted. *)
Theorem crap_directive_never_raises (plan_response : string) :
  exists d : gmap string (pyval F),
    parse crap_key plan_response = inr d
    /\ forall k v, d !! k = Some v -> exists t, v = VStr t.
Proof.
  unfold parse.
  destruct (crap_parts ∅ (tail (Py.split plan_response))) as (d & Hd & Hall).
  { apply map_Forall_empty. }
  exists d. split; [exact Hd |]. intros k v Hk. exact (Hall k v Hk).
Qed.

End Crap.
End DirectiveMoreFacts.

Lemma skipped_token_changes_nothing_witness :
  Directive.parse_parts (F:=Z) Directive.chatbot_key ∅
    (["species:human"] ++ "colour:red" :: ["limit:3"])
  = Directive.parse_parts Directive.chatbot_key ∅ (["species:human"] ++ ["limit:3"]).
Proof.
  apply (DirectiveMoreFacts.skipped_token_changes_nothing Directive.chatbot_key ∅
           ["species:human"] ["limit:3"] "colour:red").
  right. exists "colour", "red". split; reflexivity.
Defined.

Lemma last_token_wins_witness :
  exists d,
    Directive.parse_parts (F:=Z) Directive.chatbot_key ∅
      (["species:human"; "limit:3"] ++ ["species:mouse"]) = inr d
    /\ d !! "species" = Some (Mcp.VStr "mouse").
Proof.
  eexists. split; [vm_compute; reflexivity |].
  apply (DirectiveMoreFacts.last_token_wins Directive.chatbot_key ∅ _
           ["species:human"; "limit:3"] "species:mouse" "species" "mouse");
    vm_compute; reflexivity.
Defined.

Lemma quotes_are_optional_witness :
  Directive.parse_part (F:=Z) Directive.chatbot_key ∅ ("limit" ++ ":" ++ Py.quoted "7")
  = Directive.parse_part Directive.chatbot_key ∅ ("limit" ++ ":" ++ "7").
Proof.
  apply (DirectiveMoreFacts.quotes_are_optional Directive.chatbot_key ∅ "limit" "7").
  reflexivity.
Defined.

(** ** The wrappers of [tool_wrappers.py] *)

Module WrappersFacts.
Import Mcp Wrappers.
#[local] Set Default Proof Using "Type".

Section Monitored.
Context {F Json T : Type}.
Variable fadd fsub : T -> T -> T.
Variable time_at : nat -> T.
Variable tool : nat -> MCPRequest F -> Py.exn + MCPResponse F Json.

#[local] Abbreviation process := (monitored_process_request (Json:=Json) fadd fsub time_at tool).
#[local] Abbreviation run := (monitored_run (Json:=Json) fadd fsub time_at tool).

Lemma failure_is_no_success code msg :
  String.eqb (status (failure (F:=F) (Json:=Json) code msg)) "success" = false.
Proof. reflexivity. Qed.

(** One request: one call of the tool, one more call counted, as a
    success exactly when the response returned is one. *)
Lemma monitored_step request s :
  let '(r, s1) := process request s in
  inner_calls s1 = S (inner_calls s)
  /\ total_calls (metrics s1) = S (total_calls (metrics s))
  /\ successful_calls (metrics s1)
     = (successful_calls (metrics s) + successes [r])%nat
  /\ failed_calls (metrics s1)
     = (failed_calls (metrics s) + (1 - successes [r]))%nat
  /\ (last_error (metrics s1) = None
      <-> last_error (metrics s) = None /\ successes [r] = 1%nat).
Proof.
  unfold monitored_process_request.
  destruct (tool (inner_calls s) request) as [x | response].
  - cbn. repeat split; try lia; try discriminate; try tauto.
  - unfold successes.
    destruct (String.eqb (status response) "success") eqn:Es; cbn; rewrite Es; cbn;
      repeat split; try lia; try discriminate; try tauto.
Qed.

Lemma successes_cons (r : MCPResponse F Json) rs :
  successes (r :: rs) = (successes [r] + successes rs)%nat.
Proof. unfold successes. cbn [List.filter]. now destruct (String.eqb _ _). Qed.

Lemma successes_le (rs : list (MCPResponse F Json)) :
  (successes rs <= length rs)%nat.
Proof. unfold successes. apply filter_length_le. Qed.

Lemma monitored_run_counts requests s :
  let '(rs, s') := run requests s in
  length rs = length requests
  /\ inner_calls s' = (inner_calls s + length requests)%nat
  /\ total_calls (metrics s') = (total_calls (metrics s) + length requests)%nat
  /\ successful_calls (metrics s')
     = (successful_calls (metrics s) + successes rs)%nat
  /\ failed_calls (metrics s')
     = (failed_calls (metrics s) + (length requests - successes rs))%nat
  /\ (last_error (metrics s') = None
      <-> last_error (metrics s) = None /\ successes rs = length requests).
Proof.
  revert s. induction requests as [| request rest IH]; intros s.
  - cbn. repeat split; try lia; tauto.
  - cbn [monitored_run]. pose proof (monitored_step request s) as Hstep.
    destruct (process request s) as [r s1]. specialize (IH s1).
    destruct (run rest s1) as [rs s2].
    destruct Hstep as (Hi & Ht & Hs & Hf & He).
    destruct IH as (IHl & IHi & IHt & IHs & IHf & IHe).
    rewrite successes_cons. cbn [length].
    pose proof (successes_le rs) as Hle. pose proof (successes_le [r]) as Hle1.
    cbn [length] in Hle1.
    do 5 (split; [lia |]).
    rewrite IHe, He. split.
    + intros [[Hn H1] Hall]. split; [exact Hn | lia].
    + intros [Hn Hall]. split; [split; [exact Hn | lia] | lia].
Qed.

(** X10.  Over any sequence of requests sent to a fresh [MonitoredTool],
    the tool is called once per request and every request is counted
    once, as a success when the response returned is a success and as a
    failure otherwise (an exception of the tool being answered with a
    failure): [total_calls] is the number of requests and the sum of
    [successful_calls] and [failed_calls], and [last_error] is unset
    exactly when every response was a success. *)
Theorem monitored_counts (fzero : T) (requests : list (MCPRequest F)) :
  let '(rs, s) := run requests (fresh fzero) in
  length rs = length requests
  /\ inner_calls s = length requests
  /\ total_calls (metrics s) = length requests
  /\ successful_calls (metrics s) = successes rs
  /\ failed_calls (metrics s) = (length requests - successes rs)%nat
  /\ (successful_calls (metrics s) + failed_calls (metrics s))%nat
     = total_calls (metrics s)
  /\ (last_error (metrics s) = None <-> successes rs = length requests).
Proof.
  pose proof (monitored_run_counts requests (fresh fzero)) as Hrun.
  destruct (run requests (fresh fzero)) as [rs s].
  destruct Hrun as (Hl & Hi & Ht & Hs & Hf & He). cbn in Hi, Ht, Hs, Hf, He.
  pose proof (successes_le rs) as Hle.
  repeat split; try lia; tauto.
Qed.

End Monitored.

Section Wrap.
Context {F Json J T : Type}.
Variable json_loads : string -> Py.exn + J.
Variable json_truthy : J -> bool.
Variable fadd fsub : T -> T -> T.
Variable time_at : nat -> T.
Variable py_hash : string -> Z.
Variable str_of_params : gmap string (pyval F) -> string.

#[local] Abbreviation wrapped :=
  (wrapped_process_request (Json:=Json) json_loads json_truthy fadd fsub time_at
     py_hash str_of_params).
#[local] Abbreviation key_of :=
  (Cache.cache_key (F:=F) "MonitoredTool" py_hash str_of_params).

(** The lookup of a request finds nothing that counts as a response. *)
#[local] Abbreviation misses request c :=
  (match Cache.get json_loads (key_of request) c with
   | Some v => negb (Cache.truthy json_truthy v)
   | None => true
   end).

Lemma wrapped_hit tool cache_ttl request (w : world (F:=F) (Json:=Json) (T:=T)) v :
  Cache.get json_loads (key_of request) (fst w) = Some v ->
  Cache.truthy json_truthy v = true ->
  wrapped tool cache_ttl request w = (inr v, w).
Proof.
  intros Hget Hv. unfold wrapped_process_request, cached_process_request, memory_get.
  rewrite Hget, Hv. now destruct w.
Qed.

Lemma wrapped_miss tool cache_ttl request (w : world (F:=F) (Json:=Json) (T:=T)) :
  misses request (fst w) = true ->
  wrapped tool cache_ttl request w
  = let '(r, s1) := monitored_process_request fadd fsub time_at tool request (snd w) in
    if String.eqb (status r) "success"
    then (inr (Cache.Response r),
          (Cache.set (key_of request) r (Some cache_ttl) (fst w), s1))
    else (inr (Cache.Response r), (fst w, s1)).
Proof.
  intros Hmiss. unfold wrapped_process_request, cached_process_request, memory_get.
  cbn [fst snd].
  destruct (monitored_process_request fadd fsub time_at tool request (snd w)) as [r s1].
  destruct (Cache.get json_loads (key_of request) (fst w)) as [v |]; [| reflexivity].
  apply negb_true_iff in Hmiss. now rewrite Hmiss.
Qed.

(** X11.  A tool wrapped by [wrap_tool] with its defaults never raises.
    When the tool raises on a request that misses the cache, the answer
    is a [MONITORED_TOOL_ERROR] failure with the text of the exception,
    the call is counted as a failure, nothing is cached, and the same
    request sent again calls the tool again. *)
Theorem wrapped_tool_never_raises tool cache_ttl request
    (w : world (F:=F) (Json:=Json) (T:=T)) :
  (exists v, fst (wrapped tool cache_ttl request w) = inr v)
  /\ (forall x,
        misses request (fst w) = true ->
        tool (inner_calls (snd w)) request = inl x ->
        let first := wrapped tool cache_ttl request w in
        let second := wrapped tool cache_ttl request (snd first) in
        fst first
        = inr (Cache.Response (failure "MONITORED_TOOL_ERROR" (Py.str_of_exn x)))
        /\ fst (snd first) = fst w
        /\ failed_calls (metrics (snd (snd first)))
           = S (failed_calls (metrics (snd w)))
        /\ inner_calls (snd (snd second)) = S (S (inner_calls (snd w)))).
Proof.
  split.
  - unfold wrapped_process_request, cached_process_request, memory_get. cbn [fst snd].
    destruct (monitored_process_request fadd fsub time_at tool request (snd w)) as [r s1].
    destruct (Cache.get json_loads (key_of request) (fst w)) as [v |].
    + destruct (Cache.truthy json_truthy v); [eauto |].
      destruct (String.eqb _ _); eauto.
    + destruct (String.eqb _ _); eauto.
  - intros x Hmiss Htool.
    set (s1 := {| metrics := record_error (Py.str_of_exn x) (utc_reads (snd w))
                               (metrics (snd w));
                  time_reads := S (time_reads (snd w));
                  utc_reads := S (utc_reads (snd w));
                  inner_calls := S (inner_calls (snd w)) |}).
    assert (Hfirst : wrapped tool cache_ttl request w
                     = (inr (Cache.Response
                               (failure "MONITORED_TOOL_ERROR" (Py.str_of_exn x))),
                        (fst w, s1))).
    { rewrite (wrapped_miss tool cache_ttl request w Hmiss).
      unfold monitored_process_request. now rewrite Htool. }
    cbn zeta. rewrite Hfirst. cbn [fst snd].
    split; [reflexivity |]. split; [reflexivity |]. split; [reflexivity |].
    rewrite (wrapped_miss tool cache_ttl request (fst w, s1)) by exact Hmiss.
    cbn [fst snd].
    pose proof (monitored_step fadd fsub time_at tool request s1) as Hstep.
    destruct (monitored_process_request _ _ _ _ _ _) as [r s2].
    destruct Hstep as [Hi _]. cbn in Hi.
    now destruct (String.eqb _ _).
Qed.

(** The same request, sent [n] more times. *)
Lemma wrapped_hits_again tool cache_ttl request
    (w : world (F:=F) (Json:=Json) (T:=T)) r (n : nat) :
  Cache.get json_loads (key_of request) (fst w) = Some (Cache.Response r) ->
  Nat.iter n (fun w' => snd (wrapped tool cache_ttl request w')) w = w.
Proof.
  intros Hget. induction n as [| n IH]; [reflexivity |].
  rewrite Nat.iter_succ, IH. now rewrite (wrapped_hit _ _ _ _ _ Hget eq_refl).
Qed.

(** X12.  Monitoring sits inside the cache: a request answered from the
    cache reaches neither the tool nor the metrics.  After a request that
    missed the cache and succeeded, the same request sent any number of
    times more gets the same response, and the metrics still count one
    call. *)
Theorem cache_hits_are_not_monitored tool cache_ttl request
    (w : world (F:=F) (Json:=Json) (T:=T)) r (n : nat) :
  misses request (fst w) = true ->
  tool (inner_calls (snd w)) request = inr r ->
  String.eqb (status r) "success" = true ->
  let first := wrapped tool cache_ttl request w in
  let later := Nat.iter n (fun w' => snd (wrapped tool cache_ttl request w')) (snd first) in
  fst (wrapped tool cache_ttl request later) = inr (Cache.Response r)
  /\ total_calls (metrics (snd later)) = S (total_calls (metrics (snd w)))
  /\ inner_calls (snd later) = S (inner_calls (snd w)).
Proof.
  intros Hmiss Htool Hs. cbn zeta. rewrite (wrapped_miss tool cache_ttl request w Hmiss).
  unfold monitored_process_request. rewrite Htool, Hs. rewrite Hs. cbn [snd].
  match goal with |- context [Nat.iter n _ ?w1] => set (w1' := w1) end.
  assert (Hget : Cache.get json_loads (key_of request) (fst w1') = Some (Cache.Response r)).
  { subst w1'. cbn [fst]. apply CacheFacts.get_after_set. }
  rewrite (wrapped_hits_again _ _ _ _ _ n Hget).
  rewrite (wrapped_hit _ _ _ _ _ Hget eq_refl). now subst w1'.
Qed.

(** X13.  The cache key of a tool wrapped with the defaults names the class
    of the wrapper, [MonitoredTool], whatever tool is inside, and the
    cache is one for the process.  So a success cached for one wrapped
    tool answers the same request sent to any other wrapped tool, which
    is not called. *)
Theorem wrapped_tools_share_entries tool_a tool_b ttl_a ttl_b request
    (c : gmap string (Cache.stored F Json)) (s_a s_b : monitored T) r :
  misses request c = true ->
  tool_a (inner_calls s_a) request = inr r ->
  String.eqb (status r) "success" = true ->
  let first := wrapped tool_a ttl_a request (c, s_a) in
  wrapped tool_b ttl_b request (fst (snd first), s_b)
  = (inr (Cache.Response r), (fst (snd first), s_b)).
Proof.
  intros Hmiss Htool Hs. cbn zeta.
  rewrite (wrapped_miss tool_a ttl_a request (c, s_a)) by exact Hmiss.
  unfold monitored_process_request. cbn [snd fst]. rewrite Htool, Hs. rewrite Hs.
  cbn [fst snd]. apply wrapped_hit; [| reflexivity].
  cbn [fst]. apply CacheFacts.get_after_set.
Qed.

(** Without monitoring, [wrap_tool] is the [CachedTool] of the earlier
    model. *)
Lemma cached_only_is_process_request tool class_name cache_ttl request
    (w : Cache.world F Json) :
  cached_only_process_request json_loads json_truthy py_hash str_of_params
    tool class_name cache_ttl request (Cache.entries w, Cache.tool_calls w)
  = let res := Cache.process_request json_loads json_truthy tool class_name py_hash
                 str_of_params cache_ttl request w in
    (fst res, (Cache.entries (snd res), Cache.tool_calls (snd res))).
Proof.
  unfold cached_only_process_request, cached_process_request, memory_get,
    Cache.process_request, Cache.invoke. cbn [fst snd].
  destruct (Cache.get json_loads _ (Cache.entries w)) as [v |].
  - destruct (Cache.truthy json_truthy v); [reflexivity |].
    destruct (tool _ _) as [x | r]; [reflexivity |]. now destruct (String.eqb _ _).
  - destruct (tool _ _) as [x | r]; [reflexivity |]. now destruct (String.eqb _ _).
Qed.

End Wrap.
End WrappersFacts.

(** ** [RedisCache] *)

Module RedisFacts.
Import Mcp Redis.
#[local] Set Default Proof Using "Type".

Section Facts.
Context {F Json J : Type}.
Variable reachable : nat -> bool.
Variable decode : string -> option (Cache.cached F Json J).
Variable bytes_of : Cache.stored F Json -> string.
Variable json_truthy : J -> bool.
Variable tool : nat -> MCPRequest F -> Py.exn + MCPResponse F Json.
Variable class_name : string.
Variable py_hash : string -> Z.
Variable str_of_params : gmap string (pyval F) -> string.
Variable cache_ttl : Z.

#[local] Abbreviation process :=
  (process_request reachable decode bytes_of json_truthy tool class_name py_hash
     str_of_params cache_ttl).
#[local] Abbreviation key_of := (Cache.cache_key class_name py_hash str_of_params).

(** [set] sends nothing to the server. *)
Lemma set_stores_nothing key (value : MCPResponse F Json) expiry s :
  set reachable bytes_of key value expiry s = s.
Proof. reflexivity. Qed.

Lemma get_absent key s :
  data s !! key = None ->
  fst (get reachable decode key s) = None
  /\ data (snd (get reachable decode key s)) = data s.
Proof.
  intros Hkey. unfold get, redis_get. destruct (reachable (commands s)); cbn [fst snd].
  - now rewrite Hkey.
  - now split.
Qed.

Lemma process_absent request (w : server * nat) :
  data (fst w) !! key_of request = None ->
  data (fst (snd (process request w))) = data (fst w)
  /\ snd (snd (process request w)) = S (snd w)
  /\ fst (process request w)
     = match tool (snd w) request with
       | inr r => inr (Cache.Response r)
       | inl x => inl x
       end.
Proof.
  intros Hkey. unfold process_request, Wrappers.cached_process_request.
  destruct (get_absent _ _ Hkey) as [Hget Hdata].
  destruct (get reachable decode (key_of request) (fst w)) as [found s1].
  cbn [fst snd] in *. subst found.
  destruct (tool (snd w) request) as [x | r]; cbn [fst snd]; [auto |].
  destruct (String.eqb _ _); cbn [fst snd]; rewrite ?set_stores_nothing; auto.
Qed.

(** X14.  Under [RedisCache] no tool response is ever cached: the
    serialization of a response raises, the exception is logged, and
    nothing reaches the server.  A request whose key the server does not
    hold, sent [n] times, calls the tool [n] times and leaves the data of
    the server as it was. *)
Theorem redis_caches_no_response (request : MCPRequest F) (w : server * nat) (n : nat) :
  data (fst w) !! key_of request = None ->
  let w' := repeat_request reachable decode bytes_of json_truthy tool class_name
              py_hash str_of_params cache_ttl n request w in
  snd w' = (snd w + n)%nat /\ data (fst w') = data (fst w).
Proof.
  revert w. induction n as [| n IH]; intros w Hkey; cbn zeta.
  - cbn. split; [lia | reflexivity].
  - cbn [repeat_request].
    destruct (process_absent request w Hkey) as (Hdata & Hcalls & _).
    specialize (IH (snd (process request w))). cbn zeta in IH.
    rewrite Hdata, Hcalls in IH. destruct (IH Hkey) as [IH1 IH2].
    split; [lia | exact IH2].
Qed.

End Facts.
End RedisFacts.

Lemma cache_hits_are_not_monitored_witness :
  let first := SampleTools.wrapped SampleTools.capable
                 (Sample.zebrafish_request "tRNA-7") SampleTools.world0 in
  let later := Nat.iter 3
                 (fun w' => snd (SampleTools.wrapped SampleTools.capable
                                   (Sample.zebrafish_request "tRNA-7") w'))
                 (snd first) in
  fst (SampleTools.wrapped SampleTools.capable (Sample.zebrafish_request "tRNA-7") later)
  = inr (Cache.Response (Mcp.success Mcp.DataCapabilities))
  /\ Wrappers.total_calls (Wrappers.metrics (snd later)) = 1%nat
  /\ Wrappers.inner_calls (snd later) = 1%nat.
Proof.
  apply (WrappersFacts.cache_hits_are_not_monitored (fun _ => inr tt) (fun _ => true)
           Z.add Z.sub Z.of_nat (fun text => Z.of_nat (String.length text))
           (fun _ => "{}") SampleTools.capable 3600
           (Sample.zebrafish_request "tRNA-7") SampleTools.world0
           (Mcp.success Mcp.DataCapabilities) 3);
    vm_compute; reflexivity.
Defined.

Lemma wrapped_tools_share_entries_witness :
  let first := SampleTools.wrapped SampleTools.capable
                 (Sample.zebrafish_request "tRNA-7") SampleTools.world0 in
  SampleTools.wrapped SampleTools.searching (Sample.zebrafish_request "tRNA-7")
    (fst (snd first), Wrappers.fresh 0)
  = (inr (Cache.Response (Mcp.success Mcp.DataCapabilities)),
     (fst (snd first), Wrappers.fresh 0)).
Proof.
  apply (WrappersFacts.wrapped_tools_share_entries (fun _ => inr tt) (fun _ => true)
           Z.add Z.sub Z.of_nat (fun text => Z.of_nat (String.length text))
           (fun _ => "{}") SampleTools.capable SampleTools.searching 3600 3600
           (Sample.zebrafish_request "tRNA-7") ∅ (Wrappers.fresh 0) (Wrappers.fresh 0)
           (Mcp.success Mcp.DataCapabilities));
    vm_compute; reflexivity.
Defined.

Lemma redis_caches_no_response_witness :
  snd (SampleTools.redis_repeat 3 (Sample.zebrafish_request "tRNA-7")) = (0 + 3)%nat
  /\ Redis.data (fst (SampleTools.redis_repeat 3 (Sample.zebrafish_request "tRNA-7")))
     = Redis.data (fst (SampleTools.server0, 0%nat)).
Proof.
  apply (RedisFacts.redis_caches_no_response (fun _ => true) (fun _ => None)
           (fun _ => "") (fun _ : unit => true) SampleTools.capable "RNADatabaseMCP"
           (fun text => Z.of_nat (String.length text)) (fun _ => "{}") 3600
           (Sample.zebrafish_request "tRNA-7") (SampleTools.server0, 0%nat) 3).
  vm_compute; reflexivity.
Defined.

(** ** The events of a run of [chatbot.py] *)

Module ProtocolFacts.
Import Mcp Chatbot Gen GenFacts ChatbotFacts Protocol.
#[local] Set Default Proof Using "Type".

Section Facts.
Context {F Json : Type} `{PyFloat F}.
Variable json_get : Json -> string -> Py.exn + option Json.
Variable e : env F Json.
Variable session : context.
Variable model_name : string.
Variable max_loops : Z.
Variable message : string.

#[local] Abbreviation iteration := (Chatbot.iteration json_get e session model_name max_loops message).
#[local] Abbreviation planning_loop := (Chatbot.planning_loop json_get e session model_name max_loops message).

#[local] Instance loop_count_response_frame : ResponseFrame (@loop_count F Json).
Proof. split; reflexivity. Qed.
#[local] Instance loop_count_tool_frame : ToolFrame (@loop_count F Json).
Proof. split; try reflexivity. apply _. Qed.
Ltac keeps_step :=
  lazymatch goal with
  | |- keeps _ (Gen.ret _) => apply keeps_ret
  | |- keeps _ (Gen.lift _) => apply keeps_lift
  | |- keeps _ (Gen.gets _) => apply keeps_gets
  | |- keeps _ (Gen.bind _ _) => apply keeps_bind; [| intros ?]
  | |- keeps _ (Gen.modify _) => apply keeps_modify; intros ?
  | |- keeps _ (if ?x then _ else _) => destruct x
  | |- keeps _ (match ?x with _ => _ end) => destruct x
  end.

Ltac adds_step :=
  lazymatch goal with
  | |- adds _ _ (Gen.ret _) => apply adds_ret
  | |- adds _ _ (Gen.lift _) => apply adds_lift
  | |- adds _ _ (Gen.gets _) => apply adds_gets
  | |- adds _ _ (Gen.bind _ _) => apply adds_bind; [| intros ?]
  | |- adds _ _ (Gen.modify _) =>
      apply adds_keeps, keeps_modify; intros ?; reflexivity
  | |- adds _ _ utcnow => apply adds_keeps; intros ?; reflexivity
  | |- adds _ _ (call_rna _ _) =>
      let st := fresh "st" in
      apply adds_keeps; intros st; unfold call_rna; destruct (rna_tool _ _ _); reflexivity
  | |- adds _ _ (call_crap _ _) =>
      let st := fresh "st" in
      apply adds_keeps; intros st; unfold call_crap; destruct (crap_tool _ _ _); reflexivity
  | |- adds _ _ (yield_content _ _) => unfold yield_content
  | |- adds _ _ (yield_tool_error _) => unfold yield_tool_error
  | |- adds _ _ (if ?x then _ else _) => destruct x
  | |- adds _ _ (match ?x with _ => _ end) => destruct x
  end.

Lemma adds_yield_event (P : event F Json -> Prop) ev :
  P ev -> adds (@out F Json) P (yield ev).
Proof.
  intros Hev st. exists [ev]. split; [reflexivity | now constructor].
Qed.

Lemma tool_send_sequences seqs :
  adds (@out F Json) is_tool_event (send_sequences json_get seqs).
Proof.
  induction seqs as [| s seqs IH]; cbn [send_sequences];
    repeat first [apply IH | apply adds_yield_event; reflexivity | adds_step].
Qed.

(** The tool branches yield tool events only. *)
Lemma tool_dispatch plan_response :
  adds (@out F Json) is_tool_event (dispatch json_get e session plan_response).
Proof.
  unfold dispatch, run_get_trna, run_crap.
  repeat first [ apply tool_send_sequences | apply adds_yield_event; reflexivity | adds_step ].
Qed.

Lemma token_stream chunks full :
  adds (@out F Json) is_token (stream_tokens chunks full).
Proof.
  revert full. induction chunks as [| [[text |] | x] chunks IH]; intros full;
    cbn [stream_tokens];
    repeat first [apply IH | apply adds_yield_event; reflexivity | adds_step].
Qed.

Lemma update_chat_history_returns role response st :
  fst (_update_chat_history e session role response st) = inr tt.
Proof.
  unfold _update_chat_history, Gen.bind, Gen.modify.
  destruct (has_chat session); [| reflexivity].
  now destruct (create_message e _ _ _).
Qed.

(** The response phase: [start_response], tokens, and [end] unless an
    exception cut it short. *)
Lemma respond_shape model st res st' :
  respond e session model st = (res, st') ->
  exists t tokens,
    Forall is_token tokens
    /\ ((exists t',
           res = inr tt
           /\ out st' = (out st ++ mark_event "start_response" t
                           :: tokens ++ [mark_event "end" t'])%list)
        \/ (exists x,
              res = inl x
              /\ out st' = (out st ++ mark_event "start_response" t :: tokens)%list)).
Proof.
  unfold respond. unfold Gen.bind at 1.
  set (image := Gen.bind (Gen.gets next_message_image) _).
  assert (Hout : out (snd (image st)) = out st).
  { unfold image, Gen.bind, Gen.gets, Gen.modify, Gen.ret.
    now destruct (next_message_image st) as [[role url] |]. }
  assert (Hret : exists u, fst (image st) = inr u).
  { unfold image, Gen.bind, Gen.gets.
    destruct (next_message_image st) as [[role url] |]; cbn; eauto. }
  destruct Hret as [u Hu].
  destruct (image st) as [[x | u'] st0]; cbn [fst snd] in *; [discriminate |].
  unfold Gen.bind at 1, yield_mark at 1, Gen.bind at 1, utcnow, yield, Gen.modify.
  unfold Gen.bind at 1 2 3, Gen.gets, Gen.lift.
  destruct (completion e _ _ _) as [x | chunks].
  { intros [= <- <-]. exists (clock st0), []. split; [constructor |]. right. exists x.
    cbn. now rewrite Hout. }
  unfold Gen.bind at 1.
  match goal with |- context [stream_tokens chunks [] ?s] =>
    destruct (token_stream chunks [] s) as (tokens & Htok & Hall);
    destruct (stream_tokens chunks [] s) as [[x | full] st1] end;
    cbn [snd] in Htok; cbn in Htok.
  { intros [= <- <-]. exists (clock st0), tokens. split; [exact Hall |]. right. exists x.
    split; [reflexivity |]. now rewrite Htok, Hout, <- app_assoc. }
  unfold Gen.bind at 1.
  pose proof (update_chat_history_returns "assistant" (Py.join "" full) st1) as Hup.
  pose proof (out_update_chat_history e session "assistant" (Py.join "" full) st1) as Hupout.
  destruct (_update_chat_history e session "assistant" (Py.join "" full) st1)
    as [[x | []] st2]; cbn [fst snd] in *; [discriminate |].
  unfold yield_mark, Gen.bind, utcnow, yield, Gen.modify. intros [= <- <-].
  exists (clock st0), tokens. split; [exact Hall |]. left. exists (clock st2). cbn.
  split; [reflexivity |]. rewrite Hupout, Htok, Hout, <- !app_assoc. reflexivity.
Qed.

(** One pass: it asks for another after tool events only; it ends the
    loop after a whole response; it raises after tool events or inside
    the response. *)
Lemma iteration_cases st :
  match iteration st with
  | (inr Continue, st') =>
      (exists added, out st' = (out st ++ added)%list /\ Forall is_tool_event added)
      /\ loop_count st' = loop_count st + 1
      /\ loop_count st + 1 < max_loops
  | (inr Break, st') =>
      exists t tokens t',
        Forall is_token tokens
        /\ out st' = (out st ++ mark_event "start_response" t
                        :: tokens ++ [mark_event "end" t'])%list
  | (inl x, st') =>
      (exists added, out st' = (out st ++ added)%list /\ Forall is_tool_event added)
      \/ (exists t tokens,
            Forall is_token tokens
            /\ out st' = (out st ++ mark_event "start_response" t :: tokens)%list)
  end.
Proof.
  unfold Chatbot.iteration, Gen.bind at 1 2 3 4, Gen.gets, Gen.lift, plan.
  destruct (message_model e _) as [x | stored].
  { left. exists []. now rewrite app_nil_r. }
  destruct (get_next_step e _ _ _ _ _ _) as [x | plan_response].
  { left. exists []. cbn. now rewrite app_nil_r. }
  match goal with |- context [set_planning_calls ?n st] =>
    set (st1 := set_planning_calls n st) end.
  change (loop_count st1) with (loop_count st).
  destruct (_ || _) eqn:Elast.
  - unfold Gen.bind, Gen.ret.
    destruct (respond e session (choose_model model_name stored) st1)
      as [res st2] eqn:Er.
    destruct (respond_shape _ _ _ _ Er)
      as (t & tokens & Hall & [(t' & -> & Hout) | (x & -> & Hout)]).
    + exists t, tokens, t'. split; [exact Hall | exact Hout].
    + right. exists t, tokens. split; [exact Hall | exact Hout].
  - apply orb_false_iff in Elast as [Elast _]. apply Z.leb_gt in Elast.
    unfold Gen.bind at 1.
    destruct (tool_dispatch plan_response st1) as (added & Hadd & Hall).
    pose proof (keeps_dispatch json_get e session (@loop_count F Json) plan_response st1) as Hl.
    destruct (dispatch json_get e session plan_response st1) as [[x | u] st2];
      cbn [snd] in *.
    + left. exists added. split; [exact Hadd | exact Hall].
    + cbn. split; [exists added; split; [exact Hadd | exact Hall] |].
      split; [rewrite Hl; reflexivity | lia].
Qed.

(** The loop: tool events, then nothing (the loop ended by its condition
    before any pass, ran out of fuel, or raised), or a response. *)
Lemma planning_loop_shape fuel st :
  exists tools,
    Forall is_tool_event tools
    /\ ((out (snd (planning_loop fuel st)) = (out st ++ tools)%list
         /\ ((exists x, fst (planning_loop fuel st) = inl x)
             \/ fst (planning_loop fuel st) = inr false
             \/ (fst (planning_loop fuel st) = inr true
                 /\ ~ loop_count st < max_loops)))
        \/ (exists t tokens,
              Forall is_token tokens
              /\ ((exists t',
                     fst (planning_loop fuel st) = inr true
                     /\ out (snd (planning_loop fuel st))
                        = (out st ++ tools ++ mark_event "start_response" t
                             :: tokens ++ [mark_event "end" t'])%list)
                  \/ (exists x,
                        fst (planning_loop fuel st) = inl x
                        /\ out (snd (planning_loop fuel st))
                           = (out st ++ tools ++ mark_event "start_response" t
                                :: tokens)%list)))).
Proof.
  revert st. induction fuel as [| fuel IH]; intros st; cbn [Chatbot.planning_loop].
  - exists []. split; [constructor |]. left. rewrite app_nil_r.
    destruct (loop_count st <? max_loops) eqn:Elt; cbn [fst snd]; split; auto.
    apply Z.ltb_ge in Elt. right. right. split; [reflexivity | lia].
  - destruct (loop_count st <? max_loops) eqn:Elt.
    2:{ exists []. split; [constructor |]. left. rewrite app_nil_r. cbn [fst snd].
        split; [reflexivity |]. apply Z.ltb_ge in Elt. right. right.
        split; [reflexivity | lia]. }
    pose proof (iteration_cases st) as Hit.
    destruct (iteration st) as [[x | [|]] st'].
    + destruct Hit as [(added & Hadd & Hall) | (t & tokens & Hall & Hout)].
      * exists added. split; [exact Hall |]. left. cbn [fst snd]. eauto.
      * exists []. split; [constructor |]. right. exists t, tokens.
        split; [exact Hall |]. right. exists x. cbn [fst snd app]. auto.
    + destruct Hit as ((added & Hadd & Hall) & Hl & Hnext).
      destruct (IH st') as (tools & Htools & Hcases).
      exists (added ++ tools)%list. split; [now apply Forall_app |].
      rewrite Hadd in Hcases. rewrite <- !app_assoc in Hcases.
      destruct Hcases as [[Hout [Hx | [Hf | [_ Hnot]]]] | Hresp].
      * left. rewrite <- ?app_assoc. auto.
      * left. rewrite <- ?app_assoc. auto.
      * exfalso. apply Hnot. lia.
      * right. destruct Hresp as (t & tokens & Hall' & Hresp). exists t, tokens.
        split; [exact Hall' |].
        destruct Hresp as [(t' & Hb & Hout) | (x & Hx & Hout)].
        -- left. exists t'. split; [exact Hb |]. rewrite Hout, <- !app_assoc. reflexivity.
        -- right. exists x. split; [exact Hx |]. rewrite Hout, <- !app_assoc. reflexivity.
    + destruct Hit as (t & tokens & t' & Hall & Hout).
      exists []. split; [constructor |]. right. exists t, tokens.
      split; [exact Hall |]. left. exists t'. cbn [fst snd app]. auto.
Qed.

(** The events of a run, in their order. *)
Lemma run_shape :
  exists tools resp,
    out (Chatbot.process_message json_get e session model_name max_loops message)
    = (tools ++ resp)%list
    /\ Forall is_tool_event tools
    /\ response_part resp
    /\ (1 <= max_loops -> resp <> []).
Proof.
  unfold Chatbot.process_message, handle.
  pose proof process_message_fuel json_get e session model_name max_loops message as Hfuel.
  unfold Gen.bind in *.
  pose proof (keeps_prelude e session (@loop_count F Json) (fun _ _ => eq_refl) initial) as Hl.
  assert (Ho : out (snd (prelude e session initial)) = []).
  { unfold prelude, Gen.bind, Gen.modify, Gen.lift, Gen.ret.
    destruct (has_chat session); [| reflexivity].
    destruct (recent_history e) as [x | history]; [reflexivity |].
    now destruct (2 <=? length history)%nat. }
  destruct (prelude e session initial) as [[x | u] st]; cbn [fst snd] in *.
  { exists [], [[("type", JStr "error"); ("error", JStr (Py.str_of_exn x));
                 ("timestamp", JTime (clock st))]].
    cbn. rewrite Ho. split; [reflexivity |]. split; [constructor |].
    split; [now constructor | discriminate]. }
  destruct (planning_loop_shape (Z.to_nat max_loops) st) as (tools & Htools & Hcases).
  rewrite Ho in Hcases. cbn [app] in Hcases.
  destruct (planning_loop (Z.to_nat max_loops) st) as [[x | b] final];
    cbn [fst snd] in *.
  - destruct Hcases as [[Hout _] | (t & tokens & Hall & [(t' & Hb & _) | (x' & _ & Hout)])];
      [| discriminate |].
    + exists tools, [[("type", JStr "error"); ("error", JStr (Py.str_of_exn x));
                      ("timestamp", JTime (clock final))]].
      cbn. rewrite Hout. split; [reflexivity |]. split; [exact Htools |].
      split; [now constructor | discriminate].
    + exists tools, (mark_event "start_response" t
                       :: tokens ++ [[("type", JStr "error");
                                      ("error", JStr (Py.str_of_exn x));
                                      ("timestamp", JTime (clock final))]])%list.
      cbn. rewrite Hout. split; [now rewrite <- app_assoc |].
      split; [exact Htools |]. split; [| discriminate].
      apply streamed; [exact Hall | right; reflexivity].
  - destruct Hcases as [[Hout [[x Hx] | [Hf | [_ Hnot]]]] | (t & tokens & Hall & [(t' & _ & Hout) | (x & Hx & _)])];
      try discriminate.
    + injection Hf as ->. contradiction.
    + exists tools, []. rewrite app_nil_r. split; [exact Hout |].
      split; [exact Htools |]. split; [constructor |].
      intros Hmax. exfalso. apply Hnot. rewrite Hl. cbn. lia.
    + exists tools, (mark_event "start_response" t :: tokens ++ [mark_event "end" t'])%list.
      split; [exact Hout |]. split; [exact Htools |]. split; [| discriminate].
      apply streamed; [exact Hall | left; now exists t'].
Qed.

(** X15.  The events of a run of [chatbot.py] read, in order: tool events
    ([tool_start], [tool_progress], [sequence_data], the [error] of a
    tool failure); then nothing, or the [error] of the handler, or
    [start_response] followed by [token] events and closed by [end] or by
    the [error] of the handler.  There is at most one response and at
    most one error of the handler, and nothing follows either [end] or
    that error.  With a loop maximum of at least one, the part after the
    tool events is never empty: every run ends with [end] or with the
    error of the handler. *)
Theorem run_events_follow_the_protocol :
  exists tools resp,
    out (Chatbot.process_message json_get e session model_name max_loops message)
    = (tools ++ resp)%list
    /\ Forall is_tool_event tools
    /\ response_part resp
    /\ (1 <= max_loops -> resp <> []).
Proof.
  destruct run_shape as (tools & resp & Hout & Htools & Hresp & Hne).
  exists tools, resp. auto.
Qed.

#[local] Instance crap_requests_response_frame : ResponseFrame (@crap_requests F Json).
Proof. split; reflexivity. Qed.

Lemma crap_parse_returns (plan_response : string) :
  exists parsed : gmap string (pyval F),
    Directive.parse Directive.crap_key plan_response = inr parsed.
Proof.
  destruct (DirectiveMoreFacts.crap_parts (F:=F) ∅ (tail (Py.split plan_response)))
    as (d & Hd & _); [apply map_Forall_empty |].
  now exists d.
Qed.

(** X16.  The CRAP branch reads the number of sequences of the previous
    tool result before it calls the genome browser.  So the browser is
    called exactly when the last tool result of the run is a search
    result: as the first directive of a run, after a search that failed,
    and after another CRAP directive, the branch raises and the browser
    receives nothing. *)
Theorem crap_needs_a_search_result (plan_response : string) (st : state F Json) :
  exists parsed,
    Directive.parse Directive.crap_key plan_response = inr parsed
    /\ crap_requests (snd (run_crap e session plan_response st))
       = (if holds_search_result (result st)
          then crap_requests st
                 ++ [{| method := "view_region";
                        params := <["context" := VContext session]> parsed |}]
          else crap_requests st)%list
    /\ (holds_search_result (result st) = false ->
        exists x, run_crap e session plan_response st = (inl x, st)).
Proof.
  destruct (crap_parse_returns plan_response) as [parsed Hparsed].
  exists parsed. split; [exact Hparsed |].
  unfold run_crap.
  rewrite (bind_returns _ _ st parsed st) by (unfold Gen.lift; now rewrite Hparsed).
  rewrite (bind_returns _ _ st (result st) st) by reflexivity.
  unfold holds_search_result, previous_sequences.
  destruct (result st) as [r |];
    [| rewrite (bind_raises _ _ st (Py.UnboundLocalError "result") st) by reflexivity;
       split; [reflexivity | eauto]].
  destruct (data_of r) as [[seqs n q | s | | g] |];
    try (erewrite (bind_raises _ _ st _ st) by reflexivity; split; [reflexivity | eauto]).
  split; [| discriminate].
  erewrite (bind_returns _ _ st (length seqs) st) by reflexivity.
  erewrite (bind_returns (yield_content _ _) _ st tt) by reflexivity.
  erewrite (bind_returns (yield_content _ _) _ _ tt) by reflexivity.
  match goal with |- context [Gen.bind (call_crap e ?req) ?k ?s] =>
    set (s2 := s); set (k2 := k);
    assert (Hs2 : crap_requests s2 = crap_requests st) by reflexivity
  end.
  unfold Gen.bind, call_crap. rewrite Hs2.
  destruct (crap_tool e _ _) as [x | r'] eqn:Etool; [reflexivity |].
  assert (Hk : keeps (@crap_requests F Json) (k2 r')).
  { unfold k2. destruct (String.eqb _ _).
    - repeat first [ apply (keeps_yield_content (@crap_requests F Json))
                   | reflexivity | keeps_step ].
    - unfold yield_tool_error.
      repeat first [apply (keeps_yield (@crap_requests F Json)) | keeps_step]. }
  now rewrite Hk.
Qed.

(** The loop over the sequences of a result, when the three reads of
    each one raise nothing. *)
Lemma send_sequences_effects seqs (st : state F Json) :
  Forall (fun s => read_filtered json_get s = inr tt) seqs ->
  exists st',
    send_sequences json_get seqs st = (inr tt, st')
    /\ out st' = (out st ++ map sequence_event seqs)%list
    /\ accumulated_data st' = (accumulated_data st ++ map AccSeq seqs)%list
    /\ result st' = result st
    /\ rna_requests st' = rna_requests st.
Proof.
  intros Hall. revert st. induction Hall as [| s seqs Hs _ IH]; intros st.
  - exists st. cbn. now rewrite !app_nil_r.
  - cbn [send_sequences].
    erewrite (bind_returns (yield _) _ st tt) by reflexivity.
    erewrite (bind_returns (Gen.lift _) _ _ tt) by (unfold Gen.lift; now rewrite Hs).
    erewrite (bind_returns (Gen.modify _) _ _ tt) by reflexivity.
    match goal with |- context [send_sequences json_get seqs ?s1] =>
      destruct (IH s1) as (st' & Hrun & Hout & Hacc & Hres & Hreq) end.
    exists st'. split; [exact Hrun |]. cbn in Hout, Hacc, Hres, Hreq.
    rewrite Hout, Hacc, <- !app_assoc. auto.
Qed.

(** X17.  A GET_TRNA directive whose search succeeds yields [tool_start]
    and then one [sequence_data] event for each record returned, in
    order; the records join the accumulated data as they are, unfiltered;
    and the summary for the planner is replaced by that of this search. *)
Theorem get_trna_success_effects (plan_response : string)
    (parsed : gmap string (pyval F)) (st : state F Json) (r : MCPResponse F Json)
    (seqs : list (seq_record F Json)) (count : nat) (query : gmap string (pyval F)) :
  Directive.parse Directive.chatbot_key plan_response = inr parsed ->
  rna_tool e (length (rna_requests st))
    {| method := "search_rna"; params := <["context" := VContext session]> parsed |}
  = inr r ->
  status r = "success" ->
  data_of r = Some (DataSearch seqs count query) ->
  Forall (fun s => read_filtered json_get s = inr tt) seqs ->
  exists st',
    run_get_trna json_get e session plan_response st = (inr tt, st')
    /\ out st'
       = (out st
          ++ content_event "tool_start" "Searching for tRNA sequences..." (clock st)
             :: map sequence_event seqs)%list
    /\ accumulated_data st' = (accumulated_data st ++ map AccSeq seqs)%list
    /\ data_summary st' = sequences_summary seqs
    /\ result st' = Some r.
Proof.
  intros Hparsed Htool Hstatus Hdata Hall. unfold run_get_trna.
  rewrite (bind_returns _ _ st parsed st) by (unfold Gen.lift; now rewrite Hparsed).
  erewrite (bind_returns (yield_content _ _) _ st tt) by reflexivity.
  erewrite (bind_returns (call_rna _ _) _ _ r)
    by (unfold call_rna; cbn [rna_requests set_out set_clock]; now rewrite Htool).
  erewrite (bind_returns (Gen.lift _) _ _ (Some seqs))
    by (unfold Gen.lift, found_sequences; now rewrite Hstatus, Hdata).
  cbn beta iota.
  match goal with |- context [Gen.bind (send_sequences json_get seqs) _ ?s1] =>
    destruct (send_sequences_effects seqs s1 Hall)
      as (st1 & Hrun & Hout & Hacc & Hres & _) end.
  erewrite (bind_returns (send_sequences _ _) _ _ tt) by exact Hrun.
  eexists. split; [reflexivity |]. cbn in Hout, Hacc, Hres |- *.
  rewrite Hout, Hacc, Hres, <- app_assoc. auto.
Qed.

End Facts.
End ProtocolFacts.

Lemma get_trna_success_effects_witness :
  exists st',
    Chatbot.run_get_trna (fun _ _ => inr None) (Sample.chatbot_env [Sample.limit_2])
      Sample.session Sample.limit_2 (Sample.chatbot_start [Sample.limit_2])
    = (inr tt, st')
    /\ Chatbot.out st'
       = (Chatbot.out (Sample.chatbot_start [Sample.limit_2])
          ++ Chatbot.content_event "tool_start" "Searching for tRNA sequences..."
               (Chatbot.clock (Sample.chatbot_start [Sample.limit_2]))
             :: map Chatbot.sequence_event [Sample.sample_record 0; Sample.sample_record 1])%list
    /\ Chatbot.accumulated_data st'
       = (Chatbot.accumulated_data (Sample.chatbot_start [Sample.limit_2])
          ++ map Chatbot.AccSeq [Sample.sample_record 0; Sample.sample_record 1])%list
    /\ Chatbot.data_summary st'
       = Chatbot.sequences_summary [Sample.sample_record 0; Sample.sample_record 1]
    /\ Chatbot.result st'
       = Some (Mcp.success
                 (Mcp.DataSearch [Sample.sample_record 0; Sample.sample_record 1] 2
                    (<["context" := Mcp.VContext Sample.session]>
                       {["limit" := Mcp.VInt 2]}))).
Proof.
  apply (ProtocolFacts.get_trna_success_effects (fun _ _ => inr None)
           (Sample.chatbot_env [Sample.limit_2]) Sample.session Sample.limit_2
           {["limit" := Mcp.VInt 2]} (Sample.chatbot_start [Sample.limit_2])
           _ [Sample.sample_record 0; Sample.sample_record 1] 2
           (<["context" := Mcp.VContext Sample.session]> {["limit" := Mcp.VInt 2]}));
    try (vm_compute; reflexivity).
  repeat constructor.
Defined.

(** ** More on the orchestrator of [processor.py] *)

Module ProcessorMoreFacts.
Import Mcp Processor Gen GenFacts ProcessorFacts.
#[local] Set Default Proof Using "Type".

Section Facts.
Context {F Json : Type} `{PyFloat F}.
Variable json_get : Json -> string -> Py.exn + option Json.
Variable json_dumps : list (filtered F Json) -> string.
Variable e : env F Json.
Variable request : context.
Variable message_content : string.
Variable chat_history : list (string * string).
Variable max_loops : Z.

#[local] Abbreviation stream_response :=
  (Processor.stream_response e message_content chat_history).
#[local] Abbreviation after_planning :=
  (Processor.after_planning json_dumps e message_content chat_history).

Ltac keeps_step :=
  lazymatch goal with
  | |- keeps _ (Gen.ret _) => apply keeps_ret
  | |- keeps _ (Gen.lift _) => apply keeps_lift
  | |- keeps _ (Gen.gets _) => apply keeps_gets
  | |- keeps _ (Gen.bind _ _) => apply keeps_bind; [| intros ?]
  | |- keeps _ (Gen.modify _) => apply keeps_modify; intros ?
  | |- keeps _ (if ?x then _ else _) => destruct x
  | |- keeps _ (match ?x with _ => _ end) => destruct x
  | |- keeps _ (yield_content _ _) => unfold yield_content
  | |- keeps _ (yield_mark _) => unfold yield_mark
  | |- keeps _ (yield _) => unfold yield
  end.

Ltac adds_step :=
  lazymatch goal with
  | |- adds _ _ (Gen.ret _) => apply adds_ret
  | |- adds _ _ (Gen.lift _) => apply adds_lift
  | |- adds _ _ (Gen.gets _) => apply adds_gets
  | |- adds _ _ (Gen.bind _ _) => apply adds_bind; [| intros ?]
  | |- adds _ _ (Gen.modify _) =>
      apply adds_keeps, keeps_modify; intros ?; reflexivity
  | |- adds _ _ (if ?x then _ else _) => destruct x
  | |- adds _ _ (match ?x with _ => _ end) => destruct x
  end.

(** The response phase changes what has been yielded and the clock, and
    nothing else. *)
Lemma stream_response_frame {X} (f : state F Json -> X) data :
  (forall v st, f (set_out v st) = f st) ->
  (forall v st, f (set_clock v st) = f st) ->
  keeps f (stream_response data).
Proof.
  intros Hout Hclock.
  assert (Hnow : keeps f utcnow) by (intros st; apply Hclock).
  assert (Htok : forall chunks, keeps f (stream_tokens chunks)).
  { induction chunks as [| [text | x] chunks IH]; cbn [stream_tokens];
      repeat first [apply IH | apply Hnow | apply Hout | keeps_step]. }
  intros st. unfold Processor.stream_response.
  match goal with |- context [Gen.bind ?m ?k st] =>
    assert (Hk : keeps f (Gen.bind m k)) end.
  { repeat first [apply Htok | apply Hnow | apply Hout | keeps_step]. }
  specialize (Hk st).
  destruct (Gen.bind _ _ st) as [[x | u] st']; cbn [snd] in *; [| exact Hk].
  rewrite <- Hk. clear Hk. revert st'.
  change (keeps f (yield_content "error"
                     ("Error generating response: " ++ Py.str_of_exn x))).
  repeat first [apply Hnow | apply Hout | keeps_step].
Qed.

Lemma stream_response_returns data st : fst (stream_response data st) = inr tt.
Proof.
  unfold Processor.stream_response.
  destruct (Gen.bind _ _ st) as [[x | []] st']; reflexivity.
Qed.

(** X18.  The response phase of [processor.py] never raises: an exception
    of the language model becomes an [error] event.  So the saving that
    follows takes place all the same: with tool data accumulated and a
    store that accepts the message, the run saves the text of the tool
    data whether the response was streamed or failed. *)
Theorem stream_failure_is_contained (st : state F Json) d ds chat :
  accumulated_data st = d :: ds ->
  get_chat e (chat_reads st) = inr chat ->
  create_message e (json_dumps (d :: ds)) "assistant" = inr tt ->
  fst (stream_response (d :: ds) st) = inr tt
  /\ fst (after_planning st) = inr tt
  /\ messages_created (snd (after_planning st))
     = (messages_created st ++ [("assistant", json_dumps (d :: ds))])%list.
Proof.
  intros Hdata Hchat Hcreate. split; [apply stream_response_returns |].
  pose proof (stream_response_returns (d :: ds) st) as Hret.
  pose proof (stream_response_frame (@accumulated_data F Json) (d :: ds)
                (fun _ _ => eq_refl) (fun _ _ => eq_refl) st) as Hacc.
  pose proof (stream_response_frame (@chat_reads F Json) (d :: ds)
                (fun _ _ => eq_refl) (fun _ _ => eq_refl) st) as Hreads.
  pose proof (stream_response_frame (@messages_created F Json) (d :: ds)
                (fun _ _ => eq_refl) (fun _ _ => eq_refl) st) as Hmsg.
  assert (Hrun : exists st2,
             after_planning st = (inr tt, st2)
             /\ messages_created st2
                = (messages_created st ++ [("assistant", json_dumps (d :: ds))])%list).
  { unfold Processor.after_planning.
    rewrite (bind_returns _ _ st (accumulated_data st) st) by reflexivity.
    rewrite Hdata.
    destruct (Processor.stream_response e message_content chat_history (d :: ds) st)
      as [[x | []] st1] eqn:Hs; cbn [fst snd] in *; [discriminate |].
    rewrite (bind_returns _ _ st tt st1) by exact Hs.
    unfold save_response.
    rewrite (bind_returns _ _ st1 (accumulated_data st1) st1) by reflexivity.
    rewrite Hacc, Hdata.
    unfold Gen.bind, read_chat, Gen.lift, Gen.modify.
    rewrite Hreads, Hchat, Hcreate. cbn. eexists. split; [reflexivity |].
    cbn. now rewrite Hmsg. }
  destruct Hrun as (st2 & -> & Hsaved). split; [reflexivity | exact Hsaved].
Qed.

(** X19.  The messages that [stream_response] sends to the language model:
    at most six of the history, none of them blank, in their order, and
    then the input of the user, always last. *)
Theorem prompt_messages_shape :
  exists history,
    prompt_messages message_content chat_history
    = (history ++ [("user", message_content)])%list
    /\ (length history <= 6)%nat
    /\ history `sublist_of` chat_history
    /\ Forall (fun m => Py.is_empty (Py.rstrip_space (Py.lstrip_space (snd m))) = false)
         history.
Proof.
  unfold prompt_messages. eexists. split; [reflexivity |].
  split; [| split].
  - etransitivity; [apply length_filter |].
    rewrite length_drop. lia.
  - etransitivity; [apply sublist_filter | apply sublist_drop].
  - apply Forall_forall. intros m Hm. apply list_elem_of_filter in Hm as [Hm _].
    exact Hm.
Qed.


(** X20.  A run of [processor.py] opens with the [start] event that names
    the chat.  When the chat cannot be read the run yields one event
    only, the error, and calls neither the planner nor a tool. *)
Theorem run_opens_with_start :
  let final := Processor.process_message json_get json_dumps e request
                 message_content chat_history max_loops in
  match get_chat e 0 with
  | inr chat =>
      exists t rest,
        out final
        = [("type", JStr "start"); ("chat", JChat (fst chat) (snd chat));
           ("timestamp", JTime t)] :: rest
  | inl x =>
      (exists t, out final = [content_event "error" ("Error: " ++ Py.str_of_exn x) t])
      /\ planning_calls final = 0%nat /\ rna_requests final = []
  end.
Proof.
  intros final. subst final. unfold Processor.process_message, body.
  destruct (get_chat e 0) as [x | chat] eqn:Hchat.
  - erewrite bind_raises
      by (unfold read_chat; cbn [chat_reads initial]; rewrite Hchat; reflexivity).
    cbn. split; [eexists; reflexivity | split; reflexivity].
  - erewrite bind_returns
      by (unfold read_chat; cbn [chat_reads initial]; rewrite Hchat; reflexivity).
    match goal with |- context [Gen.bind ?m ?k] => set (start := m); set (rest := k) end.
    destruct (start (set_chat_reads 1 initial)) as [r0 st0] eqn:Hstart.
    assert (Hst0 : r0 = inr tt /\ exists t, out st0
               = [[("type", JStr "start"); ("chat", JChat (fst chat) (snd chat));
                   ("timestamp", JTime t)]]).
    { subst start. cbn in Hstart. inversion Hstart; subst.
      split; [reflexivity | eexists; reflexivity]. }
    destruct Hst0 as (-> & t & Hout0).
    erewrite bind_returns by exact Hstart.
    assert (Hrest : adds (@out F Json) stamped (rest tt)).
    { subst rest. cbn beta.
      repeat first
        [ apply stamped_planning_loop | apply stamped_after_planning | adds_step ]. }
    destruct (Hrest st0) as (l1 & H1 & _).
    destruct (rest tt st0) as [[x | u] st]; cbn [snd] in *.
    + destruct (stamped_yield_content "error" ("Error: " ++ Py.str_of_exn x) st)
        as (l2 & H2 & _).
      rewrite H2, H1, Hout0. cbn. eauto.
    + rewrite H1, Hout0. cbn. eauto.
Qed.

End Facts.
End ProcessorMoreFacts.

Lemma stream_failure_is_contained_witness :
  fst (Processor.after_planning Sample.sample_dumps
         (SampleFailure.failing_stream_env [Sample.limit_2]) "query"
         [("user", "hi"); ("assistant", "hello")]
         (SampleFailure.after_loop [Sample.limit_2])) = inr tt
  /\ Processor.messages_created
       (snd (Processor.after_planning Sample.sample_dumps
               (SampleFailure.failing_stream_env [Sample.limit_2]) "query"
               [("user", "hi"); ("assistant", "hello")]
               (SampleFailure.after_loop [Sample.limit_2])))
     = [("assistant", "[tRNA-0, tRNA-1]")].
Proof.
  refine (proj2
    (ProcessorMoreFacts.stream_failure_is_contained Sample.sample_dumps
       (SampleFailure.failing_stream_env [Sample.limit_2]) "query"
       [("user", "hi"); ("assistant", "hello")]
       (SampleFailure.after_loop [Sample.limit_2])
       (SampleFailure.filtered_record 0) [SampleFailure.filtered_record 1]
       ("chat-1", "A chat") _ _ _)).
  - vm_compute; reflexivity.
  - reflexivity.
  - reflexivity.
Defined.

(** ** The annotated sequence of [genome_browser.py] *)

Module BrowserFacts.
Import Browser.
#[local] Set Default Proof Using "Type".

(** *** The stable sort *)

Section Sort.
Context {A : Type}.
Variable lt : A -> A -> bool.

Lemma insort_perm x l : Permutation (insort lt x l) (x :: l).
Proof.
  induction l as [| y l IH]; cbn; [reflexivity |].
  destruct (lt y x); [| reflexivity].
  rewrite IH. apply perm_swap.
Qed.

Lemma sorted_perm l : Permutation (sorted lt l) l.
Proof.
  induction l as [| x l IH]; cbn; [reflexivity |].
  unfold sorted in *. rewrite insort_perm. now constructor.
Qed.

Hypothesis lt_asym : forall x y, lt x y = true -> lt y x = false.
Hypothesis ge_trans :
  forall x y z, lt y x = false -> lt z y = false -> lt z x = false.

Lemma insort_sorted x l :
  StronglySorted (fun a b => lt b a = false) l ->
  StronglySorted (fun a b => lt b a = false) (insort lt x l).
Proof using lt_asym ge_trans.
  induction 1 as [| y l Hl IH Hy]; cbn.
  - repeat constructor.
  - destruct (lt y x) eqn:Hyx.
    + constructor; [exact IH |].
      eapply Permutation_Forall; [symmetry; apply insort_perm |].
      constructor; [now apply lt_asym | exact Hy].
    + constructor; [now constructor |].
      constructor; [exact Hyx |].
      eapply Forall_impl; [exact Hy |].
      intros z Hz. cbn in Hz. now apply (ge_trans x y z).
Qed.

Lemma sorted_sorted l : StronglySorted (fun a b => lt b a = false) (sorted lt l).
Proof using lt_asym ge_trans.
  induction l as [| x l IH]; cbn; [constructor |].
  now apply insort_sorted.
Qed.

End Sort.

Lemma sorted_weaken {A} (R R' : A -> A -> Prop) l :
  (forall x y, R x y -> R' x y) -> StronglySorted R l -> StronglySorted R' l.
Proof.
  intros HR. induction 1 as [| x l Hl IH Hx]; constructor; [exact IH |].
  eapply Forall_impl; [exact Hx | auto].
Qed.

(** The annotations are sorted by their position. *)
Lemma annotations_by_position (l : list (Z * string)) :
  StronglySorted (fun x y => fst x <= fst y) (sorted annotation_lt l).
Proof.
  eapply sorted_weaken; [| apply (sorted_sorted annotation_lt)].
  - intros x y Hlt. cbn in Hlt. unfold annotation_lt in Hlt.
    apply orb_false_iff in Hlt as [Hlt _]. lia.
  - intros x y. unfold annotation_lt.
    destruct (Py.startswith (snd x) "|"), (Py.startswith (snd y) "|"); cbn; lia.
  - intros x y z. unfold annotation_lt.
    destruct (Py.startswith (snd x) "|"), (Py.startswith (snd y) "|"),
      (Py.startswith (snd z) "|"); cbn; lia.
Qed.


(** *** [add_feature] *)

Section Annotated.
Context {F : Type} `{Mcp.PyFloat F}.

Lemma add_feature_clips (f : Feature F) (a : AnnotatedSequence F) :
  add_feature f a
  = if covers (sequence a) (region_start a) f
    then {| sequence := sequence a; region_start := region_start a;
            features := (features a
                         ++ [clip (sequence a) (region_start a) f])%list |}
    else a.
Proof.
  unfold add_feature, covers, clip.
  set (n := len (sequence a)). set (rs := region_start a).
  destruct (Z.max (feat_start f) rs <? Z.min (feat_end f) (rs + n)) eqn:Hc.
  - apply Z.ltb_lt in Hc.
    replace ((Z.max 0 (feat_start f - rs) <? n)
             && (Z.min n (feat_end f - rs) >? Z.max 0 (feat_start f - rs)))
      with true.
    + assert (Hs : Z.max 0 (feat_start f - rs) = Z.max (feat_start f) rs - rs) by lia.
      assert (He : Z.min n (feat_end f - rs)
                   = Z.min (feat_end f) (rs + n) - rs) by lia.
      now rewrite Hs, He.
    + symmetry. apply andb_true_iff. rewrite Z.ltb_lt, Z.gtb_ltb, Z.ltb_lt. lia.
  - apply Z.ltb_ge in Hc.
    replace ((Z.max 0 (feat_start f - rs) <? n)
             && (Z.min n (feat_end f - rs) >? Z.max 0 (feat_start f - rs)))
      with false; [reflexivity |].
    symmetry. apply andb_false_iff. rewrite Z.ltb_ge, Z.gtb_ltb, Z.ltb_ge. lia.
Qed.

Lemma add_features_clips (fs : list (Feature F)) (a : AnnotatedSequence F) :
  sequence (add_features fs a) = sequence a
  /\ region_start (add_features fs a) = region_start a
  /\ features (add_features fs a)
     = (features a
        ++ map (clip (sequence a) (region_start a))
             (List.filter (covers (sequence a) (region_start a)) fs))%list.
Proof.
  revert a. induction fs as [| f fs IH]; intros a; cbn.
  - now rewrite app_nil_r.
  - destruct (IH (add_feature f a)) as (Hs & Hr & Hf).
    unfold add_features in *. rewrite Hs, Hr, Hf, add_feature_clips.
    destruct (covers (sequence a) (region_start a) f); cbn.
    + now rewrite <- app_assoc.
    + easy.
Qed.

Lemma clip_within sequence region_start (f : Feature F) :
  covers sequence region_start f = true ->
  let '(s, e, _) := clip sequence region_start f in
  0 <= s < e /\ e <= len sequence.
Proof. unfold covers, clip. rewrite Z.ltb_lt. lia. Qed.

(** X21.  An annotated sequence keeps the features that cover a part of
    its region (the region starts at [region_start] and is as long as
    the sequence), in the order in which they are added, each with the
    part it covers, counted from the start of the region: a span that
    is not empty and lies within the sequence.  The others are
    dropped. *)
Theorem stored_features_are_clipped (sequence : string) (region_start : Z)
    (fs : list (Feature F)) :
  features (add_features fs (new sequence region_start))
  = map (clip sequence region_start)
      (List.filter (covers sequence region_start) fs)
  /\ Forall (fun x => let '(s, e, f) := x in
               0 <= s < e /\ e <= len sequence
               /\ s = Z.max (feat_start f) region_start - region_start
               /\ e = Z.min (feat_end f) (region_start + len sequence)
                      - region_start)
       (features (add_features fs (new sequence region_start))).
Proof.
  destruct (add_features_clips fs (new sequence region_start)) as (_ & _ & Hf).
  cbn in Hf. rewrite Hf. split; [reflexivity |].
  apply Forall_forall. intros x Hx.
  apply list_elem_of_In, in_map_iff in Hx as (f & <- & Hin).
  apply filter_In in Hin as [_ Hc].
  pose proof (clip_within sequence region_start f Hc) as Hw.
  unfold clip in *. lia.
Qed.

(** *** [format_sequence] *)


Lemma render_bases s ps : render (base_pieces s ++ ps) = s ++ render ps.
Proof.
  induction s as [| c s IH]; [reflexivity |].
  rewrite RnaDbFacts.append_cons, <- IH. reflexivity.
Qed.

Lemma bases_bases s ps : bases (base_pieces s ++ ps) = s ++ bases ps.
Proof.
  induction s as [| c s IH]; [reflexivity |].
  rewrite RnaDbFacts.append_cons, <- IH. reflexivity.
Qed.

Lemma placed_bases s n ps :
  placed_from n (base_pieces s ++ ps) = placed_from (n + len s) ps.
Proof.
  revert n. induction s as [| c s IH]; intros n; cbn.
  - f_equal. unfold len. cbn. lia.
  - unfold base_pieces in IH. rewrite IH. f_equal. unfold len. cbn [String.length]. lia.
Qed.

Lemma len_app s t : len (s ++ t) = len s + len t.
Proof.
  unfold len. induction s as [| c s IH]; [reflexivity |].
  rewrite RnaDbFacts.append_cons. cbn [String.length]. lia.
Qed.

Lemma copy_bases_spec rest :
  forall ann_pos pos result,
  exists copied rest',
    copy_bases ann_pos pos rest result = (pos + len copied, rest', result ++ copied)
    /\ rest = copied ++ rest'
    /\ (pos <= ann_pos -> ann_pos <= pos + len rest -> pos + len copied = ann_pos).
Proof.
  induction rest as [| c rest IH]; intros ann_pos pos result; cbn [copy_bases].
  - exists "", "". rewrite DirectiveMoreFacts.append_nil_r.
    replace (pos + len "") with pos by (unfold len; cbn; lia).
    split; [reflexivity |]. split; [reflexivity |]. unfold len; cbn; lia.
  - destruct (pos <? ann_pos) eqn:Hlt.
    + destruct (IH ann_pos (pos + 1) (result ++ String c ""))
        as (copied & rest' & Hc & Hr & Hp).
      exists (String c copied), rest'. rewrite Hc.
      replace (pos + 1 + len copied) with (pos + len (String c copied))
        by (unfold len; cbn [String.length]; lia).
      rewrite RnaDbFacts.append_assoc.
      split; [reflexivity |]. split.
      * now rewrite RnaDbFacts.append_cons, <- Hr.
      * intros H1 H2. apply Z.ltb_lt in Hlt.
        unfold len in *. cbn [String.length] in *. lia.
    + exists "", (String c rest). rewrite DirectiveMoreFacts.append_nil_r.
      replace (pos + len "") with pos by (unfold len; cbn; lia).
      split; [reflexivity |]. split; [reflexivity |].
      apply Z.ltb_ge in Hlt. lia.
Qed.


Lemma copy_rest_spec rest : forall result, copy_rest rest result = result ++ rest.
Proof.
  induction rest as [| c rest IH]; intros result; cbn [copy_rest].
  - now rewrite DirectiveMoreFacts.append_nil_r.
  - rewrite IH, RnaDbFacts.append_assoc. reflexivity.
Qed.

Lemma place_spec anns :
  forall pos rest result,
  exists pieces,
    place anns pos rest result = result ++ render pieces
    /\ bases pieces = rest
    /\ (StronglySorted (fun x y => fst x <= fst y) anns ->
        Forall (fun x => pos <= fst x <= pos + len rest) anns ->
        placed_from pos pieces = anns).
Proof.
  induction anns as [| [ann_pos ann_text] anns IH]; intros pos rest result;
    cbn [place].
  - exists (base_pieces rest). rewrite copy_rest_spec.
    pose proof (render_bases rest []) as Hr. pose proof (bases_bases rest []) as Hb.
    pose proof (placed_bases rest pos []) as Hp.
    rewrite app_nil_r in Hr, Hb, Hp. cbn in Hr, Hb, Hp.
    rewrite DirectiveMoreFacts.append_nil_r in Hr, Hb.
    rewrite Hr, Hb, Hp. auto.
  - destruct (copy_bases_spec rest ann_pos pos result)
      as (copied & rest' & Hc & Hrest & Hpos).
    rewrite Hc.
    destruct (IH (pos + len copied) rest' ((result ++ copied) ++ ann_text))
      as (pieces & Hplace & Hbases & Hplaced).
    exists (base_pieces copied ++ Tag ann_text :: pieces)%list.
    rewrite Hplace, render_bases, bases_bases, placed_bases.
    cbn [render bases placed_from]. rewrite Hbases, !RnaDbFacts.append_assoc.
    split; [reflexivity |]. split; [now rewrite Hrest |].
    intros Hsorted Hbound.
    apply StronglySorted_inv in Hsorted as [Hsorted Hfirst].
    apply Forall_cons in Hbound as [Hhere Hbound]. cbn [fst] in *.
    specialize (Hpos ltac:(lia) ltac:(lia)).
    rewrite Hplaced; [now rewrite Hpos | exact Hsorted |].
    rewrite Hrest, len_app in Hbound.
    apply Forall_forall. intros x Hx.
    pose proof (proj1 (Forall_forall _ _) Hbound x Hx) as Hb.
    pose proof (proj1 (Forall_forall _ _) Hfirst x Hx) as Hf.
    cbn [fst] in *. lia.
Qed.

(** X22.  [format_sequence] keeps every base of the sequence, in order, and
    writes the two tags of each stored feature where the feature starts
    and ends: the opening tag after as many bases as its start within
    the region counts, the closing tag after as many as its end.  The
    tags follow one another by position.  Without a stored feature the
    result is the sequence. *)
Theorem tags_stand_at_their_offsets (sequence : string) (region_start : Z)
    (fs : list (Feature F)) :
  let a := add_features fs (new sequence region_start) in
  exists pieces,
    format_sequence a = render pieces
    /\ bases pieces = sequence
    /\ Permutation (placed pieces) (flat_map tags_of (features a))
    /\ StronglySorted (fun x y => fst x <= fst y) (placed pieces)
    /\ (features a = [] -> format_sequence a = sequence).
Proof.
  intros a.
  destruct (add_features_clips fs (new sequence region_start)) as (Hseq & _ & Hf).
  fold a in Hseq, Hf. cbn in Hseq, Hf.
  assert (Hperm : Permutation (annotations a) (flat_map tags_of (features a))).
  { unfold annotations. rewrite sorted_perm.
    apply Permutation_flat_map, sorted_perm. }
  destruct (place_spec (annotations a) 0 (Browser.sequence a) "")
    as (pieces & Hplace & Hbases & Hplaced).
  change ("" ++ render pieces) with (render pieces) in Hplace.
  assert (Hplaced' : placed pieces = annotations a).
  { apply Hplaced; [apply annotations_by_position |].
    eapply Permutation_Forall; [symmetry; exact Hperm |].
    apply Forall_flat_map, Forall_forall. intros [[s e] f] Hx.
    rewrite Hf in Hx.
    apply list_elem_of_In, in_map_iff in Hx as (f' & Hclip & Hin).
    apply filter_In in Hin as [_ Hc].
    pose proof (clip_within sequence region_start f' Hc) as Hw.
    rewrite Hclip in Hw. rewrite Hseq. cbn. repeat constructor; cbn; lia. }
  exists pieces. unfold format_sequence. rewrite Hplace, Hplaced', <- Hseq.
  split; [reflexivity |]. split; [exact Hbases |]. split; [exact Hperm |].
  split; [apply annotations_by_position |].
  intros Hnone. rewrite <- Hplaced' in Hperm. rewrite Hnone in Hperm. cbn in Hperm.
  apply Permutation_nil_r in Hperm.
  rewrite <- Hbases. clear -Hperm.
  unfold placed in Hperm. revert Hperm. generalize 0.
  induction pieces as [| [c | t] pieces IH]; intros n Hp; cbn in *.
  - reflexivity.
  - f_equal. eapply IH, Hp.
  - discriminate.
Qed.

End Annotated.


(** *** [extract_features] *)

Section Extract.
Context {F : Type} `{Mcp.PyFloat F}.
Variable py_repr : json F -> string.

Lemma name_or_unnamed_nonempty name : name_or_unnamed name <> "".
Proof.
  unfold name_or_unnamed. destruct name as [[| c s] |]; cbn; discriminate.
Qed.

Lemma extract_items_spec track items :
  forall n acc fs,
    extract_items py_repr track items (Z.of_nat n) acc = inr fs ->
    exists added,
      fs = (acc ++ added)%list
      /\ map feat_id added
         = map (fun i => nth_id (n + i)) (seq 1 (length added))
      /\ Forall (fun f => feat_track f = track /\ feat_type f = track
                          /\ feat_name f <> ""
                          /\ In (JObj (feat_raw_data f)) items) added.
Proof.
  induction items as [| item items IH]; intros n acc fs; cbn [extract_items].
  - intros [= <-]. exists []. rewrite app_nil_r. repeat split. constructor.
  - assert (Hskip : extract_items py_repr track items (Z.of_nat n) acc = inr fs ->
              exists added,
                fs = (acc ++ added)%list
                /\ map feat_id added
                   = map (fun i => nth_id (n + i)) (seq 1 (length added))
                /\ Forall (fun f => feat_track f = track /\ feat_type f = track
                                    /\ feat_name f <> ""
                                    /\ In (JObj (feat_raw_data f)) (item :: items))
                     added).
    { intros Hrun. destruct (IH n acc fs Hrun) as (added & Hfs & Hids & Hall).
      exists added. split; [exact Hfs |]. split; [exact Hids |].
      eapply Forall_impl; [exact Hall |]. cbn. intros f (? & ? & ? & ?). auto. }
    destruct item as [| b | z | f | s | l | members]; try exact Hskip.
    destruct (first_int start_fields members) as [x | start]; cbn [Py.bind];
      [discriminate |].
    destruct (first_int end_fields members) as [x | end_]; cbn [Py.bind];
      [discriminate |].
    destruct start as [start |], end_ as [end_ |]; try exact Hskip.
    replace (Z.of_nat n + 1) with (Z.of_nat (S n)) by lia.
    intros Hrun. destruct (IH (S n) _ fs Hrun) as (added & Hfs & Hids & Hall).
    eexists (_ :: added). rewrite <- app_assoc in Hfs. split; [exact Hfs |].
    split; [| constructor].
    + cbn [map length seq]. f_equal.
      * cbn [feat_id]. unfold nth_id. do 2 f_equal. lia.
      * rewrite Hids, <- (seq_shift (length added) 1), List.map_map. apply List.map_ext. intros i.
        unfold nth_id. do 3 f_equal. lia.
    + cbn. repeat split; auto using name_or_unnamed_nonempty.
    + eapply Forall_impl; [exact Hall |]. cbn. intros f (? & ? & ? & ?). auto.
Qed.

(** X23.  The features that [extract_features] reads from the reply for a
    track are numbered from [id00001] on, in the order of the reply, and
    the numbering starts again with every track; each carries the track
    as its track and as its type, a name that is not empty, and the item
    of the reply it was read from. *)
Theorem features_are_numbered_per_track (track_data : json F) (track : string)
    (fs : list (Feature F)) :
  extract_features py_repr track_data track = inr fs ->
  map feat_id fs = map nth_id (seq 1 (length fs))
  /\ Forall (fun f => feat_track f = track /\ feat_type f = track
                      /\ feat_name f <> "") fs
  /\ forall items,
       iterate (items_of track_data track) = inr items ->
       Forall (fun f => In (JObj (feat_raw_data f)) items) fs.
Proof.
  unfold extract_features.
  destruct (iterate (items_of track_data track)) as [x | items]; cbn [Py.bind];
    [discriminate |].
  intros Hrun.
  destruct (extract_items_spec track items 0 [] fs Hrun) as (added & -> & Hids & Hall).
  cbn [app]. split; [exact Hids |]. split.
  - eapply Forall_impl; [exact Hall |]. cbn. intros f (? & ? & ? & ?). auto.
  - intros items' [= <-]. eapply Forall_impl; [exact Hall |].
    cbn. intros f (? & ? & ? & ?). auto.
Qed.

Lemma extract_items_app track before :
  forall after n acc fs,
    extract_items py_repr track before n acc = inr fs ->
    exists m,
      extract_items py_repr track (before ++ after) n acc
      = extract_items py_repr track after m fs.
Proof.
  induction before as [| item before IH]; intros after n acc fs;
    cbn [extract_items app].
  - intros Heq. exists n. congruence.
  - destruct item as [| b | z | f | s | l | members]; try apply IH.
    destruct (first_int start_fields members) as [x | start]; cbn [Py.bind];
      [discriminate |].
    destruct (first_int end_fields members) as [x | end_]; cbn [Py.bind];
      [discriminate |].
    destruct start as [start |], end_ as [end_ |]; apply IH.
Qed.

(** X24.  A coordinate that cannot be read as an integer is not skipped:
    the exception of [int()] leaves [extract_features], and with it go
    the features already read from the items in front. *)
Theorem unreadable_coordinate_fails_the_track (track_data : json F)
    (track : string) (before after : list (json F))
    (item : list (string * json F)) (fs : list (Feature F)) (x : Py.exn) :
  iterate (items_of track_data track) = inr (before ++ JObj item :: after)%list ->
  extract_items py_repr track before 0 [] = inr fs ->
  first_int start_fields item = inl x
  \/ (exists start, first_int start_fields item = inr start)
     /\ first_int end_fields item = inl x ->
  extract_features py_repr track_data track = inl x.
Proof.
  intros Hitems Hbefore Hbad. unfold extract_features.
  rewrite Hitems. cbn [Py.bind].
  destruct (extract_items_app track before (JObj item :: after) 0 [] fs Hbefore)
    as (m & ->).
  cbn [extract_items].
  destruct Hbad as [-> | [[start ->] ->]]; reflexivity.
Qed.

End Extract.

End BrowserFacts.

Lemma features_are_numbered_per_track_witness :
  map Browser.feat_id [SampleBrowser.ala_feature; SampleBrowser.unnamed_feature]
  = map Browser.nth_id (seq 1 2)
  /\ Forall (fun f => Browser.feat_track f = "tRNAs"
                      /\ Browser.feat_type f = "tRNAs"
                      /\ Browser.feat_name f <> "")
       [SampleBrowser.ala_feature; SampleBrowser.unnamed_feature]
  /\ forall items,
       Browser.iterate (Browser.items_of SampleBrowser.reply "tRNAs") = inr items ->
       Forall (fun f => In (Browser.JObj (Browser.feat_raw_data f)) items)
         [SampleBrowser.ala_feature; SampleBrowser.unnamed_feature].
Proof.
  apply (BrowserFacts.features_are_numbered_per_track SampleBrowser.sample_repr
           SampleBrowser.reply "tRNAs"
           [SampleBrowser.ala_feature; SampleBrowser.unnamed_feature]).
  vm_compute; reflexivity.
Defined.

Lemma unreadable_coordinate_fails_the_track_witness :
  Browser.extract_features SampleBrowser.sample_repr SampleBrowser.bad_reply "tRNAs"
  = inl (Py.ValueError "invalid literal for int() with base 10: 'ten'").
Proof.
  apply (BrowserFacts.unreadable_coordinate_fails_the_track
           SampleBrowser.sample_repr SampleBrowser.bad_reply "tRNAs"
           [Browser.JObj SampleBrowser.ala_item] [] SampleBrowser.bad_item
           [SampleBrowser.ala_feature]).
  - reflexivity.
  - vm_compute; reflexivity.
  - left. vm_compute; reflexivity.
Defined.

(** ** The CRAP tool *)

Module CrapFacts.
Import Mcp Browser Crap Gen GenFacts.
#[local] Set Default Proof Using "Type".

Section Facts.
Context {F Json : Type} `{PyFloat F}.
Variable py_str : pyval F -> string.
Variable py_repr : json F -> string.
Variable feature_dict : Feature F -> Json.
Variable b64encode : string -> string.
Variable FloatSpans : Type.
Variable float_none : FloatSpans.
Variable float_add : F -> string -> Feature F -> FloatSpans -> Py.exn + FloatSpans.
Variable float_format : string -> FloatSpans -> string.
Variable e : env F.

#[local] Abbreviation each_track :=
  (Crap.each_track py_repr FloatSpans float_add e).
#[local] Abbreviation view_region :=
  (Crap.view_region py_str py_repr FloatSpans float_none float_add float_format e).
#[local] Abbreviation process_request :=
  (Crap.process_request (Json := Json) py_str py_repr feature_dict b64encode
     FloatSpans float_none float_add float_format e).

(** Without a stored feature [format_sequence] gives the sequence. *)
Lemma format_new (sequence : string) (z : Z) :
  format_sequence (new (F := F) sequence z) = sequence.
Proof.
  unfold format_sequence, annotations. cbn.
  now rewrite BrowserFacts.copy_rest_spec.
Qed.

(** With a start that allows no subtraction, the loop over the tracks
    ends without an exception only when no track gave a feature. *)
Lemma each_track_other region sequence type_name tracks :
  forall all_features st found st',
    each_track region sequence tracks all_features (OtherStart type_name) st
    = (inr found, st') ->
    found = (all_features, OtherStart type_name).
Proof.
  induction tracks as [| track tracks IH]; intros all_features st found st';
    cbn [Crap.each_track].
  - now intros [= <- _].
  - unfold Gen.bind at 1. cbn [get_track_data].
    unfold Gen.bind at 1, Gen.lift.
    destruct (extract_features _ _ _) as [x | features]; [discriminate |].
    destruct features as [| feature features].
    + unfold Gen.bind at 1. cbn [add_each]. rewrite app_nil_r. apply IH.
    + unfold Gen.bind at 1. cbn. discriminate.
Qed.

(** Only the loop over the tracks calls the track endpoint. *)
Lemma each_track_calls region sequence tracks :
  forall all_features ann st,
  exists asked,
    track_calls (snd (each_track region sequence tracks all_features ann st))
    = (track_calls st ++ asked)%list
    /\ asked `prefix_of` tracks.
Proof.
  induction tracks as [| track tracks IH]; intros all_features ann st;
    cbn [Crap.each_track].
  - exists []. cbn. now rewrite app_nil_r.
  - unfold Gen.bind at 1. cbn [get_track_data].
    unfold Gen.bind at 1, Gen.lift.
    destruct (extract_features _ _ _) as [x | features].
    { exists [track]. cbn. split; [reflexivity |]. now apply prefix_cons, prefix_nil. }
    unfold Gen.bind at 1.
    destruct (add_each _ _ _ _ _) as [x | ann'].
    { exists [track]. cbn. split; [reflexivity |]. now apply prefix_cons, prefix_nil. }
    match goal with |- context [Crap.each_track _ _ _ _ _ _ _ ?fs ?a ?s] =>
      destruct (IH fs a s) as (asked & Hasked & Hprefix) end.
    exists (track :: asked). rewrite Hasked. cbn. rewrite <- app_assoc.
    split; [reflexivity | now apply prefix_cons].
Qed.


#[local] Abbreviation answer :=
  (Crap.answer (Json := Json) py_str py_repr feature_dict b64encode FloatSpans
     float_none float_add float_format e).

(** The start of the region of a request built from a CRAP directive is
    a string, or [None] when the directive names none. *)
Lemma directive_start (plan_response : string) (session : context)
    (parsed : gmap string (pyval F)) (sequence : string) :
  Directive.parse Directive.crap_key plan_response = inr parsed ->
  exists type_name,
    (type_name = "str" \/ type_name = "NoneType")
    /\ annotate FloatSpans float_none sequence
         (start (region_of (<["context" := VContext session]> parsed)))
       = OtherStart type_name.
Proof.
  intros Hparse. unfold Directive.parse in Hparse.
  destruct (DirectiveMoreFacts.crap_parts (F := F) ∅ (tail (Py.split plan_response)))
    as (d & Hd & Hall); [apply map_Forall_empty |].
  rewrite Hparse in Hd. injection Hd as <-.
  unfold region_of. cbn [start]. rewrite lookup_insert_ne by discriminate.
  destruct (parsed !! "start") as [v |] eqn:Hv; cbn.
  - destruct (Hall _ _ Hv) as [t ->]. exists "str". auto.
  - exists "NoneType". auto.
Qed.

Lemma answer_other (request : MCPRequest F) (st st' : calls)
    (response : MCPResponse F Json) :
  (forall sequence, exists type_name,
      annotate FloatSpans float_none sequence (start (region_of (params request)))
      = OtherStart type_name) ->
  answer request st = (inr response, st') ->
  exists r,
    response = success (DataRegion r)
    /\ reg_features r = [] /\ reg_annotated_sequence r = reg_sequence r.
Proof.
  intros Hstart. unfold Crap.answer, Crap.view_region.
  unfold Gen.bind at 1 2. cbn [get_sequence].
  destruct (sequence_endpoint _ _ _) as [x | [| sequence]]; try discriminate.
  unfold Gen.bind at 1, Gen.lift.
  destruct (shown _) as [x | tracks_to_show]; [discriminate |].
  unfold Gen.bind at 1.
  destruct (Hstart sequence) as [type_name ->].
  destruct (Crap.each_track _ _ _ _ _ _ _ _ _ _) as [[x | found] st1] eqn:Hloop;
    [discriminate |].
  apply each_track_other in Hloop. subst found. cbn [fst snd].
  unfold Gen.bind at 1. cbn [capture_browser_screenshot].
  destruct (chrome _ _ _) as [x | image]; [discriminate |].
  unfold Gen.ret at 1. unfold Gen.bind at 1. cbn [capture_browser_screenshot].
  destruct (chrome _ _ _) as [x | image_bytes]; [discriminate |].
  unfold Gen.ret. intros [= <- _]. eexists. split; [reflexivity |].
  cbn [reg_features reg_annotated_sequence reg_sequence resp_features
       resp_annotated_sequence resp_sequence fst snd Crap.format].
  rewrite format_new. split; reflexivity.
Qed.

(** X25.  A CRAP request that [chatbot.py] builds from a directive never
    comes back annotated: the start of its region is a string or
    missing, so a successful response holds no feature and its annotated
    sequence is its sequence. *)
Theorem crap_directive_is_never_annotated (plan_response : string)
    (session : context) (parsed : gmap string (pyval F)) (st : calls)
    (r : region Json) :
  Directive.parse Directive.crap_key plan_response = inr parsed ->
  data_of (fst (process_request
                  {| method := "view_region";
                     params := <["context" := VContext session]> parsed |} st))
  = Some (DataRegion r) ->
  reg_features r = [] /\ reg_annotated_sequence r = reg_sequence r.
Proof.
  intros Hparse. unfold Crap.process_request.
  destruct (answer _ st) as [[x | response] st'] eqn:Hanswer; cbn; [discriminate |].
  apply answer_other in Hanswer as (r' & -> & Hfeatures & Hannotated).
  - cbn. now intros [= <-].
  - intros sequence. cbn [params].
    destruct (directive_start plan_response session parsed sequence Hparse)
      as (type_name & _ & Htype). eauto.
Qed.

(** X26.  When a track gives a feature to a CRAP request that [chatbot.py]
    built from a directive, the request fails: the first feature that
    [view_region] adds to the annotated sequence raises a [TypeError],
    the start of the region being a string or missing, and [CrapMCP]
    answers with a failure that carries its text. *)
Theorem crap_directive_with_a_feature_fails (plan_response : string)
    (session : context) (parsed : gmap string (pyval F)) (st : calls)
    (sequence track : string) (rest : list string) (track_data : json F)
    (feature : Feature F) (features : list (Feature F)) :
  Directive.parse Directive.crap_key plan_response = inr parsed ->
  let request :=
    {| method := "view_region";
       params := <["context" := VContext session]> parsed |} in
  let region := region_of (params request) in
  sequence_endpoint e (sequence_calls st) region = inr (Dna sequence) ->
  shown (tracks region) = inr (track :: rest) ->
  track_endpoint e (length (track_calls st)) region track = inr track_data ->
  extract_features py_repr track_data track = inr (feature :: features) ->
  exists type_name,
    (type_name = "str" \/ type_name = "NoneType")
    /\ fst (process_request request st)
       = {| status := "error"; data_of := None;
            error := Some {["message" :=
                              "unsupported operand type(s) for -: 'int' and '"
                              ++ type_name ++ "'"]} |}.
Proof.
  intros Hparse request region Hseq Hshown Htrack Hfeatures.
  destruct (directive_start plan_response session parsed sequence Hparse)
    as (type_name & Hname & Htype).
  exists type_name. split; [exact Hname |].
  unfold Crap.process_request, Crap.answer, Crap.view_region.
  fold request. fold region.
  unfold Gen.bind at 1 2. cbn [get_sequence]. rewrite Hseq.
  unfold Gen.bind at 1, Gen.lift. rewrite Hshown.
  unfold Gen.bind at 1. subst region request. cbn [params] in *. rewrite Htype.
  cbn [Crap.each_track]. unfold Gen.bind at 1. cbn [get_track_data track_calls].
  rewrite Htrack. unfold Gen.bind at 1, Gen.lift. rewrite Hfeatures.
  unfold Gen.bind at 1. cbn. reflexivity.
Qed.

(** X27.  A request without [tracks] asks the track endpoint for nothing:
    the default tracks serve only a request whose [tracks] is [None].
    Its response is a failure that carries a message and no code, or a
    success without tracks and without features, for which the sequence
    was fetched once and the browser driven twice, once by [view_region]
    and once by [CrapMCP]. *)
Theorem request_without_tracks_asks_for_no_track (request : MCPRequest F)
    (st : calls) :
  params request !! "tracks" = None ->
  let response := fst (process_request request st) in
  let st' := snd (process_request request st) in
  track_calls st' = track_calls st
  /\ ((exists r,
         response = success (DataRegion r)
         /\ reg_tracks r = [] /\ reg_features r = []
         /\ sequence_calls st' = S (sequence_calls st)
         /\ screenshot_calls st' = S (S (screenshot_calls st)))
      \/ (exists message,
            response = {| status := "error"; data_of := None;
                          error := Some {["message" := message]} |})).
Proof.
  intros Htracks. cbn zeta.
  destruct (process_request request st) as [response st'] eqn:Hrun.
  cbn [fst snd]. revert Hrun.
  unfold Crap.process_request, Crap.answer, Crap.view_region.
  unfold Gen.bind at 1 2. cbn [get_sequence].
  destruct (sequence_endpoint _ _ _) as [x | [| sequence]];
    try (intros [= <- <-]; split; [reflexivity | right; eexists; reflexivity]).
  unfold Gen.bind at 1, Gen.lift. unfold region_of at 1. cbn [tracks].
  rewrite Htracks. cbn [shown].
  unfold Gen.bind at 1. cbn [Crap.each_track]. unfold Gen.ret at 1. cbn [fst snd].
  unfold Gen.bind at 1. cbn [capture_browser_screenshot].
  destruct (chrome _ _ _) as [x | image];
    [intros [= <- <-]; split; [reflexivity | right; eexists; reflexivity] |].
  unfold Gen.ret at 1. unfold Gen.bind at 1. cbn [capture_browser_screenshot].
  destruct (chrome _ _ _) as [x | image_bytes];
    [intros [= <- <-]; split; [reflexivity | right; eexists; reflexivity] |].
  unfold Gen.ret. intros [= <- <-]. split; [reflexivity |]. left.
  eexists. split; [reflexivity |]. cbn. auto.
Qed.

End Facts.
End CrapFacts.

Lemma crap_directive_is_never_annotated_witness :
  Mcp.reg_features SampleCrap.region_result = []
  /\ Mcp.reg_annotated_sequence SampleCrap.region_result
     = Mcp.reg_sequence SampleCrap.region_result.
Proof.
  apply (CrapFacts.crap_directive_is_never_annotated Sample.sample_str
           SampleBrowser.sample_repr (fun _ => tt) (fun image => "base64:" ++ image)
           unit tt (fun _ _ _ spans => inr spans) (fun sequence _ => sequence)
           (SampleCrap.sample_env SampleCrap.track_reply)
           Sample.region_directive Sample.session Sample.region_params
           SampleCrap.no_calls SampleCrap.region_result).
  - vm_compute; reflexivity.
  - vm_compute; reflexivity.
Defined.

Lemma crap_directive_with_a_feature_fails_witness :
  exists type_name,
    (type_name = "str" \/ type_name = "NoneType")
    /\ fst (SampleCrap.process SampleCrap.track_reply
              (SampleCrap.region_request SampleCrap.track_params)
              SampleCrap.no_calls)
       = {| Mcp.status := "error"; Mcp.data_of := None;
            Mcp.error := Some {["message" :=
                                  "unsupported operand type(s) for -: 'int' and '"
                                  ++ type_name ++ "'"]} |}.
Proof.
  apply (CrapFacts.crap_directive_with_a_feature_fails Sample.sample_str
           SampleBrowser.sample_repr (fun _ => tt) (fun image => "base64:" ++ image)
           unit tt (fun _ _ _ spans => inr spans) (fun sequence _ => sequence)
           (SampleCrap.sample_env SampleCrap.track_reply)
           SampleCrap.track_directive Sample.session SampleCrap.track_params
           SampleCrap.no_calls "ACGTACGTACGT" "t" [] SampleCrap.track_reply
           SampleCrap.track_feature []).
  - vm_compute; reflexivity.
  - reflexivity.
  - vm_compute; reflexivity.
  - reflexivity.
  - vm_compute; reflexivity.
Defined.

Lemma request_without_tracks_asks_for_no_track_witness :
  let response :=
    fst (SampleCrap.process SampleCrap.track_reply
           (SampleCrap.region_request Sample.region_params) SampleCrap.no_calls) in
  let st' :=
    snd (SampleCrap.process SampleCrap.track_reply
           (SampleCrap.region_request Sample.region_params) SampleCrap.no_calls) in
  Crap.track_calls st' = Crap.track_calls SampleCrap.no_calls
  /\ ((exists r,
         response = Mcp.success (Mcp.DataRegion r)
         /\ Mcp.reg_tracks r = [] /\ Mcp.reg_features r = []
         /\ Crap.sequence_calls st' = S (Crap.sequence_calls SampleCrap.no_calls)
         /\ Crap.screenshot_calls st'
            = S (S (Crap.screenshot_calls SampleCrap.no_calls)))
      \/ (exists message,
            response = {| Mcp.status := "error"; Mcp.data_of := None;
                          Mcp.error := Some {["message" := message]} |})).
Proof.
  apply (CrapFacts.request_without_tracks_asks_for_no_track Sample.sample_str
           SampleBrowser.sample_repr (fun _ => tt) (fun image => "base64:" ++ image)
           unit tt (fun _ _ _ spans => inr spans) (fun sequence _ => sequence)
           (SampleCrap.sample_env SampleCrap.track_reply)
           (SampleCrap.region_request Sample.region_params) SampleCrap.no_calls).
  vm_compute; reflexivity.
Defined.

(** ** The event stream of [views.py] over a run of [chatbot.py] *)

Module ViewsFacts.
Import Mcp Chatbot Protocol Views.
#[local] Set Default Proof Using "Type".

Section Facts.
Context {F Json : Type} `{PyFloat F}.

Lemma forward_all (flush : nat -> Py.exn + unit) (chunks : list (event F Json)) :
  (forall i, flush i = inr tt) ->
  forall i, forward flush i chunks = (map ChunkFrame chunks, None).
Proof.
  intros Hflush. induction chunks as [| chunk chunks IH]; intros i; cbn.
  - reflexivity.
  - now rewrite Hflush, IH.
Qed.

Lemma response_part_closing (resp : list (event F Json)) :
  response_part resp -> resp <> [] ->
  exists body closing,
    resp = (body ++ [closing])%list /\ (is_end closing \/ is_run_error closing).
Proof.
  intros [| ev Hev | t tokens closing Htokens Hclosing] Hne.
  - contradiction.
  - exists [], ev. auto.
  - exists (mark_event "start_response" t :: tokens), closing. auto.
Qed.

(** X28.  What a client of [views.py] receives for a message, when the
    flushing of the response does not fail and the loop maximum is at
    least one: the [start] event of the view, the events of the run of
    [chatbot.py], of which the last is the [end] event of the run or the
    error of its handler, and then the [end] event of the view.  So a
    run that succeeds sends [end] twice, and [end] also follows an
    error. *)
Theorem client_receives_end_after_the_run
    (json_get : Json -> string -> Py.exn + option Json) (e : env F Json)
    (session : context) (model_name : string) (max_loops : Z) (message : string)
    (flush : nat -> Py.exn + unit) (chat_id title model : string)
    (started finished : nat) :
  (forall i, flush i = inr tt) ->
  1 <= max_loops ->
  exists body closing,
    out (Chatbot.process_message json_get e session model_name max_loops message)
    = (body ++ [closing])%list
    /\ (is_end closing \/ is_run_error closing)
    /\ event_stream flush chat_id title model started finished
         (out (Chatbot.process_message json_get e session model_name max_loops
                 message))
       = (StartFrame chat_id title model started
          :: map ChunkFrame body ++ [ChunkFrame closing; EndFrame finished])%list.
Proof.
  intros Hflush Hmax.
  destruct (ProtocolFacts.run_shape json_get e session model_name max_loops message)
    as (tools & resp & Hout & _ & Hresp & Hne).
  destruct (response_part_closing resp Hresp (Hne Hmax))
    as (body & closing & -> & Hclosing).
  exists (tools ++ body)%list, closing.
  rewrite Hout, app_assoc. split; [reflexivity |]. split; [exact Hclosing |].
  unfold event_stream. rewrite (forward_all flush _ Hflush).
  rewrite map_app, <- app_assoc. reflexivity.
Qed.

End Facts.

(** *** Pages of [ChatView.get] *)

Section Pages.
Context {A : Type}.

Lemma chunks_cover (k : nat) :
  (0 < k)%nat ->
  forall (n : nat) (rows : list A),
    (length rows <= n * k)%nat ->
    concat (map (fun i => take k (drop (i * k) rows)) (seq 0 n)) = rows.
Proof.
  intros Hk. induction n as [| n IH]; intros rows Hlen.
  - destruct rows; [reflexivity | cbn in Hlen; lia].
  - cbn [seq map concat]. rewrite <- seq_shift, List.map_map.
    transitivity (take k rows ++ drop k rows)%list; [| apply take_drop].
    f_equal.
    rewrite <- (IH (drop k rows)) by (rewrite length_drop; lia).
    f_equal. apply List.map_ext. intros i. now rewrite drop_drop.
Qed.

Lemma chat_page_listed (rows : list A) (page page_size : Z) :
  1 <= page -> 1 <= page_size ->
  chat_page rows page page_size
  = Listed (take (Z.to_nat page_size)
              (drop (Z.to_nat (page - 1) * Z.to_nat page_size) rows))
      page page_size (Z.of_nat (length rows))
      ((Z.of_nat (length rows) + page_size - 1) / page_size).
Proof.
  intros Hpage Hsize. unfold chat_page, slice.
  replace (((page - 1) * page_size <? 0) || ((page - 1) * page_size + page_size <? 0))
    with false by (symmetry; apply orb_false_iff; rewrite !Z.ltb_ge; nia).
  replace (page_size =? 0) with false by (symmetry; apply Z.eqb_neq; lia).
  do 3 f_equal; [lia | nia].
Qed.

(** X29.  With a page size of at least one, the pages of [ChatView.get]
    divide the chats: the pages from one to [total_pages], one after
    the other, give every chat once and in order; each of them holds a
    chat and at most [page_size] of them; the pages after [total_pages]
    are empty. *)
Theorem pages_divide_the_chats (rows : list A) (page_size : Z) :
  1 <= page_size ->
  exists total_pages,
    (forall page, 1 <= page ->
       exists chats,
         chat_page rows page page_size
         = Listed chats page page_size (Z.of_nat (length rows)) total_pages
         /\ (Z.of_nat (length chats) <= page_size)
         /\ (page <= total_pages -> chats <> [])
         /\ (total_pages < page -> chats = []))
    /\ concat (map (fun page => chats_of (chat_page rows page page_size))
                 (pages total_pages))
       = rows.
Proof.
  intros Hsize.
  set (total := Z.of_nat (length rows)).
  set (n := (total + page_size - 1) / page_size).
  assert (Hn : n * page_size >= total /\ (n - 1) * page_size < total /\ 0 <= n).
  { pose proof (Z.div_mod (total + page_size - 1) page_size ltac:(lia)) as Hdm.
    pose proof (Z.mod_pos_bound (total + page_size - 1) page_size ltac:(lia)) as Hb.
    fold n in Hdm. subst total. nia. }
  exists n. split.
  - intros page Hpage. eexists. split; [apply chat_page_listed; lia |].
    rewrite length_take, length_drop.
    split; [lia |]. split.
    + intros Hle Hnil. apply (f_equal length) in Hnil.
      rewrite length_take, length_drop in Hnil. cbn in Hnil. subst total. nia.
    + intros Hlt. apply length_zero_iff_nil.
      rewrite length_take, length_drop. subst total. nia.
  - unfold pages. rewrite List.map_map.
    erewrite List.map_ext; [apply (chunks_cover (Z.to_nat page_size)); [lia |] |].
    + subst total. nia.
    + intros i. cbn beta. rewrite chat_page_listed by lia. cbn [chats_of].
      do 3 f_equal. lia.
Qed.

End Pages.

End ViewsFacts.

Lemma client_receives_end_after_the_run_witness :
  exists body closing,
    Chatbot.out
      (Chatbot.process_message (fun _ _ => inr None)
         (Sample.chatbot_env [Sample.limit_2]) Sample.session "model" 5 "query")
    = (body ++ [closing])%list
    /\ (Protocol.is_end closing \/ Protocol.is_run_error closing)
    /\ Views.event_stream (fun _ => inr tt) "chat-1" "A chat" "model" 0 9
         (Chatbot.out
            (Chatbot.process_message (fun _ _ => inr None)
               (Sample.chatbot_env [Sample.limit_2]) Sample.session "model" 5
               "query"))
       = (Views.StartFrame "chat-1" "A chat" "model" 0
          :: map Views.ChunkFrame body
          ++ [Views.ChunkFrame closing; Views.EndFrame 9])%list.
Proof.
  apply (ViewsFacts.client_receives_end_after_the_run (fun _ _ => inr None)
           (Sample.chatbot_env [Sample.limit_2]) Sample.session "model" 5 "query"
           (fun _ => inr tt) "chat-1" "A chat" "model" 0 9).
  - reflexivity.
  - lia.
Defined.

Lemma pages_divide_the_chats_witness :
  exists total_pages,
    (forall page, 1 <= page ->
       exists chats,
         Views.chat_page ["a"; "b"; "c"; "d"; "e"] page 2
         = Views.Listed chats page 2 5 total_pages
         /\ (Z.of_nat (length chats) <= 2)
         /\ (page <= total_pages -> chats <> [])
         /\ (total_pages < page -> chats = []))
    /\ concat (map (fun page => Views.chats_of
                                  (Views.chat_page ["a"; "b"; "c"; "d"; "e"] page 2))
                 (Views.pages total_pages))
       = ["a"; "b"; "c"; "d"; "e"].
Proof.
  apply (ViewsFacts.pages_divide_the_chats ["a"; "b"; "c"; "d"; "e"] 2). lia.
Defined.

(** ** The registry of [event_manager.py] *)

Module RegistryFacts.
Import Registry.
#[local] Set Default Proof Using "Type".

Section Facts.
Context {Data : Type}.

Lemma registered_empty : registered (@empty Data).
Proof. split; intros ? *; cbn; rewrite lookup_empty; discriminate. Qed.

Lemma registered_get (chat_id : string) (w : world Data) :
  registered w -> registered (snd (get_event_manager chat_id w)).
Proof.
  intros [Hdom Hinj]. unfold get_event_manager.
  destruct (_event_managers w !! chat_id) as [manager |] eqn:Hc; [now split |].
  assert (Hfresh : forall c, _event_managers w !! c <> Some (new_manager w)).
  { intros c Hm. apply (is_fresh (dom (managers w))). exact (Hdom c _ Hm). }
  split; cbn.
  - intros c m. rewrite dom_insert.
    destruct (decide (chat_id = c)) as [<- | Hne].
    + rewrite lookup_insert_eq. intros [= <-]. set_solver.
    + rewrite lookup_insert_ne by exact Hne. intros Hm.
      specialize (Hdom c m Hm). set_solver.
  - intros c c' m.
    destruct (decide (chat_id = c)) as [<- | Hne],
      (decide (chat_id = c')) as [<- | Hne'];
      rewrite ?lookup_insert_eq, ?lookup_insert_ne by assumption.
    + reflexivity.
    + intros [= <-] Hm. now apply Hfresh in Hm.
    + intros Hm [= <-]. now apply Hfresh in Hm.
    + apply Hinj.
Qed.

Lemma registered_add (manager : nat) event_type (data : Data) now w :
  registered w -> registered (add_event manager event_type data now w).
Proof.
  intros [Hdom Hinj]. split; cbn; [| exact Hinj].
  intros c m Hm. rewrite dom_insert. specialize (Hdom c m Hm). set_solver.
Qed.

Lemma registered_cleanup (chat_id : string) (w : world Data) :
  registered w -> registered (cleanup_event_manager chat_id w).
Proof.
  intros [Hdom Hinj]. split; cbn.
  - intros c m Hm. apply lookup_delete_Some in Hm as [_ Hm]. eauto.
  - intros c c' m Hm Hm'. apply lookup_delete_Some in Hm as [_ Hm].
    apply lookup_delete_Some in Hm' as [_ Hm']. eauto.
Qed.

Lemma get_registers (chat_id : string) (w : world Data) :
  _event_managers (snd (get_event_manager chat_id w)) !! chat_id
  = Some (fst (get_event_manager chat_id w)).
Proof.
  unfold get_event_manager.
  destruct (_event_managers w !! chat_id) as [manager |] eqn:Hc; cbn;
    [exact Hc | apply lookup_insert_eq].
Qed.

(** X30.  The registry hands out one manager for a chat: a second
    [get_event_manager] gives the manager of the first, with the events
    added meanwhile, and the manager of another chat is another object.
    After [cleanup_event_manager] the next [get_event_manager] creates a
    manager whose queue is empty; the events queued before stay with the
    old manager, which the registry does not reach any more. *)
Theorem registry_hands_out_one_manager (w : world Data) (chat_id other : string)
    (event_type : string) (data : Data) (now : nat) :
  registered w ->
  let manager := fst (get_event_manager chat_id w) in
  let w1 := snd (get_event_manager chat_id w) in
  let w2 := add_event manager event_type data now w1 in
  let w3 := cleanup_event_manager chat_id w2 in
  get_event_manager chat_id w2 = (manager, w2)
  /\ queue manager w2
     = EventManager.add_event event_type data now (queue manager w1)
  /\ (other <> chat_id -> fst (get_event_manager other w2) <> manager)
  /\ fst (get_event_manager chat_id w3) <> manager
  /\ queue (fst (get_event_manager chat_id w3)) (snd (get_event_manager chat_id w3))
     = []
  /\ queue manager (snd (get_event_manager chat_id w3)) = queue manager w2
  /\ registered (snd (get_event_manager chat_id w3)).
Proof.
  intros Hw manager w1 w2 w3.
  pose proof (registered_get chat_id w Hw) as Hw1. fold w1 in Hw1.
  pose proof (get_registers chat_id w) as Hreg. fold w1 manager in Hreg.
  pose proof (registered_add manager event_type data now w1 Hw1) as Hw2. fold w2 in Hw2.
  pose proof (registered_cleanup chat_id w2 Hw2) as Hw3. fold w3 in Hw3.
  assert (Hin : manager ∈ dom (managers w2)).
  { destruct Hw2 as [Hdom _]. exact (Hdom chat_id manager Hreg). }
  split; [| split; [| split; [| split; [| split; [| split]]]]].
  - unfold get_event_manager. replace (_event_managers w2) with (_event_managers w1)
      by reflexivity. now rewrite Hreg.
  - unfold queue at 1. cbn. now rewrite lookup_insert_eq.
  - intros Hne. unfold get_event_manager.
    destruct (_event_managers w2 !! other) as [m |] eqn:Hm; cbn.
    + intros ->. destruct Hw2 as [_ Hinj]. apply Hne. exact (Hinj _ _ _ Hm Hreg).
    + intros Heq. apply (is_fresh (dom (managers w2))).
      unfold new_manager in Heq. now rewrite Heq.
  - unfold get_event_manager. cbn. rewrite lookup_delete_eq. cbn.
    intros Heq. apply (is_fresh (dom (managers w3))).
    unfold new_manager in Heq. now rewrite Heq.
  - unfold get_event_manager. cbn. rewrite lookup_delete_eq. cbn.
    unfold queue. cbn. now rewrite lookup_insert_eq.
  - unfold get_event_manager. cbn. rewrite lookup_delete_eq. cbn.
    unfold queue. cbn. rewrite lookup_insert_ne; [reflexivity |].
    intros Heq. apply (is_fresh (dom (managers w3))).
    unfold new_manager in Heq. now rewrite Heq.
  - now apply registered_get.
Qed.

End Facts.
End RegistryFacts.

Lemma registry_hands_out_one_manager_witness :
  let manager := fst (Registry.get_event_manager "chat-1" (@Registry.empty unit)) in
  let w1 := snd (Registry.get_event_manager "chat-1" (@Registry.empty unit)) in
  let w2 := Registry.add_event manager "token" tt 0 w1 in
  let w3 := Registry.cleanup_event_manager "chat-1" w2 in
  Registry.get_event_manager "chat-1" w2 = (manager, w2)
  /\ Registry.queue manager w2
     = EventManager.add_event "token" tt 0 (Registry.queue manager w1)
  /\ ("chat-2" <> "chat-1" -> fst (Registry.get_event_manager "chat-2" w2) <> manager)
  /\ fst (Registry.get_event_manager "chat-1" w3) <> manager
  /\ Registry.queue (fst (Registry.get_event_manager "chat-1" w3))
       (snd (Registry.get_event_manager "chat-1" w3))
     = []
  /\ Registry.queue manager (snd (Registry.get_event_manager "chat-1" w3))
     = Registry.queue manager w2
  /\ Registry.registered (snd (Registry.get_event_manager "chat-1" w3)).
Proof.
  apply (RegistryFacts.registry_hands_out_one_manager Registry.empty "chat-1" "chat-2"
           "token" tt 0).
  split; intros ? *; cbn; rewrite lookup_empty; discriminate.
Defined.
